(** * curious: a shallow embedding of the client orchestrator and the
    identity / entity base classes

  Sources embedded here:
  - [curious/dataclasses/bases.py]  ([IDObject], [Dataclass])
  - [curious/dataclasses/emoji.py]  ([Emoji])
  - [curious/core/client.py]        ([Client.__init__], [fire_event],
    [edit_profile], [edit_avatar], [download_guild_members],
    [handle_dispatches], [handle_shard], [get_gateway_url],
    [get_shard_count], [start], [run_async], [events_handled])
  - [curious/util.py]               ([AsyncIteratorWrapper], [to_datetime])

  Python objects are records, Python values a small inductive type,
  exceptions an explicit result type, and everything the client does to
  the outside world (handler invocations, HTTP requests, gateway
  operations, log records) is appended to a trace. *)

From Stdlib Require Import ZArith List String Ascii Bool Lia.
From Stdlib Require Import DecimalString DecimalZ DecimalPos.
From Stdlib Require SpecFloat.
From stdpp Require Import gmap strings.
Import ListNotations.

Local Open Scope Z_scope.
Local Open Scope string_scope.

(* ===================================================================== *)
(** * Python values, exceptions and results *)
(* ===================================================================== *)

Module Py.

(** The values that flow through the embedded code. [VClient c] is a
    reference to the client object with identity [c]; [VObject what] is
    any other object, compared by identity. *)
#[warnings="-register-all"] Inductive Val : Type :=
| VNone
| VBool (b : bool)
| VInt (z : Z)
| VStr (s : string)
| VBytes (b : list Byte.byte)
| VList (l : list Val)
| VClient (c : nat)
| VObject (what : string).

(** The exceptions the embedded code raises, catches or lets through.
    [KeyboardInterrupt] stands for the [BaseException]s that an
    [except Exception] clause does not catch. *)
Inductive Exn : Type :=
| ValueError (msg : string)
| TypeError (msg : string)
| NameError (name : string)
| AttributeError (attr : string)
| KeyError (key : string)
| IndexError
| RuntimeError (msg : string)
| OverflowError (msg : string)
| ZeroDivisionError
| WebsocketClosed (code : Z) (reason : string)
| WebsocketUnusable
| ReconnectWebsocket
| ChunkGuilds
| HTTPException (status : Z)
| KeyboardInterrupt.

(** [isinstance(e, Exception)]. *)
Definition is_Exception (e : Exn) : bool :=
  match e with
  | KeyboardInterrupt => false
  | _ => true
  end.

(** The outcome of a call: a value, or a raised exception. *)
Inductive Res (A : Type) : Type :=
| Ok (a : A)
| Raise (e : Exn).
Arguments Ok {A} a.
Arguments Raise {A} e.

Definition bind {A B} (r : Res A) (k : A -> Res B) : Res B :=
  match r with
  | Ok a => k a
  | Raise e => Raise e
  end.

Definition is_ok {A} (r : Res A) : bool :=
  match r with Ok _ => true | Raise _ => false end.

(** ** [str(int)] and [int(str)] *)

(** [str(z)]: the canonical decimal numeral, ["-"] first when negative. *)
Definition str_of_int (z : Z) : string :=
  NilZero.string_of_int (Z.to_int z).

(** [str.isspace] on the ASCII range: space, tab, LF, VT, FF, CR and the
    four separators 0x1c-0x1f. *)
Definition is_space (c : ascii) : bool :=
  let n := nat_of_ascii c in
  (Nat.eqb n 32 || (Nat.leb 9 n && Nat.leb n 13)
   || (Nat.leb 28 n && Nat.leb n 31))%bool.

Definition is_digit (c : ascii) : bool :=
  let n := nat_of_ascii c in (Nat.leb 48 n && Nat.leb n 57)%bool.

Fixpoint lstrip (s : string) : string :=
  match s with
  | String c r => if is_space c then lstrip r else s
  | EmptyString => EmptyString
  end.

Fixpoint rev_string (acc s : string) : string :=
  match s with
  | EmptyString => acc
  | String c r => rev_string (String c acc) r
  end.

(** [s.strip()]. *)
Definition strip (s : string) : string :=
  rev_string EmptyString (lstrip (rev_string EmptyString (lstrip s))).

(** The digit groups of an integer literal: single underscores are allowed
    between two digits and nowhere else.  [prev] tells whether the
    previous character was a digit.  The result is the literal with its
    underscores removed. *)
Fixpoint ungroup (prev : bool) (s : string) : option string :=
  match s with
  | EmptyString => if prev then Some EmptyString else None
  | String c r =>
      if Ascii.eqb c "_"
      then (if prev then ungroup false r else None)
      else option_map (String c) (ungroup true r)
  end.

(** [int(s)] for a [str] argument, base 10: surrounding whitespace is
    stripped, one sign is allowed, and the digits must not be empty. *)
Definition int_of_str (s : string) : option Z :=
  let t := strip s in
  let '(neg, body) :=
    match t with
    | String "-" r => (true, r)
    | String "+" r => (false, r)
    | _ => (false, t)
    end in
  match ungroup false body with
  | None => None
  | Some digits =>
      match NilEmpty.uint_of_string digits with
      | Some d => Some (if neg : bool then - Z.of_uint d else Z.of_uint d)
      | None => None
      end
  end.

(** [int(v)]. *)
Definition int (v : Val) : Res Z :=
  match v with
  | VInt z => Ok z
  | VBool b => Ok (if b then 1 else 0)
  | VStr s =>
      match int_of_str s with
      | Some z => Ok z
      | None => Raise (ValueError "invalid literal for int() with base 10")
      end
  | _ => Raise (TypeError "int() argument must be a string, a bytes-like object or a number")
  end.

(** [a == b] on values.  [bool] is a subclass of [int]; a client object
    compares by identity. *)
Fixpoint eqb (a b : Val) : bool :=
  match a, b with
  | VNone, VNone => true
  | VBool x, VBool y => Bool.eqb x y
  | VBool x, VInt y => Z.eqb (if x then 1 else 0) y
  | VInt x, VBool y => Z.eqb x (if y then 1 else 0)
  | VInt x, VInt y => Z.eqb x y
  | VStr x, VStr y => String.eqb x y
  | VList xs, VList ys =>
      (fix go (xs ys : list Val) : bool :=
         match xs, ys with
         | [], [] => true
         | x :: xs', y :: ys' => eqb x y && go xs' ys'
         | _, _ => false
         end) xs ys
  | VBytes x, VBytes y =>
      if List.list_eq_dec Strings.Byte.byte_eq_dec x y then true else false
  | VClient x, VClient y => Nat.eqb x y
  | VObject x, VObject y => String.eqb x y
  | _, _ => false
  end.

(** Every character of [s] satisfies [P]. *)
Fixpoint all_chars (P : ascii -> bool) (s : string) : bool :=
  match s with
  | EmptyString => true
  | String c r => P c && all_chars P r
  end.

(** Neither white space nor an underscore. *)
Definition plain (c : ascii) : bool :=
  negb (is_space c) && negb (Ascii.eqb c "_").

(** [d.get(k, default)]. *)
Definition get (d : gmap string Val) (k : string) (default : Val) : Val :=
  match d !! k with
  | Some v => v
  | None => default
  end.

End Py.

Notation "'do' x <- r ; k" := (Py.bind r (fun x => k))
(at level 10, x name, r at level 100, k at level 200).

(* ===================================================================== *)
(** * Python's [float] and [datetime.utcfromtimestamp] *)
(* ===================================================================== *)

Module Float.
Import Py.
Local Open Scope Z_scope.

(** A finite binary64 number, [mant * 2^expo]. *)
Record float : Type := mkFloat { mant : Z; expo : Z }.

(** The integer nearest to [a / b], ties to the even one ([0 < b]). *)
Definition rne_div (a b : Z) : Z :=
  let q := a / b in
  match 2 * (a mod b) ?= b with
  | Lt => q
  | Gt => q + 1
  | Eq => if Z.even q then q else q + 1
  end.

(** The integer nearest to [a / (b * 2^e)], ties to even. *)
Definition rne_scaled (a b e : Z) : Z :=
  if 0 <=? e then rne_div a (b * 2 ^ e) else rne_div (a * 2 ^ (- e)) b.

(** [floor (a / (b * 2^e))]. *)
Definition floor_scaled (a b e : Z) : Z :=
  if 0 <=? e then a / (b * 2 ^ e) else (a * 2 ^ (- e)) / b.

(** The binary64 number nearest to the rational [a / b], for [0 < a] and
    [0 < b]: the exponent [e] is the one at which the quotient has 53
    significant bits, and not less than -1074; the significand is the
    quotient rounded to nearest, ties to even. *)
Definition nearest_pos (a b : Z) : float :=
  let e0 := Z.log2 a - Z.log2 b - 53 in
  let e1 := if floor_scaled a b e0 <? 2 ^ 53 then e0 else e0 + 1 in
  let e := Z.max e1 (-1074) in
  mkFloat (rne_scaled a b e) e.

(** The binary64 number nearest to [a / b], for [0 < b]. *)
Definition nearest (a b : Z) : float :=
  match a ?= 0 with
  | Eq => mkFloat 0 0
  | Gt => nearest_pos a b
  | Lt => let f := nearest_pos (- a) b in mkFloat (- mant f) (expo f)
  end.

(** Is the rounded result beyond the largest finite binary64 number? *)
Definition overflows (f : float) : bool :=
  2 ^ 1024 <=? Z.abs (mant f) * 2 ^ (Z.max 0 (expo f)).

(** [a / b] on two [int]: the correctly rounded quotient. *)
Definition truediv (a b : Z) : Res float :=
  match b ?= 0 with
  | Eq => Raise ZeroDivisionError
  | Gt =>
      let f := nearest a b in
      if overflows f
      then Raise (OverflowError "integer division result too large for a float")
      else Ok f
  | Lt =>
      let f := nearest (- a) (- b) in
      if overflows f
      then Raise (OverflowError "integer division result too large for a float")
      else Ok f
  end.

(** [math.modf]: the integral part (towards zero) and the fractional
    part, which is exact. *)
Definition modf (x : float) : Z * float :=
  if 0 <=? expo x
  then (mant x * 2 ^ expo x, mkFloat 0 0)
  else (Z.quot (mant x) (2 ^ (- expo x)),
        mkFloat (Z.rem (mant x) (2 ^ (- expo x))) (expo x)).

(** [x * n] for a [float] and a non-negative integer constant that is a
    binary64 number: the product, rounded. *)
Definition mul_const (x : float) (n : Z) : float :=
  if 0 <=? expo x
  then nearest (mant x * n * 2 ^ expo x) 1
  else nearest (mant x * n) (2 ^ (- expo x)).

(** Rounding a [float] to the nearest integer, ties to even. *)
Definition round_half_even (x : float) : Z :=
  if 0 <=? expo x
  then mant x * 2 ^ expo x
  else rne_div (mant x) (2 ^ (- expo x)).

(** ** Comparison with the Standard Library's IEEE 754 specification *)

(** The division of the binary64 numbers nearest to [a] and [b], by
    [SpecFloat.SFdiv]. *)
Definition SFdiv_of_ints (a b : Z) : SpecFloat.spec_float :=
  SpecFloat.SFdiv 53 1024
    (SpecFloat.binary_normalize 53 1024 a 0 false)
    (SpecFloat.binary_normalize 53 1024 b 0 false).

(** Does [x] denote the same number as the finite [y]? *)
Definition same_number (x : float) (y : SpecFloat.spec_float) : bool :=
  match y with
  | SpecFloat.S754_zero _ => mant x =? 0
  | SpecFloat.S754_finite s m e =>
      let m' := if s then Z.neg m else Z.pos m in
      let e0 := Z.min e (expo x) in
      mant x * 2 ^ (expo x - e0) =? m' * 2 ^ (e - e0)
  | _ => false
  end.

(** Millisecond counts spread over the range of the 64-bit snowflakes. *)
Definition sample_millis : list Z :=
  List.map (fun i => 1420070400000 + Z.of_nat i * 14655480311)
           (List.seq 0 301).

(** ** Calendar dates *)

Record datetime : Type := mkDatetime {
  year : Z; month : Z; day : Z;
  hour : Z; minute : Z; second : Z; microsecond : Z
}.

(** The proleptic Gregorian date of the day [days] after 1970-01-01. *)
Definition civil_from_days (days : Z) : Z * Z * Z :=
  let z := days + 719468 in
  let era := z / 146097 in
  let doe := z - era * 146097 in
  let yoe := (doe - doe / 1460 + doe / 36524 - doe / 146096) / 365 in
  let doy := doe - (365 * yoe + yoe / 4 - yoe / 100) in
  let mp := (5 * doy + 2) / 153 in
  let d := doy - (153 * mp + 2) / 5 + 1 in
  let m := if mp <? 10 then mp + 3 else mp - 9 in
  (yoe + era * 400 + (if m <=? 2 then 1 else 0), m, d).

(** The UTC date and time [secs] seconds and [us] microseconds after the
    Unix epoch. *)
Definition utc_datetime (secs us : Z) : datetime :=
  let '(y, m, d) := civil_from_days (secs / 86400) in
  let r := secs mod 86400 in
  mkDatetime y m d (r / 3600) (r mod 3600 / 60) (r mod 60) us.

(** [datetime.datetime.utcfromtimestamp(t)] for a [float]: the fraction
    is scaled to microseconds in binary64 and rounded half to even; the
    year must be in 1..9999. *)
Definition utcfromtimestamp (t : float) : Res datetime :=
  let '(secs, frac) := modf t in
  let us := round_half_even (mul_const frac 1000000) in
  let '(secs, us) :=
    if 1000000 <=? us then (secs + 1, us - 1000000)
    else if us <? 0 then (secs - 1, us + 1000000)
    else (secs, us) in
  if ((secs <? -62135596800) || (253402300799 <? secs))%bool
  then Raise (ValueError "year is out of range")
  else Ok (utc_datetime secs us).

(** The calendar time of an instant given in whole milliseconds since the
    Unix epoch, [utc_datetime_from_unix_millis] in the words of the
    specification. *)
Definition utc_datetime_from_unix_millis (ms : Z) : datetime :=
  utc_datetime (ms / 1000) (ms mod 1000 * 1000).

End Float.

(* ===================================================================== *)
(** * curious/dataclasses/bases.py *)
(* ===================================================================== *)

Module Bases.
Import Py.

Definition DISCORD_EPOCH : Z := 1420070400000.

(** [class IDObject]: one slot, [id]. *)
Record IDObject : Type := mkIDObject { id : Val }.

(** [IDObject.__init__]: a [str] is converted with [int], anything else
    is stored as it is. *)
Definition IDObject__init__ (id : Val) : Res IDObject :=
  match id with
  | VStr _ => do z <- int id ; Ok (mkIDObject (VInt z))
  | _ => Ok (mkIDObject id)
  end.

(** The [timestamp] property:
    [utcfromtimestamp(((int(self.id) >> 22) + DISCORD_EPOCH) / 1000)]. *)
Definition timestamp (self : IDObject) : Res Float.datetime :=
  do i <- int (id self) ;
  do t <- Float.truediv (Z.shiftr i 22 + DISCORD_EPOCH) 1000 ;
  Float.utcfromtimestamp t.

(** [IDObject.__eq__]: [other.id == self.id]. *)
Definition IDObject__eq__ (self other : IDObject) : bool :=
  Py.eqb (id other) (id self).

(** [IDObject.__hash__]. *)
Definition IDObject__hash__ (self : IDObject) : Val := id self.

(** [class Dataclass(IDObject)]: adds the slot [_bot]. *)
Record Dataclass : Type := mkDataclass { base : IDObject; _bot : Val }.

(** [Dataclass.__init__]: [super().__init__(id)], then [self._bot = client]. *)
Definition Dataclass__init__ (id client : Val) : Res Dataclass :=
  do b <- IDObject__init__ id ;
  Ok (mkDataclass b client).

End Bases.

(* ===================================================================== *)
(** * curious/dataclasses/emoji.py *)
(* ===================================================================== *)

Module Emoji.
Import Py Bases.

(** [class Emoji(Dataclass)]. *)
Record Emoji : Type := mkEmoji {
  dataclass : Dataclass;
  name : Val;
  role_ids : Val;
  require_colons : Val;
  managed : Val;
  guild_id : Val;
  animated : Val
}.

Definition emoji_id (e : Emoji) : Val := id (base (dataclass e)).
Definition emoji_bot (e : Emoji) : Val := _bot (dataclass e).

(** [Emoji.__init__(self, **kwargs)]. *)
Definition __init__ (kwargs : gmap string Val) : Res Emoji :=
  do i <- int (get kwargs "id" VNone) ;
  do d <- Dataclass__init__ (VInt i) (get kwargs "client" VNone) ;
  Ok {| dataclass := d;
        name := get kwargs "name" VNone;
        role_ids := get kwargs "roles" (VList []);
        require_colons := get kwargs "require_colons" (VBool false);
        managed := get kwargs "managed" (VBool false);
        guild_id := VNone;
        animated := get kwargs "animated" (VBool false) |}.

(** What an emoji can be compared with: a [str], another entity with an
    [id] attribute, or a value without one. *)
Inductive Operand : Type :=
| OStr (s : string)
| OEmoji (e : Emoji)
| OIDObject (o : IDObject)
| OValue (v : Val).

(** [other.id]. *)
Definition operand_id (other : Operand) : Res Val :=
  match other with
  | OEmoji e => Ok (emoji_id e)
  | OIDObject o => Ok (id o)
  | OStr _ | OValue _ => Raise (AttributeError "id")
  end.

(** [Emoji.__eq__]. *)
Definition __eq__ (self : Emoji) (other : Operand) : Res bool :=
  match other with
  | OStr _ => Ok false
  | _ => do i <- operand_id other ; Ok (Py.eqb (emoji_id self) i)
  end.

End Emoji.

(* ===================================================================== *)
(** * Effects: a trace of what the client does to the outside world *)
(* ===================================================================== *)

Module Effects.
Import Py.

(** A gateway connection, as far as the client reads it. *)
Record Gateway : Type := mkGateway {
  shard_id : Z;
  session_id : option string
}.

(** One observable operation of the client. *)
Inductive Action : Type :=
| Invoke (handler : nat) (event_name : string) (args : list Val) (shard : Z)
| HttpEditUser (username avatar password : Val)
| HttpGetGuildMembers (guild_id limit : Z) (after : Val)
| GwFromToken (shard shard_count : Z)
| SetGateway (shard : Z) (gw : Gateway)
| GwReconnect (shard : Z) (resume : bool)
| GwClose (shard : Z) (code : Z) (reason : string)
| GwGetChunks (shard : Z)
| StateReset (shard : Z)
| Log (level template : string) (args : list Val).

Definition Trace : Type := list Action.

(** A computation appends to the trace and returns or raises; what was
    done before an exception stays done. *)
Definition Eff (A : Type) : Type := Trace -> Res A * Trace.

Definition ret {A} (a : A) : Eff A := fun t => (Ok a, t).

Definition raise {A} (e : Exn) : Eff A := fun t => (Raise e, t).

Definition lift {A} (r : Res A) : Eff A := fun t => (r, t).

Definition bind {A B} (m : Eff A) (k : A -> Eff B) : Eff B :=
  fun t =>
    match m t with
    | (Ok a, t') => k a t'
    | (Raise e, t') => (Raise e, t')
    end.

Definition emit (a : Action) : Eff unit := fun t => (Ok tt, (t ++ [a])%list).

(** The trace so far. *)
Definition history : Eff Trace := fun t => (Ok t, t).

(** [try: body / except ...: handler]: [handler e] is [None] when no
    [except] clause matches [e], which then propagates. *)
Definition try_except {A} (body : Eff A) (handler : Exn -> option (Eff A))
  : Eff A :=
  fun t =>
    match body t with
    | (Ok a, t') => (Ok a, t')
    | (Raise e, t') =>
        match handler e with
        | Some h => h t'
        | None => (Raise e, t')
        end
    end.

(** Run from the empty trace. *)
Definition run {A} (m : Eff A) : Res A * Trace := m [].

End Effects.

Notation "'act' x <- m ; k" := (Effects.bind m (fun x => k))
(at level 10, x name, m at level 100, k at level 200).
Notation "m ;; k" := (Effects.bind m (fun _ => k))
(at level 100, k at level 200, right associativity).

(* ===================================================================== *)
(** * curious/core/client.py *)
(* ===================================================================== *)

Module Client.
Import Py Effects.

(** ** String helpers *)

(** [s.startswith(p)]. *)
Definition startswith (s p : string) : bool := String.prefix p s.

(** [x in names] for a list or tuple of [str]. *)
Definition str_in (x : string) (names : list string) : bool :=
  existsb (String.eqb x) names.

Definition lower_char (c : ascii) : ascii :=
  let n := nat_of_ascii c in
  if (Nat.leb 65 n && Nat.leb n 90)%bool then ascii_of_nat (n + 32) else c.

(** [s.lower()]. *)
Fixpoint lower (s : string) : string :=
  match s with
  | EmptyString => EmptyString
  | String c r => String (lower_char c) (lower r)
  end.

Definition of_option_str (o : option string) : Val :=
  match o with
  | Some s => VStr s
  | None => VNone
  end.

(** ** Text by code points *)

(** A [str] whose characters are counted and searched: the sequence of
    its code points, so that [len] is the length of the list. *)
Definition Text : Type := list N.

(** The text of an ASCII literal. *)
Definition text (s : string) : Text :=
  List.map N_of_ascii (list_ascii_of_string s).

(** [a == b] for two texts. *)
Fixpoint text_eqb (a b : Text) : bool :=
  match a, b with
  | [], [] => true
  | x :: a', y :: b' => (N.eqb x y && text_eqb a' b')%bool
  | _, _ => false
  end.

(** [s.startswith(p)] for two texts. *)
Fixpoint text_prefix (p s : Text) : bool :=
  match p, s with
  | [], _ => true
  | x :: p', y :: s' => (N.eqb x y && text_prefix p' s')%bool
  | _ :: _, [] => false
  end.

(** [sub in s] for two texts. *)
Fixpoint text_contains (sub s : Text) : bool :=
  (text_prefix sub s
   || match s with
      | _ :: r => text_contains sub r
      | [] => false
      end)%bool.

(** [x in names] for a tuple of texts. *)
Definition text_in (x : Text) (names : list Text) : bool :=
  existsb (text_eqb x) names.

(** The UTF-8 encoding of a code point, and of a text: the [string] by
    which a text is written into a [VStr]. *)
Definition utf8_char (c : N) : list ascii :=
  (if c <? 128 then [ascii_of_N c]
   else if c <? 2048
   then [ascii_of_N (192 + c / 64); ascii_of_N (128 + c mod 64)]
   else if c <? 65536
   then [ascii_of_N (224 + c / 4096); ascii_of_N (128 + c / 64 mod 64);
         ascii_of_N (128 + c mod 64)]
   else [ascii_of_N (240 + c / 262144 mod 8);
         ascii_of_N (128 + c / 4096 mod 64);
         ascii_of_N (128 + c / 64 mod 64); ascii_of_N (128 + c mod 64)])%N.

Definition utf8 (t : Text) : string :=
  string_of_list_ascii (List.concat (List.map utf8_char t)).

Definition of_option_text (o : option Text) : Val :=
  match o with
  | Some t => VStr (utf8 t)
  | None => VNone
  end.

(** ** The event registry ([curious.core.event.EventManager]) *)

(** Modelled from the spec: [EventManager] is not among the sources.  It is
    a registry from event name to the handlers registered for it, in
    registration order; firing an event schedules one invocation of every
    handler registered under that name and is a no-op when there is none. *)
Record EventManager : Type := mkEventManager {
  registry : gmap string (list nat)
}.

Definition handlers_for (em : EventManager) (event_name : string) : list nat :=
  match registry em !! event_name with
  | Some hs => hs
  | None => []
  end.

Fixpoint invoke_all (hs : list nat) (event_name : string) (args : list Val)
         (gw : Gateway) : Eff unit :=
  match hs with
  | [] => ret tt
  | h :: hs' =>
      emit (Invoke h event_name args (shard_id gw)) ;;
      invoke_all hs' event_name args gw
  end.

(** [EventManager.fire_event(event_name, *args, gateway=gw, client=self)]. *)
Definition EventManager_fire_event (em : EventManager) (event_name : string)
           (args : list Val) (gw : Gateway) : Eff unit :=
  invoke_all (handlers_for em event_name) event_name args gw.

(** ** The state layer ([curious.core.state.State]) *)

(** A derived event: its name and its arguments, the tuple
    [(name, *args)] of the source. *)
Definition Event : Type := (string * list Val)%type.

(** What a translation routine gives back to [handle_dispatches]. *)
Inductive Result : Type :=
| RName (event_name : string)              (* a plain [str] *)
| RTuple (event : Event).                  (* a tuple [(name, *args)] *)

Inductive Outcome : Type :=
| Returns (r : Result)                     (* an ordinary return value *)
| Awaitable (r : Res Result)               (* a coroutine, to be awaited *)
| AsyncGen (items : list Event) (fin : option Exn)
    (* an async generator: yields [items], then ends or raises *)
| Raises (e : Exn).                        (* the call itself raises *)

(** Modelled from the spec: [State] is not among the sources.  It reports
    whether a shard has completed its ready handshake, and holds one
    translation routine per dispatch type under the attribute name
    [handle_<lower-cased dispatch name>]. *)
Record State : Type := mkState {
  ready_shards : gset Z;
  routines : gmap string (Gateway -> Val -> Outcome)
}.

(** [State.is_ready(shard_id)]. *)
Definition is_ready (st : State) (shard : Z) : bool :=
  if decide (shard ∈ ready_shards st) then true else false.

(** ** The HTTP layer ([curious.core.httpclient.HTTPClient]) *)

(** One member object of a [get_guild_members] response body, with the
    field the client reads: [datum["user"]["id"]]. *)
Record MemberDatum : Type := mkMemberDatum {
  user_id : Val;
  nick : Val
}.

(** The HTTP layer is not among the sources; the service behind it is a
    parameter.  [get_guild_members] answers a request given the trace so
    far; [edit_user] answers an edit request. *)
Record HTTPClient : Type := mkHTTPClient {
  get_guild_members : Trace -> Z -> Z -> Val -> Res (list MemberDatum);
  edit_user : Val -> Val -> Val -> Res unit
}.

(** ** [class Client] *)

Record Client : Type := mkClient {
  ident : nat;                     (* the identity of this object *)
  state : State;
  events : EventManager;
  http : HTTPClient;
  user_bot : bool;                 (* [self.user.bot] *)
  base64ify : list Byte.byte -> Res string
    (* [curious.util.base64ify], imported by client.py and not among the
       sources: a parameter *)
}.

Definition IGNORE_READY : list string :=
  ["connect"; "guild_streamed"; "guild_chunk"; "guild_available";
   "guild_sync"].

(** [Client.fire_event(self, event_name, *args, **kwargs)];
    [gateway] is [kwargs.get("gateway")]. *)
Definition fire_event (self : Client) (event_name : string)
           (args : list Val) (gateway : option Gateway) : Eff unit :=
  match gateway with
  | None => raise (AttributeError "shard_id")
  | Some gw =>
      if negb (is_ready (state self) (shard_id gw)) then
        if (negb (str_in event_name IGNORE_READY)
            && negb (startswith event_name "gateway_"))%bool
        then ret tt
        else EventManager_fire_event (events self) event_name args gw
      else EventManager_fire_event (events self) event_name args gw
  end.

(** ** [Client.edit_profile] *)

Definition banned_substrings : list Text :=
  [text "@"; text ":"; text "```"].
Definition banned_usernames : list Text :=
  [text "discordtag"; text "everyone"; text "here"].

(** The body of [if username:]; [len(username)] counts code points. *)
Definition check_username (username : Text) : Eff unit :=
  if existsb (fun x => text_contains x username) banned_substrings
  then raise (ValueError "Username must not contain banned characters")
  else if text_in username banned_usernames
  then raise (ValueError "Username cannot be a banned username")
  else if negb (Z.leb 2 (Z.of_nat (List.length username))
                && Z.leb (Z.of_nat (List.length username)) 32)%bool
  then raise (ValueError "Username must be 2-32 characters")
  else ret tt.

(** [if avatar: avatar = base64ify(avatar)]: empty [bytes] are falsy and
    stay as they are. *)
Definition encoded_avatar (self : Client) (avatar : option (list Byte.byte))
  : Res Val :=
  match avatar with
  | Some ((_ :: _) as b) => do s <- base64ify self b ; Ok (VStr s)
  | Some [] => Ok (VBytes [])
  | None => Ok VNone
  end.

Definition edit_profile (self : Client) (username : option Text)
           (avatar : option (list Byte.byte)) (password : option string)
  : Eff unit :=
  (if (negb (user_bot self)
       && match password with None => true | Some _ => false end)%bool
   then raise (ValueError "Password must be passed for user bots")
   else ret tt) ;;
  (match username with
   | Some ((_ :: _) as u) => check_username u
   | _ => ret tt
   end) ;;
  act avatar' <- lift (encoded_avatar self avatar) ;
  emit (HttpEditUser (of_option_text username) avatar'
                     (of_option_str password)) ;;
  lift (edit_user (http self) (of_option_text username) avatar'
                  (of_option_str password)).

(** ** [Client.download_guild_members] *)

(** [dt_member.Member(self, **datum)] followed by [m.guild_id = guild_id];
    the class is not among the sources, the record keeps what the client
    passes to it. *)
Record Member : Type := mkMember {
  member_client : nat;
  member_data : MemberDatum;
  member_guild_id : Z
}.

(** [await self.http.get_guild_members(guild_id=, limit=, after=)]. *)
Definition http_get_guild_members (self : Client) (guild_id limit : Z)
           (after : Val) : Eff (list MemberDatum) :=
  act h <- history ;
  emit (HttpGetGuildMembers guild_id limit after) ;;
  lift (get_guild_members (http self) h guild_id limit after).

(** [member_data[-1]["user"]["id"]]. *)
Definition last_user_id (member_data : list MemberDatum) : Res Val :=
  match List.last (List.map Some member_data) None with
  | Some d => Ok (user_id d)
  | None => Raise IndexError
  end.

(** The [while True] loop of the exhaustive mode, on the loop variables
    [member_data] and [last_id].  [fuel] bounds the number of iterations;
    the result is [None] when the loop is still running after [fuel]
    iterations. *)
Fixpoint download_all (fuel : nat) (self : Client) (guild_id limit : Z)
         (member_data : list MemberDatum) (last_id : Val)
  : Eff (option (list MemberDatum)) :=
  match fuel with
  | O => ret None
  | S fuel' =>
      act next_data <- http_get_guild_members self guild_id limit last_id ;
      match next_data with
      | [] => ret (Some member_data)
      | _ :: _ =>
          let member_data := (member_data ++ next_data)%list in
          if Z.ltb (Z.of_nat (List.length next_data)) limit
          then ret (Some member_data)
          else
            act last_id <- lift (last_user_id member_data) ;
            download_all fuel' self guild_id limit member_data last_id
      end
  end.

Definition download_guild_members (fuel : nat) (self : Client)
           (guild_id : Z) (after : Val) (limit : Z) (get_all : bool)
  : Eff (option (list Member)) :=
  act member_data <-
    (if get_all
     then download_all fuel self guild_id limit [] (VInt 0)
     else
       act next_data <- http_get_guild_members self guild_id limit after ;
       ret (Some ([] ++ next_data)%list)) ;
  ret (option_map
         (List.map (fun datum => mkMember (ident self) datum guild_id))
         member_data).

(** ** [Client.handle_dispatches] *)

(** The names bound at module level in client.py: its imports, [logger],
    [BotType] and [Client]. *)
Definition module_globals : list string :=
  ["collections"; "enum"; "functools"; "inspect"; "logging"; "typing";
   "MappingProxyType"; "multio"; "WebsocketClosed"; "WebsocketUnusable";
   "EventContext"; "EventManager"; "ev_dec"; "ChunkGuilds"; "Gateway";
   "ReconnectWebsocket"; "HTTPClient"; "dt_channel"; "dt_guild";
   "dt_member"; "AppInfo"; "Invite"; "Game"; "Status"; "BotUser"; "User";
   "Webhook"; "Widget"; "base64ify"; "logger"; "BotType"; "Client"].

(** The functions, constants and base exception classes of the
    [builtins] module. *)
Definition builtins : list string :=
  ["abs"; "all"; "any"; "ascii"; "bin"; "bool"; "bytearray"; "bytes";
   "callable"; "chr"; "classmethod"; "compile"; "complex"; "delattr";
   "dict"; "dir"; "divmod"; "enumerate"; "eval"; "exec"; "filter";
   "float"; "format"; "frozenset"; "getattr"; "globals"; "hasattr";
   "hash"; "help"; "hex"; "id"; "input"; "int"; "isinstance";
   "issubclass"; "iter"; "len"; "list"; "locals"; "map"; "max";
   "memoryview"; "min"; "next"; "object"; "oct"; "open"; "ord"; "pow";
   "print"; "property"; "range"; "repr"; "reversed"; "round"; "set";
   "setattr"; "slice"; "sorted"; "staticmethod"; "str"; "sum"; "super";
   "tuple"; "type"; "vars"; "zip"; "__import__"; "True"; "False"; "None";
   "Ellipsis"; "NotImplemented"; "__debug__"; "exit"; "quit";
   "BaseException"; "Exception"; "ArithmeticError"; "AssertionError";
   "AttributeError"; "EOFError"; "EnvironmentError"; "IOError";
   "ImportError"; "IndexError"; "KeyError"; "KeyboardInterrupt";
   "LookupError"; "NameError"; "NotImplementedError"; "OSError";
   "RuntimeError"; "StopAsyncIteration"; "StopIteration"; "SystemExit";
   "TypeError"; "ValueError"; "ZeroDivisionError"].

Fixpoint assoc (x : string) (env : list (string * Val)) : option Val :=
  match env with
  | [] => None
  | (y, v) :: env' => if String.eqb x y then Some v else assoc x env'
  end.

(** Loading the name [x] inside a method: the function's locals first,
    then the module's globals, then the builtins; a name bound nowhere
    raises [NameError].  A class attribute is not in scope of a method
    body. *)
Definition load_name (locals : list (string * Val)) (x : string) : Res Val :=
  match assoc x locals with
  | Some v => Ok v
  | None =>
      if str_in x (module_globals ++ builtins)%list
      then Ok (VObject x)
      else Raise (NameError x)
  end.

(** [async for i in gen: await self.events.fire_event(i[0], *i[1:], ...)]. *)
Fixpoint fire_each (self : Client) (items : list Event) (gw : Gateway)
  : Eff unit :=
  match items with
  | [] => ret tt
  | i :: items' =>
      EventManager_fire_event (events self) (fst i) (snd i) gw ;;
      fire_each self items' gw
  end.

(** The [isinstance(result, tuple)] test and the firing after it. *)
Definition fire_result (self : Client) (result : Result) (gw : Gateway)
  : Eff unit :=
  match result with
  | RName event_name => EventManager_fire_event (events self) event_name [] gw
  | RTuple ev => EventManager_fire_event (events self) (fst ev) (snd ev) gw
  end.

(** The parameters and locals of [handle_dispatches] that are bound when
    its second [try] statement runs. *)
Definition handle_dispatches_locals (self : Client) (name : string)
           (dispatch : Val) : list (string * Val) :=
  [("self", VClient (ident self)); ("ctx", VObject "EventContext");
   ("name", VStr name); ("dispatch", dispatch);
   ("handle_name", VStr (lower name)); ("handler", VObject "handler")].

Definition handle_dispatches (self : Client) (ctx_gateway : Gateway)
           (name : string) (dispatch : Val) : Eff unit :=
  let handle_name := lower name in
  match routines (state self) !! ("handle_" ++ handle_name) with
  | None => emit (Log "warning" "Got unknown dispatch {name}" [VStr name])
  | Some handler =>
      emit (Log "debug" "Processing event {name}" [VStr name]) ;;
      try_except
        (match handler ctx_gateway dispatch with
         | Raises e => raise e
         | Awaitable r =>
             act result <- lift r ;
             fire_result self result ctx_gateway
         | AsyncGen items fin =>
             fire_each self items ctx_gateway ;;
             match fin with
             | Some e => raise e
             | None => ret tt
             end
         | Returns result => fire_result self result ctx_gateway
         end)
        (fun e =>
           match e with
           | ChunkGuilds => Some (emit (GwGetChunks (shard_id ctx_gateway)))
           | _ =>
               if is_Exception e then
                 Some
                   (let locals :=
                      handle_dispatches_locals self name dispatch in
                    act ev <- lift (load_name locals "event") ;
                    act d <- lift (load_name locals "dispatch") ;
                    emit (Log "exception"
                            "Error decoding event {event} with data {dispatch}!"
                            [ev; d]) ;;
                    emit (GwClose (shard_id ctx_gateway) 1006
                            "Internal client error") ;;
                    raise e)
               else None
           end)
  end.

(** ** [Client.handle_shard] *)

(** What the network does at one iteration of the shard loop: either
    [Gateway.from_token] (with [get_gateway_url]) raises, or it returns a
    gateway whose event stream yields [stream] and then ends ([None]) or
    raises, and whose [reconnect(resume)] answers as [reconnect] says. *)
Inductive Attempt : Type :=
| ConnectFails (e : Exn)
| Connects (gw : Gateway) (stream : list Event) (stop : option Exn)
           (reconnect : bool -> Res unit).

(** How a run of the shard loop over a finite script of attempts ends
    when it does not raise: it returned, or it is about to connect again
    with the script used up. *)
Inductive ShardExit : Type :=
| Returned
| StillRunning (total_tries : nat).

Definition z_in (x : Z) (l : list Z) : bool := existsb (Z.eqb x) l.

(** [async for event in agen: await self.fire_event(event[0], *event[1:],
    gateway=gw)]. *)
Fixpoint fire_stream (self : Client) (stream : list Event) (gw : Gateway)
  : Eff unit :=
  match stream with
  | [] => ret tt
  | event :: stream' =>
      fire_event self (fst event) (snd event) (Some gw) ;;
      fire_stream self stream' gw
  end.

(** [await gw.reconnect(resume=resume)]. *)
Definition gw_reconnect (gw : Gateway) (resume : bool)
           (reconnect : bool -> Res unit) : Eff unit :=
  emit (GwReconnect (shard_id gw) resume) ;;
  lift (reconnect resume).

(** The inner [try] statement with its two [except] clauses.  The result
    is [true] when the handler executes [return]. *)
Definition consume (self : Client) (shard : Z) (gw : Gateway)
           (stream : list Event) (stop : option Exn)
           (reconnect : bool -> Res unit) : Eff bool :=
  try_except
    (fire_stream self stream gw ;;
     match stop with
     | Some e => raise e
     | None => ret false
     end)
    (fun e =>
       match e with
       | WebsocketClosed code reason =>
           Some
             (if String.eqb reason "Client closed connection" then ret true
              else if (z_in code [1000; 4007]
                       || match session_id gw with
                          | None => true
                          | Some _ => false
                          end)%bool
              then
                emit (Log "info"
                        "Shard {} disconnected with code {}, creating new session"
                        [VInt shard; VInt code]) ;;
                emit (StateReset (shard_id gw)) ;;
                gw_reconnect gw false reconnect ;;
                ret false
              else if negb (z_in code [4004; 4011])
              then
                emit (Log "info"
                        "Shard {} disconnected with close code {}, reason {}, attempting a reconnect."
                        [VInt shard; VInt code; VStr reason]) ;;
                gw_reconnect gw true reconnect ;;
                ret false
              else raise e)
       | ReconnectWebsocket => Some (gw_reconnect gw true reconnect ;; ret false)
       | _ => None
       end).

(** [RuntimeError(f"Gave up reconnecting shard id {shard_id}")]. *)
Definition gave_up (shard : Z) : Exn :=
  RuntimeError ("Gave up reconnecting shard id " ++ str_of_int shard).

(** The [while True] loop, on the loop variable [total_tries].  Every
    iteration that reaches [Gateway.from_token] takes the next attempt of
    the script. *)
Fixpoint handle_shard_loop (self : Client) (shard shard_count : Z)
         (total_tries : nat) (script : list Attempt) : Eff ShardExit :=
  if Nat.eqb total_tries 10
  then raise (gave_up shard)
  else
    match script with
    | [] => ret (StillRunning total_tries)
    | ConnectFails e :: script' =>
        emit (GwFromToken shard shard_count) ;;
        if is_Exception e
        then
          emit (Log "exception" "Failed to connect to the gateway..." []) ;;
          handle_shard_loop self shard shard_count (total_tries + 1) script'
        else raise e
    | Connects gw stream stop reconnect :: script' =>
        emit (GwFromToken shard shard_count) ;;
        let total_tries := O in
        emit (SetGateway shard gw) ;;
        act r <-
          try_except
            (act returned <- consume self shard gw stream stop reconnect ;
             ret (Some returned))
            (fun e =>
               match e with
               | WebsocketClosed _ _ | WebsocketUnusable => Some (ret None)
               | _ => None
               end) ;
        match r with
        | Some true => ret Returned
        | Some false =>
            handle_shard_loop self shard shard_count total_tries script'
        | None =>
            handle_shard_loop self shard shard_count (total_tries + 1) script'
        end
    end.

Definition handle_shard (self : Client) (shard shard_count : Z)
           (script : list Attempt) : Eff ShardExit :=
  handle_shard_loop self shard shard_count 0 script.

(** ** Observations on traces and scripted environments *)

(** The number of [Gateway.from_token] calls in a trace. *)
Fixpoint connect_attempts (t : Trace) : nat :=
  match t with
  | [] => O
  | GwFromToken _ _ :: t' => S (connect_attempts t')
  | _ :: t' => connect_attempts t'
  end.

(** The [gw.reconnect] calls in a trace, with their [resume] flag. *)
Fixpoint reconnects (t : Trace) : list bool :=
  match t with
  | [] => []
  | GwReconnect _ resume :: t' => resume :: reconnects t'
  | _ :: t' => reconnects t'
  end.

(** The [get_guild_members] requests in a trace: [(limit, after)]. *)
Fixpoint member_requests (t : Trace) : list (Z * Val) :=
  match t with
  | [] => []
  | HttpGetGuildMembers _ limit after :: t' =>
      (limit, after) :: member_requests t'
  | _ :: t' => member_requests t'
  end.

(** The handler invocations in a trace: [(handler, event name)]. *)
Fixpoint invocations (t : Trace) : list (nat * string) :=
  match t with
  | [] => []
  | Invoke h event_name _ _ :: t' => (h, event_name) :: invocations t'
  | _ :: t' => invocations t'
  end.

(** The [gateway.close] calls in a trace: [(code, reason)]. *)
Fixpoint closes (t : Trace) : list (Z * string) :=
  match t with
  | [] => []
  | GwClose _ code reason :: t' => (code, reason) :: closes t'
  | _ :: t' => closes t'
  end.

(** The [State._reset] calls in a trace. *)
Fixpoint resets (t : Trace) : list Z :=
  match t with
  | [] => []
  | StateReset shard :: t' => shard :: resets t'
  | _ :: t' => resets t'
  end.

(** The decision table of the specification for the way a gateway's
    event stream ends. *)
Inductive Decision : Type :=
| StopLoop          (* return, no reconnect *)
| FreshSession      (* reset the shard's state, reconnect without resuming *)
| Resume            (* reconnect with resume *)
| Fatal             (* re-raise *)
| Unhandled.        (* not a close and not a reconnect request *)

Definition decision (gw : Gateway) (e : Exn) : Decision :=
  match e with
  | WebsocketClosed code reason =>
      if String.eqb reason "Client closed connection" then StopLoop
      else if (Z.eqb code 1000 || Z.eqb code 4007)%bool then FreshSession
      else match session_id gw with
           | None => FreshSession
           | Some _ =>
               if (Z.eqb code 4004 || Z.eqb code 4011)%bool
               then Fatal else Resume
           end
  | ReconnectWebsocket => Resume
  | _ => Unhandled
  end.

(** [isinstance(e, (WebsocketClosed, WebsocketUnusable))]. *)
Definition transport_error (e : Exn) : bool :=
  match e with
  | WebsocketClosed _ _ | WebsocketUnusable => true
  | _ => false
  end.

(** A member source that answers the n-th page request with the n-th
    page of [pages], and with an empty page once they are used up,
    whatever the cursor is. *)
Definition paged_source (pages : list (list MemberDatum)) : HTTPClient :=
  {| get_guild_members := fun h _ _ _ =>
       Ok (nth (List.length (member_requests h)) pages []);
     edit_user := fun _ _ _ => Ok tt |}.

(** [n] members with the ids [start + 1 .. start + n]. *)
Fixpoint page_of (start : Z) (n : nat) : list MemberDatum :=
  match n with
  | O => []
  | S n' => mkMemberDatum (VInt (start + 1)) VNone :: page_of (start + 1) n'
  end.

(** The user id of the last member of a page, [0] for an empty page. *)
Definition page_cursor (page : list MemberDatum) : Val :=
  List.last (List.map user_id page) (VInt 0).

(** The requests of an exhaustive download that starts at the cursor
    [cursor] and receives the full pages [fulls] before the page that
    ends it: one request per full page, each after the first with the
    last id of the page before it as cursor, and one more. *)
Fixpoint paging_requests (guild_id limit : Z) (cursor : Val)
         (fulls : list (list MemberDatum)) : Trace :=
  match fulls with
  | [] => [HttpGetGuildMembers guild_id limit cursor]
  | page :: fulls' =>
      HttpGetGuildMembers guild_id limit cursor
      :: paging_requests guild_id limit (page_cursor page) fulls'
  end.

(** A page that makes the exhaustive download go on: not empty and not
    shorter than [limit]. *)
Definition full_page (limit : Z) (page : list MemberDatum) : bool :=
  match page with
  | [] => false
  | _ :: _ => negb (Z.ltb (Z.of_nat (List.length page)) limit)
  end.

(** The username rules in the words of the specification: no [@], no
    [:], no triple backtick, not one of the three reserved names, and a
    length between 2 and 32 characters inclusive. *)
Definition username_ok (u : Text) : bool :=
  (negb (text_contains (text "@") u) && negb (text_contains (text ":") u)
   && negb (text_contains (text "```") u)
   && negb (text_eqb u (text "discordtag"))
   && negb (text_eqb u (text "everyone"))
   && negb (text_eqb u (text "here"))
   && Nat.leb 2 (List.length u) && Nat.leb (List.length u) 32)%bool.

(** When [edit_profile] refuses its arguments: a user account without a
    password, or a username that is not empty and breaks a rule. *)
Definition rejects (self : Client) (username : option Text)
           (password : option string) : bool :=
  ((negb (user_bot self)
    && match password with None => true | Some _ => false end)
   || match username with
      | Some u => negb (text_eqb u []) && negb (username_ok u)
      | None => false
      end)%bool.

(** Usernames outside ASCII: [e] with an acute accent (U+00E9) once and
    seventeen times, and thirty-three times the snowman (U+2603). *)
Definition e_acute : Text := [233%N].
Definition seventeen_e_acute : Text := List.repeat 233%N 17.
Definition snowmen : Text := List.repeat 9731%N 33.

(** The same client with another set of ready shards. *)
Definition with_ready (self : Client) (ready : gset Z) : Client :=
  {| ident := ident self;
     state := {| ready_shards := ready; routines := routines (state self) |};
     events := events self;
     http := http self;
     user_bot := user_bot self;
     base64ify := base64ify self |}.

End Client.


(* ===================================================================== *)
(** * Concrete inputs used by the examples below *)
(* ===================================================================== *)

Module Examples.
Import Py Bases Emoji Effects Client.

(** Two emojis with the same id and nothing else in common. *)
Definition blob : Emoji :=
  {| dataclass := mkDataclass (mkIDObject (VInt 123)) (VClient 0);
     name := VStr "blob"; role_ids := VList []; require_colons := VBool true;
     managed := VBool false; guild_id := VInt 7; animated := VBool true |}.

Definition cat : Emoji :=
  {| dataclass := mkDataclass (mkIDObject (VInt 123)) (VClient 0);
     name := VStr "cat"; role_ids := VList [VInt 5];
     require_colons := VBool false; managed := VBool false;
     guild_id := VInt 8; animated := VBool false |}.

(** An emoji payload without a ["client"] entry. *)
Definition orphan_kwargs : gmap string Val :=
  {[ "id" := VStr "123"; "name" := VStr "blob" ]}.

(** A bot client whose shard 0 is not ready yet: handlers 1 and 2 listen
    to [message_create], handler 3 to [guild_available], handler 0 (the
    dispatch handler) to [gateway_dispatch_received]. *)
Definition registry0 : EventManager :=
  mkEventManager
    {[ "message_create" := [1%nat; 2%nat];
       "guild_create" := [4%nat];
       "guild_available" := [3%nat];
       "gateway_dispatch_received" := [0%nat] ]}.

Definition state0 : State :=
  {| ready_shards := ∅;
     routines :=
       {[ "handle_message_create" :=
            (fun _ _ => Returns (RTuple ("message_create", [VStr "hi"])));
          "handle_guild_members_chunk" := (fun _ _ => Raises ChunkGuilds);
          "handle_presence_update" := (fun _ _ => Raises (KeyError "user")) ]}
  |}.

Definition http0 : HTTPClient :=
  {| get_guild_members := fun _ _ _ _ => Ok [];
     edit_user := fun _ _ _ => Ok tt |}.

Definition bot : Client :=
  {| ident := 0; state := state0; events := registry0; http := http0;
     user_bot := true; base64ify := fun _ => Ok "data:image/png;base64," |}.

(** The same, logged in as a user account. *)
Definition userbot : Client :=
  {| ident := 0; state := state0; events := registry0; http := http0;
     user_bot := false; base64ify := fun _ => Ok "data:image/png;base64," |}.

(** The gateway of shard 0, holding a session id. *)
Definition gw0 : Gateway := mkGateway 0 (Some "session").

(** Pages of 1000, 1000 and 400 members, and of 1000 and 1000 members. *)
Definition pages_2400 : list (list MemberDatum) :=
  [page_of 0 1000; page_of 1000 1000; page_of 2000 400].
Definition pages_2000 : list (list MemberDatum) :=
  [page_of 0 1000; page_of 1000 1000].

(** Shard 0 connects and is closed with code 4004 while holding a
    session; the next connection is closed by the client itself. *)
Definition auth_failure_script : list Attempt :=
  [Connects gw0 [] (Some (WebsocketClosed 4004 "Authentication failed"))
     (fun _ => Ok tt);
   Connects gw0 [] (Some (WebsocketClosed 1000 "Client closed connection"))
     (fun _ => Ok tt)].


(** A connection that ends with close code 4000 and whose resume fails
    on an unusable transport. *)
Definition failed_resume : Attempt :=
  Connects gw0 [("gateway_hello", [])] (Some (WebsocketClosed 4000 "Unknown error"))
    (fun _ => Raise WebsocketUnusable).

Definition paging_bot (pages : list (list MemberDatum)) : Client :=
  {| ident := 0; state := state0; events := registry0;
     http := paged_source pages;
     user_bot := true; base64ify := fun _ => Ok "data:image/png;base64," |}.

End Examples.

(* ===================================================================== *)
(** * More of curious/core/client.py: what the gate delivers, scripted
      member sources, [edit_avatar] *)
(* ===================================================================== *)

Module Delivery.
Import Py Effects Client.

(** Is the ready gate open for [event_name] on the shard of [gw]? *)
Definition gate_open (self : Client) (gw : Gateway) (event_name : string)
  : bool :=
  (is_ready (state self) (shard_id gw)
   || str_in event_name IGNORE_READY
   || startswith event_name "gateway_")%bool.

(** The handler invocations that firing [ev] on the registry schedules. *)
Definition deliveries (em : EventManager) (gw : Gateway) (ev : Event)
  : Trace :=
  List.map (fun h => Invoke h (fst ev) (snd ev) (shard_id gw))
           (handlers_for em (fst ev)).

(** The same, behind the gate. *)
Definition gated_deliveries (self : Client) (gw : Gateway) (ev : Event)
  : Trace :=
  if gate_open self gw (fst ev) then deliveries (events self) gw ev else [].

(** The event of a routine's single result. *)
Definition result_event (r : Result) : Event :=
  match r with
  | RName event_name => (event_name, [])
  | RTuple ev => ev
  end.

(** What the two [except] clauses of [handle_dispatches] make of the
    exception [e] raised at the trace [t]: the chunk request is served, a
    [BaseException] that is no [Exception] passes, and for any other one the
    clause itself fails on the unbound name [event]. *)
Definition after_failure (gw : Gateway) (e : Exn) (t : Trace)
  : Res unit * Trace :=
  match e with
  | ChunkGuilds => (Ok tt, (t ++ [GwGetChunks (shard_id gw)])%list)
  | _ => if is_Exception e then (Raise (NameError "event"), t)
         else (Raise e, t)
  end.

(** How a routine's outcome ends, and the events it gives before. *)
Definition outcome_events (o : Outcome) : list Event :=
  match o with
  | Returns r | Awaitable (Ok r) => [result_event r]
  | AsyncGen items _ => items
  | Awaitable (Raise _) | Raises _ => []
  end.

Definition outcome_failure (o : Outcome) : option Exn :=
  match o with
  | Returns _ | Awaitable (Ok _) => None
  | AsyncGen _ fin => fin
  | Awaitable (Raise e) | Raises e => Some e
  end.

(** The [GwGetChunks] operations of a trace. *)
Fixpoint chunk_requests (t : Trace) : list Z :=
  match t with
  | [] => []
  | GwGetChunks shard :: t' => shard :: chunk_requests t'
  | _ :: t' => chunk_requests t'
  end.

(** A trace without its log records. *)
Fixpoint without_logs (t : Trace) : Trace :=
  match t with
  | [] => []
  | Log _ _ _ :: t' => without_logs t'
  | a :: t' => a :: without_logs t'
  end.

(** The log records of a trace: [(level, template)]. *)
Fixpoint log_records (t : Trace) : list (string * string) :=
  match t with
  | [] => []
  | Log level template _ :: t' => (level, template) :: log_records t'
  | _ :: t' => log_records t'
  end.

(** A member source that answers the n-th request with the n-th entry of
    [responses], and with an empty page after the last. *)
Definition scripted_source (responses : list (Res (list MemberDatum)))
  : HTTPClient :=
  {| get_guild_members := fun h _ _ _ =>
       nth (List.length (member_requests h)) responses (Ok []);
     edit_user := fun _ _ _ => Ok tt |}.

(** A member source that answers every request with [page]. *)
Definition endless_source (page : list MemberDatum) : HTTPClient :=
  {| get_guild_members := fun _ _ _ _ => Ok page;
     edit_user := fun _ _ _ => Ok tt |}.

(** [Client.edit_avatar(path)]: [file] is what
    [with open(path, 'rb') as f: f.read()] gives, the bytes of the file or
    the error of opening or reading it. *)
Definition edit_avatar (self : Client) (file : Res (list Byte.byte))
  : Eff unit :=
  act avatar <- lift file ;
  edit_profile self None (Some avatar) None.

(** A state layer with a routine that yields two events and then asks for
    member chunks, and one that is interrupted from the keyboard. *)
Definition state1 : State :=
  {| ready_shards := {[ 0 ]};
     routines :=
       {[ "handle_guild_create" :=
            (fun _ _ =>
               AsyncGen [("guild_available", [VInt 7]); ("guild_join", [VInt 7])]
                        (Some ChunkGuilds));
          "handle_ready" :=
            (fun _ _ => AsyncGen [("connect", []); ("ready", [])] None);
          "handle_typing_start" := (fun _ _ => Raises KeyboardInterrupt) ]}
  |}.

Definition registry1 : EventManager :=
  mkEventManager
    {[ "guild_available" := [3%nat]; "guild_join" := [5%nat; 6%nat];
       "ready" := [7%nat] ]}.

Definition bot1 : Client :=
  {| ident := 1; state := state1; events := registry1;
     http := Examples.http0; user_bot := true;
     base64ify := fun _ => Ok "data:image/png;base64," |}.

(** A client whose member source never runs dry, and one whose third
    page request fails. *)
Definition endless_bot : Client :=
  {| ident := 0; state := Examples.state0; events := Examples.registry0;
     http := endless_source (page_of 0 3);
     user_bot := true; base64ify := fun _ => Ok "data:image/png;base64," |}.

Definition failing_bot : Client :=
  {| ident := 0; state := Examples.state0; events := Examples.registry0;
     http := scripted_source
               (List.map Ok [page_of 0 2; page_of 2 2]
                ++ [Raise (HTTPException 502); Ok []])%list;
     user_bot := true; base64ify := fun _ => Ok "data:image/png;base64," |}.

(** A bot account whose encoder tells the number of bytes it was given. *)
Definition counting_bot : Client :=
  {| ident := 2; state := Examples.state0; events := Examples.registry0;
     http := Examples.http0; user_bot := true;
     base64ify := fun b => Ok (str_of_int (Z.of_nat (List.length b))) |}.

End Delivery.

(* ===================================================================== *)
(** * More of curious/dataclasses: text, relations and calendar time *)
(* ===================================================================== *)

Module Entities.
Import Py Float Bases Emoji.
Local Open Scope Z_scope.

(** [bool(v)]. *)
Definition truthy (v : Val) : bool :=
  match v with
  | VNone => false
  | VBool b => b
  | VInt z => negb (Z.eqb z 0)
  | VStr s => negb (String.eqb s "")
  | VBytes b => match b with [] => false | _ => true end
  | VList l => match l with [] => false | _ => true end
  | VClient _ | VObject _ => true
  end.

(** [str(v)] for [None], [bool], [int] and [str]; the text of the other
    values is not rendered here. *)
Definition str (v : Val) : option string :=
  match v with
  | VNone => Some "None"
  | VBool b => Some (if b then "True" else "False")
  | VInt z => Some (str_of_int z)
  | VStr s => Some s
  | _ => None
  end.

(** The [url] property of [Emoji]. *)
Definition url (self : Emoji) : option string :=
  match str (emoji_id self) with
  | Some i =>
      if negb (truthy (animated self))
      then Some ("https://cdn.discordapp.com/emojis/" +:+ i +:+ ".png")
      else Some ("https://cdn.discordapp.com/emojis/" +:+ i +:+ ".gif")
  | None => None
  end.

(** [Emoji.__str__]. *)
Definition __str__ (self : Emoji) : option string :=
  match str (name self), str (emoji_id self) with
  | Some n, Some i =>
      Some ("<" +:+ (if truthy (animated self) then "a" else "")
            +:+ ":" +:+ n +:+ ":" +:+ i +:+ ">")
  | _, _ => None
  end.

(** No colon. *)
Definition no_colon (c : ascii) : bool := negb (Ascii.eqb c ":").

(** A role and a guild, as far as [Emoji] reads them: the guild's
    [default_role] property gives a role or fails, and [roles] maps the
    ids of its roles to them. *)
Record Role : Type := mkRole { role_id : Z; role_name : string }.

Record Guild : Type := mkGuild {
  guild_ident : Z;
  default_role : Res Role;
  roles_of : gmap Z Role
}.

(** The guilds each client sees: [client.guilds]. *)
Definition World : Type := gmap nat (gmap Z Guild).

(** [self._bot.guilds]. *)
Definition bot_guilds (w : World) (bot : Val) : Res (gmap Z Guild) :=
  match bot with
  | VClient c => Ok (default ∅ (w !! c))
  | _ => Raise (AttributeError "guilds")
  end.

(** A value as the key of a mapping with [int] keys: [None] when no such
    key can be present, [TypeError] when the value is not hashable. *)
Definition int_key (k : Val) : Res (option Z) :=
  match k with
  | VInt z => Ok (Some z)
  | VBool b => Ok (Some (if b then 1 else 0))
  | VList _ => Raise (TypeError "unhashable type: 'list'")
  | _ => Ok None
  end.

(** The [guild] property: [self._bot.guilds.get(self.guild_id)]. *)
Definition guild (w : World) (self : Emoji) : Res (option Guild) :=
  do gs <- bot_guilds w (emoji_bot self) ;
  do k <- int_key (guild_id self) ;
  Ok (match k with Some z => gs !! z | None => None end).

(** [len(v)]. *)
Definition len (v : Val) : Res Z :=
  match v with
  | VList l => Ok (Z.of_nat (List.length l))
  | VStr s => Ok (Z.of_nat (String.length s))
  | VBytes b => Ok (Z.of_nat (List.length b))
  | _ => Raise (TypeError "object has no len()")
  end.

(** The items that iterating over [v] gives. *)
Definition items (v : Val) : Res (list Val) :=
  match v with
  | VList l => Ok l
  | VStr s => Ok (List.map (fun c => VStr (String c EmptyString))
                           (list_ascii_of_string s))
  | VBytes b => Ok (List.map (fun x => VInt (Z.of_N (Byte.to_N x))) b)
  | _ => Raise (TypeError "object is not iterable")
  end.

(** [self.guild.default_role]. *)
Definition guild_default_role (w : World) (self : Emoji) : Res Role :=
  do g <- guild w self ;
  match g with
  | Some g => default_role g
  | None => Raise (AttributeError "default_role")
  end.

(** The key that a [KeyError] names. *)
Definition key_text (k : Val) : string := default "" (str k).

(** [self.guild.roles[r_id]]. *)
Definition guild_role (w : World) (self : Emoji) (r_id : Val) : Res Role :=
  do g <- guild w self ;
  match g with
  | Some g =>
      do k <- int_key r_id ;
      match k with
      | Some z =>
          match roles_of g !! z with
          | Some r => Ok r
          | None => Raise (KeyError (key_text r_id))
          end
      | None => Raise (KeyError (key_text r_id))
      end
  | None => Raise (AttributeError "roles")
  end.

(** A list comprehension [[f x for x in xs]]: the first failure ends it. *)
Fixpoint comprehension {A B} (f : A -> Res B) (xs : list A) : Res (list B) :=
  match xs with
  | [] => Ok []
  | x :: xs' => do y <- f x ; do ys <- comprehension f xs' ; Ok (y :: ys)
  end.

(** The [roles] property. *)
Definition roles (w : World) (self : Emoji) : Res (list Role) :=
  do n <- len (role_ids self) ;
  if Z.leb n 0
  then do r <- guild_default_role w self ; Ok [r]
  else do ids <- items (role_ids self) ;
       comprehension (guild_role w self) ids.

(** ** Calendar time, read back *)

(** The day number of a proleptic Gregorian date, counted from
    1970-01-01. *)
Definition days_from_civil (y m d : Z) : Z :=
  let y' := if Z.leb m 2 then y - 1 else y in
  let era := y' / 400 in
  let yoe := y' - era * 400 in
  let mp := if Z.ltb 2 m then m - 3 else m + 9 in
  let doy := (153 * mp + 2) / 5 + d - 1 in
  let doe := yoe * 365 + yoe / 4 - yoe / 100 + doy in
  era * 146097 + doe - 719468.

(** The whole milliseconds between the Unix epoch and the UTC time
    [dt]. *)
Definition unix_millis (dt : datetime) : Z :=
  (days_from_civil (year dt) (month dt) (day dt) * 86400
   + hour dt * 3600 + minute dt * 60 + second dt) * 1000
  + microsecond dt / 1000.

(** Does [civil_from_days] give, for the day [d], a date in the years
    2015..2154 that [days_from_civil] reads back as [d]? *)
Definition day_checks (d : Z) : bool :=
  let '(y, m, dd) := civil_from_days d in
  (Z.eqb (days_from_civil y m dd) d && Z.leb 2015 y && Z.leb y 2154)%bool.

(** The [n] days from [d] on. *)
Fixpoint days_from (n : nat) (d : Z) : list Z :=
  match n with
  | O => []
  | S n' => d :: days_from n' (d + 1)
  end.

(** The days on which the 64-bit snowflakes fall: 2^42 milliseconds from
    2015-01-01. *)
Definition snowflake_days : list Z := days_from (Z.to_nat 50905) 16436.

(** ** Example entities *)

Definition everyone : Role := mkRole 7 "@everyone".
Definition mods : Role := mkRole 70 "mods".
Definition admins : Role := mkRole 71 "admins".

Definition guild7 : Guild :=
  mkGuild 7 (Ok everyone) {[ 7 := everyone; 70 := mods; 71 := admins ]}.

Definition world0 : World := {[ 0%nat := {[ 7 := guild7 ]} ]}.

(** An emoji of [guild7], as the caching layer leaves it. *)
Definition cached (e : Emoji) : Emoji :=
  {| dataclass := dataclass e; name := name e; role_ids := role_ids e;
     require_colons := require_colons e; managed := managed e;
     guild_id := VInt 7; animated := animated e |}.

Definition party_kwargs : gmap string Val :=
  {[ "id" := VStr "175928847299117063"; "name" := VStr "party";
     "client" := VClient 0; "animated" := VBool true;
     "roles" := VList [VInt 71; VInt 70] ]}.

(** What [Emoji.__init__] makes of [party_kwargs]. *)
Definition party : Emoji :=
  {| dataclass :=
       mkDataclass (mkIDObject (VInt 175928847299117063)) (VClient 0);
     name := VStr "party"; role_ids := VList [VInt 71; VInt 70];
     require_colons := VBool false; managed := VBool false;
     guild_id := VNone; animated := VBool true |}.

End Entities.

(* ===================================================================== *)
(** * curious/util.py *)
(* ===================================================================== *)

Module Util.
Import Py Float.
Local Open Scope list_scope.

(** A coroutine object: awaiting it gives its outcome, once; a coroutine
    that has been awaited cannot be awaited again. *)
Inductive Coroutine (A : Type) : Type :=
| Fresh (outcome : Res A)
| Awaited.
Arguments Fresh {A} outcome.
Arguments Awaited {A}.

(** [await coro]. *)
Definition await {A} (coro : Coroutine A) : Res A * Coroutine A :=
  match coro with
  | Fresh outcome => (outcome, Awaited)
  | Awaited =>
      (Raise (RuntimeError "cannot reuse already awaited coroutine"), Awaited)
  end.

(** [class AsyncIteratorWrapper]: the coroutine gives the sequence to
    iterate over. *)
Record AsyncIteratorWrapper (A : Type) : Type := mkWrapper {
  client : Val;
  coro : Coroutine (list A);
  items : list A;
  _filled : bool
}.
Arguments mkWrapper {A}.
Arguments client {A}.
Arguments coro {A}.
Arguments items {A}.
Arguments _filled {A}.

(** [AsyncIteratorWrapper.__init__]. *)
Definition __init__ {A} (client : Val) (coro : Coroutine (list A))
  : AsyncIteratorWrapper A :=
  mkWrapper client coro [] false.

(** [_fill]: [self.items.extend(await self.coro)], then
    [self._filled = True]. *)
Definition _fill {A} (self : AsyncIteratorWrapper A)
  : Res unit * AsyncIteratorWrapper A :=
  match await (coro self) with
  | (Ok l, c) => (Ok tt, mkWrapper (client self) c (items self ++ l) true)
  | (Raise e, c) =>
      (Raise e, mkWrapper (client self) c (items self) (_filled self))
  end.

(** What one [__anext__] gives: an item, [StopAsyncIteration], or another
    exception. *)
Inductive Next (A : Type) : Type :=
| Item (a : A)
| StopAsyncIteration
| Failed (e : Exn).
Arguments Item {A} a.
Arguments StopAsyncIteration {A}.
Arguments Failed {A} e.

(** [__anext__]: [popleft] on the empty deque raises the [IndexError]
    that is turned into [StopAsyncIteration]. *)
Definition __anext__ {A} (self : AsyncIteratorWrapper A)
  : Next A * AsyncIteratorWrapper A :=
  let '(r, self) := if _filled self then (Ok tt, self) else _fill self in
  match r with
  | Raise e => (Failed e, self)
  | Ok _ =>
      match items self with
      | x :: rest =>
          (Item x, mkWrapper (client self) (coro self) rest (_filled self))
      | [] => (StopAsyncIteration, self)
      end
  end.

(** How an [async for] loop over the wrapper ends. *)
Inductive Ending : Type :=
| Exhausted
| Broke (e : Exn)
| Running.

(** [async for x in self]: the items the loop body sees and how the loop
    ends, within [fuel] calls of [__anext__]. *)
Fixpoint async_for {A} (fuel : nat) (self : AsyncIteratorWrapper A)
  : (list A * Ending) * AsyncIteratorWrapper A :=
  match fuel with
  | O => (([], Running), self)
  | S fuel' =>
      match __anext__ self with
      | (Item x, self') =>
          let '((xs, ending), self'') := async_for fuel' self' in
          ((x :: xs, ending), self'')
      | (StopAsyncIteration, self') => (([], Exhausted), self')
      | (Failed e, self') => (([], Broke e), self')
      end
  end.

(** ** [to_datetime] *)

(** [s.endswith(suffix)]. *)
Definition endswith (s suffix : string) : bool :=
  (Nat.leb (String.length suffix) (String.length s)
   && String.eqb (String.substring (String.length s - String.length suffix)
                                   (String.length suffix) s)
                 suffix)%bool.

(** [s[:-n]] for [0 < n]. *)
Definition drop_last (n : nat) (s : string) : string :=
  String.substring 0 (String.length s - n) s.

Section ToDatetime.

(** [datetime.datetime.strptime(text, format)]. *)
Variable strptime : string -> string -> Res datetime.

(** [to_datetime(timestamp)]: [None] stands for Python's [None], as
    argument and as result. *)
Definition to_datetime (timestamp : option string) : Res (option datetime) :=
  match timestamp with
  | None => Ok None
  | Some timestamp =>
      if endswith timestamp "+00:00"
      then do d <- strptime (drop_last 6 timestamp) "%Y-%m-%dT%H:%M:%S.%f" ;
           Ok (Some d)
      else do d <- strptime timestamp "%Y-%m-%dT%H:%M:%S.%f" ;
           Ok (Some d)
  end.

End ToDatetime.

(** A parser that knows one text. *)
Definition strptime0 (text format : string) : Res datetime :=
  if (String.eqb text "2017-05-01T12:30:00.250000"
      && String.eqb format "%Y-%m-%dT%H:%M:%S.%f")%bool
  then Ok (mkDatetime 2017 5 1 12 30 0 250000)
  else Raise (ValueError "time data does not match format").

End Util.

(* ===================================================================== *)
(** * curious/core/client.py: construction, the gateway URL, the run
      entry points and the event counters *)
(* ===================================================================== *)

Module Runtime.
Import Py Entities.
Local Open Scope Z_scope.
Local Open Scope list_scope.

(** [class BotType(enum.IntEnum)]. *)
Module BotType.
Definition BOT : Z := 1.
Definition USERBOT : Z := 2.
Definition ONLY_USER : Z := 8.
Definition NO_DMS : Z := 16.
Definition NO_GUILDS : Z := 32.
Definition SELF_BOT : Z := 64.
End BotType.

(** What the surroundings of the client answer: the HTTP layer to
    [get_gateway_url()], [get_shard_count()] and [get_app_info(None)], and
    the task group to leaving its [async with] block, which is when the
    tasks spawned in it, given by their [(shard_id, shard_count)], have
    ended: with [None], or with the exception that comes out of the
    group. *)
Record Service : Type := mkService {
  gateway_url : Res string;
  shard_count_info : Res (string * Z);
  app_info : Res Val;
  task_group : list (Z * Z) -> Res unit
}.

Inductive Request : Type :=
| GetGatewayUrl
| GetShardCount
| GetAppInfo.

(** What the client does, in the order in which it does it: a request to
    the HTTP layer, or the spawning of the task
    [handle_shard(shard_id, shard_count)]. *)
Inductive Op : Type :=
| Asked (q : Request)
| Spawned (shard_id shard_count : Z).

(** The attributes of a client that construction and the run entry
    points set, with the log of what it did. *)
Record Fields : Type := mkFields {
  shard_count : Z;
  _token : string;
  bot_type : Z;
  http_bot : bool;
  _gw_url : Val;
  application_info : Val;
  log : list Op
}.

(** The requests of a log, and the tasks spawned in it. *)
Fixpoint asked (l : list Op) : list Request :=
  match l with
  | [] => []
  | Asked q :: l' => q :: asked l'
  | Spawned _ _ :: l' => asked l'
  end.

Fixpoint spawns (l : list Op) : list (Z * Z) :=
  match l with
  | [] => []
  | Asked _ :: l' => spawns l'
  | Spawned shard_id count :: l' => (shard_id, count) :: spawns l'
  end.

(** The requests the client has made to the HTTP layer, and the tasks it
    has spawned. *)
Definition requests (self : Fields) : list Request := asked (log self).
Definition spawned (self : Fields) : list (Z * Z) := spawns (log self).

(** The default of [bot_type]: [BotType.BOT | BotType.ONLY_USER]. *)
Definition default_bot_type : Z := Z.lor BotType.BOT BotType.ONLY_USER.

(** [Client.__init__(token, bot_type=...)]. *)
Definition __init__ (token : string) (bot_type : Z) : Res Fields :=
  if (truthy (VInt (Z.land bot_type BotType.BOT))
      && truthy (VInt (Z.land bot_type BotType.USERBOT)))%bool
  then Raise (ValueError "Bot cannot be a bot and a userbot at the same time")
  else Ok {| shard_count := 0;
             _token := token;
             bot_type := bot_type;
             http_bot := truthy (VInt (Z.land bot_type BotType.BOT));
             _gw_url := VNone;
             application_info := VNone;
             log := [] |}.

Definition ask (q : Request) (self : Fields) : Fields :=
  mkFields (shard_count self) (_token self) (bot_type self) (http_bot self)
           (_gw_url self) (application_info self) (log self ++ [Asked q]).

Definition set_gw_url (v : Val) (self : Fields) : Fields :=
  mkFields (shard_count self) (_token self) (bot_type self) (http_bot self)
           v (application_info self) (log self).

Definition set_shard_count (n : Z) (self : Fields) : Fields :=
  mkFields n (_token self) (bot_type self) (http_bot self)
           (_gw_url self) (application_info self) (log self).

Definition set_application_info (v : Val) (self : Fields) : Fields :=
  mkFields (shard_count self) (_token self) (bot_type self) (http_bot self)
           (_gw_url self) v (log self).

(** [await tg.spawn(self.handle_shard(shard_id, shard_count))]. *)
Definition spawn (shard_id count : Z) (self : Fields) : Fields :=
  mkFields (shard_count self) (_token self) (bot_type self) (http_bot self)
           (_gw_url self) (application_info self)
           (log self ++ [Spawned shard_id count]).

(** [Client.get_gateway_url]. *)
Definition get_gateway_url (svc : Service) (self : Fields)
  : Res Val * Fields :=
  if truthy (_gw_url self) then (Ok (_gw_url self), self)
  else
    let self := ask GetGatewayUrl self in
    match gateway_url svc with
    | Ok u => (Ok (VStr u), set_gw_url (VStr u) self)
    | Raise e => (Raise e, self)
    end.

(** [Client.get_shard_count]. *)
Definition get_shard_count (svc : Service) (self : Fields)
  : Res Z * Fields :=
  let self := ask GetShardCount self in
  match shard_count_info svc with
  | Ok (gw, shards) => (Ok shards, set_gw_url (VStr gw) self)
  | Raise e => (Raise e, self)
  end.

(** [range(0, n)]. *)
Definition range (n : Z) : list Z :=
  List.map Z.of_nat (List.seq 0 (Z.to_nat n)).

(** [Client.start(shard_count)]: the application info of a bot is asked
    for before the task group is entered; in the group one task is
    spawned for each shard id, and what [start] gives is what leaving the
    group gives. *)
Definition start (svc : Service) (count : Z) (self : Fields)
  : Res unit * Fields :=
  let '(r, self) :=
    if truthy (VInt (Z.land (bot_type self) BotType.BOT))
    then
      let self := ask GetAppInfo self in
      match app_info svc with
      | Ok data => (Ok tt, set_application_info data self)
      | Raise e => (Raise e, self)
      end
    else (Ok tt, self) in
  match r with
  | Raise e => (Raise e, self)
  | Ok _ =>
      (task_group svc (List.map (fun shard_id => (shard_id, count))
                                (range count)),
       List.fold_left (fun self shard_id => spawn shard_id count self)
                      (range count) self)
  end.

(** [Client.run_async(shard_count=1, autoshard=True)]. *)
Definition run_async (svc : Service) (count : Z) (autoshard : bool)
           (self : Fields) : Res unit * Fields :=
  let '(r, self) :=
    if autoshard then get_shard_count svc self else (Ok count, self) in
  match r with
  | Raise e => (Raise e, self)
  | Ok count => start svc count (set_shard_count count self)
  end.

(** ** [events_handled] *)

(** [c[name]] for a [collections.Counter] of event names: a missing name
    counts 0. *)
Definition count (c : gmap string Z) (name : string) : Z := default 0 (c !! name).

(** [c.update(d)]: the counts of [d] are added to those of [c]. *)
Definition update (c d : gmap string Z) : gmap string Z :=
  union_with (fun x y => Some (y + x)) c d.

(** The [events_handled] property, over the [_dispatches_handled] counters
    of [self._gateways.values()], in their order. *)
Definition events_handled (gateways : list (Z * gmap string Z))
  : gmap string Z :=
  List.fold_left (fun c gw => update c (snd gw)) gateways ∅.

(** ** Example services and counters *)

Definition service0 : Service :=
  mkService (Ok "wss://gateway.example") (Ok ("wss://gateway.example", 3))
            (Ok (VObject "appinfo")) (fun _ => Ok tt).

Definition no_app_info : Service :=
  mkService (Ok "wss://gateway.example") (Ok ("wss://gateway.example", 3))
            (Raise (HTTPException 401)) (fun _ => Ok tt).

(** A service whose task group ends when a shard has given up. *)
Definition giving_up : Service :=
  mkService (Ok "wss://gateway.example") (Ok ("wss://gateway.example", 3))
            (Ok (VObject "appinfo"))
            (fun _ => Raise (RuntimeError "Gave up reconnecting shard id 1")).

Definition fresh_bot : Fields :=
  mkFields 0 "token" 9 true VNone VNone [].

Definition counters0 : list (Z * gmap string Z) :=
  [(0, {[ "MESSAGE_CREATE" := 4; "READY" := 1 ]});
   (1, {[ "MESSAGE_CREATE" := 6; "GUILD_CREATE" := 2 ]})].

End Runtime.

(* ===================================================================== *)
(** * Facts about the Python primitives *)
(* ===================================================================== *)

Module PyFacts.
Import Py.

Ltac by_cases_on c := destruct c as [[] [] [] [] [] [] [] []]; vm_compute; congruence.

Lemma is_digit_plain c : is_digit c = true -> plain c = true.
Proof. by_cases_on c. Qed.

Lemma all_chars_impl (P Q : ascii -> bool) s :
  (forall c, P c = true -> Q c = true) ->
  all_chars P s = true -> all_chars Q s = true.
Proof.
  intros HPQ. induction s as [|c r IH]; simpl; [easy|].
  intros H. apply andb_prop in H as [Hc Hr].
  rewrite (HPQ _ Hc), (IH Hr). reflexivity.
Qed.

Lemma rev_string_all P acc s :
  all_chars P acc = true -> all_chars P s = true ->
  all_chars P (rev_string acc s) = true.
Proof.
  revert acc. induction s as [|c r IH]; simpl; intros acc Ha Hs; [exact Ha|].
  apply andb_prop in Hs as [Hc Hr]. apply IH; [|exact Hr].
  simpl. rewrite Hc, Ha. reflexivity.
Qed.

Lemma rev_string_invol_gen s acc :
  rev_string EmptyString (rev_string acc s) = rev_string s acc.
Proof.
  revert acc. induction s as [|c r IH]; simpl; intros acc.
  - (* rev (acc) = rev_string "" acc *) reflexivity.
  - rewrite IH. reflexivity.
Qed.

Lemma lstrip_plain s :
  all_chars (fun c => negb (is_space c)) s = true -> lstrip s = s.
Proof.
  destruct s as [|c r]; simpl; [reflexivity|].
  intros H. apply andb_prop in H as [Hc _].
  apply negb_true_iff in Hc. rewrite Hc. reflexivity.
Qed.

Lemma strip_plain s :
  all_chars (fun c => negb (is_space c)) s = true -> strip s = s.
Proof.
  intros H. unfold strip. rewrite (lstrip_plain s H).
  rewrite lstrip_plain by (apply rev_string_all; [reflexivity | exact H]).
  rewrite rev_string_invol_gen. reflexivity.
Qed.

Lemma ungroup_digits s prev :
  all_chars is_digit s = true ->
  (prev = true \/ s <> EmptyString) ->
  ungroup prev s = Some s.
Proof.
  revert prev. induction s as [|c r IH]; simpl; intros prev H Hne.
  - destruct Hne as [-> | Hne]; [reflexivity | congruence].
  - apply andb_prop in H as [Hc Hr].
    assert (Hu : Ascii.eqb c "_" = false).
    { apply is_digit_plain in Hc. unfold plain in Hc.
      apply andb_prop in Hc as [_ Hc]. now apply negb_true_iff in Hc. }
    rewrite Hu, (IH true Hr) by (left; reflexivity). reflexivity.
Qed.

Lemma string_of_uint_digits d :
  all_chars is_digit (NilEmpty.string_of_uint d) = true.
Proof. induction d; simpl; try rewrite IHd; reflexivity. Qed.

Lemma string_of_uint_nonempty d :
  d <> Decimal.Nil -> NilEmpty.string_of_uint d <> EmptyString.
Proof. destruct d; simpl; congruence. Qed.

(** [int] reads back what [str] prints, for a natural number given by its
    decimal digits. *)
Lemma int_of_str_uint d :
  d <> Decimal.Nil ->
  int_of_str (NilEmpty.string_of_uint d) = Some (Z.of_uint d).
Proof.
  intros Hd. unfold int_of_str.
  pose proof (string_of_uint_digits d) as Hdig.
  rewrite strip_plain.
  2:{ eapply all_chars_impl; [|exact Hdig]. intros c Hc.
      apply is_digit_plain in Hc. unfold plain in Hc.
      now apply andb_prop in Hc as [Hc _]. }
  assert (Hhd : forall r c, NilEmpty.string_of_uint d = String c r -> c <> "-"%char /\ c <> "+"%char).
  { intros r c E. rewrite E in Hdig. simpl in Hdig.
    apply andb_prop in Hdig as [Hc _]. split; intros ->; discriminate Hc. }
  assert (Hbody :
    (let '(neg, body) :=
       match NilEmpty.string_of_uint d with
       | String "-" r => (true, r)
       | String "+" r => (false, r)
       | _ => (false, NilEmpty.string_of_uint d)
       end in (neg, body)) = (false, NilEmpty.string_of_uint d)).
  { destruct (NilEmpty.string_of_uint d) as [|c r] eqn:E; [reflexivity|].
    destruct (Hhd r c eq_refl) as [H1 H2].
    destruct c as [[] [] [] [] [] [] [] []]; try reflexivity; congruence. }
  destruct (match NilEmpty.string_of_uint d with
       | String "-" r => (true, r)
       | String "+" r => (false, r)
       | _ => (false, NilEmpty.string_of_uint d)
       end) as [neg body].
  injection Hbody as -> ->.
  rewrite ungroup_digits; [| exact Hdig | right; now apply string_of_uint_nonempty].
  rewrite NilEmpty.usu. reflexivity.
Qed.

Lemma int_of_str_neg_uint d :
  d <> Decimal.Nil ->
  int_of_str (String "-" (NilEmpty.string_of_uint d)) = Some (- Z.of_uint d).
Proof.
  intros Hd. unfold int_of_str.
  pose proof (string_of_uint_digits d) as Hdig.
  rewrite strip_plain.
  2:{ simpl. eapply all_chars_impl; [|exact Hdig]. intros c Hc.
      apply is_digit_plain in Hc. unfold plain in Hc.
      now apply andb_prop in Hc as [Hc _]. }
  rewrite ungroup_digits; [| exact Hdig | right; now apply string_of_uint_nonempty].
  rewrite NilEmpty.usu. reflexivity.
Qed.

Lemma to_uint_nonnil p : Pos.to_uint p <> Decimal.Nil.
Proof. apply Unsigned.to_uint_nonnil. Qed.

Lemma of_uint_to_uint p : Z.of_uint (Pos.to_uint p) = Zpos p.
Proof. unfold Z.of_uint. rewrite Unsigned.of_to. reflexivity. Qed.

(** [int(str(z)) == z]. *)
Lemma int_of_str_of_int z : int_of_str (str_of_int z) = Some z.
Proof.
  unfold str_of_int. destruct z as [|p|p]; simpl.
  - reflexivity.
  - unfold NilZero.string_of_uint.
    destruct (Pos.to_uint p) eqn:E;
      try (rewrite <- E; rewrite int_of_str_uint by apply to_uint_nonnil;
           now rewrite of_uint_to_uint).
    now apply to_uint_nonnil in E.
  - unfold NilZero.string_of_uint.
    destruct (Pos.to_uint p) eqn:E;
      try (rewrite <- E; rewrite int_of_str_neg_uint by apply to_uint_nonnil;
           now rewrite of_uint_to_uint).
    now apply to_uint_nonnil in E.
Qed.

End PyFacts.

(* ===================================================================== *)
(** * Facts about binary64 rounding and [utcfromtimestamp] *)
(* ===================================================================== *)

Module FloatFacts.
Import Py Float.
Local Open Scope Z_scope.

Lemma rne_div_err a b :
  0 < b -> - b <= 2 * (rne_div a b * b - a) <= b.
Proof.
  intros Hb. unfold rne_div.
  pose proof (Z.div_mod a b ltac:(lia)) as E.
  pose proof (Z.mod_pos_bound a b Hb) as Hr.
  destruct (Z.compare_spec (2 * (a mod b)) b) as [H|H|H];
    [destruct (Z.even (a / b))| |]; nia.
Qed.

Lemma rne_div_unique a b n :
  0 < b -> - b < 2 * (n * b - a) < b -> rne_div a b = n.
Proof.
  intros Hb Hn. pose proof (rne_div_err a b Hb) as He. nia.
Qed.

Lemma rne_div_exact q b : 0 < b -> rne_div (q * b) b = q.
Proof. intros Hb. apply rne_div_unique; lia. Qed.

Lemma rne_div_scale a b c :
  0 < b -> 0 < c -> rne_div (a * c) (b * c) = rne_div a b.
Proof.
  intros Hb Hc. unfold rne_div.
  rewrite Z.div_mul_cancel_r by lia.
  rewrite Z.mul_mod_distr_r by lia.
  destruct (Z.compare_spec (2 * (a mod b * c)) (b * c));
    destruct (Z.compare_spec (2 * (a mod b)) b); try reflexivity; nia.
Qed.

(** Scaling a quotient that fits in 53 bits to microseconds-like units is
    exact in binary64: rounding the product to an integer is rounding the
    exact product. *)
Lemma round_mul_exact a k :
  0 <= a < 2 ^ 53 -> 1 <= k <= 1000 ->
  round_half_even (nearest a (2 ^ k)) = rne_div a (2 ^ k).
Proof.
  intros Ha Hk. unfold nearest.
  destruct (Z.compare_spec a 0) as [H0|H0|H0]; [|lia|].
  - subst a. unfold round_half_even. simpl.
    symmetry. apply (rne_div_exact 0).
    apply Z.pow_pos_nonneg; lia.
  - set (L := Z.log2 a).
    assert (HL : 2 ^ L <= a < 2 ^ (L + 1)).
    { unfold L. replace (Z.log2 a + 1) with (Z.succ (Z.log2 a)) by lia.
      apply Z.log2_spec. lia. }
    assert (HL0 : 0 <= L) by apply Z.log2_nonneg.
    assert (HL52 : L <= 52).
    { destruct (Z_le_gt_dec L 52) as [|Hgt]; [assumption|].
      assert (2 ^ 53 <= 2 ^ L) by (apply Z.pow_le_mono_r; lia). lia. }
    assert (Hpk : 0 < 2 ^ k) by (apply Z.pow_pos_nonneg; lia).
    assert (Hp1 : 0 < 2 ^ (52 - L)) by (apply Z.pow_pos_nonneg; lia).
    unfold nearest_pos. fold L. rewrite Z.log2_pow2 by lia.
    assert (Hfs : floor_scaled a (2 ^ k) (L - k - 53) = a * 2 ^ (53 - L)).
    { unfold floor_scaled.
      destruct (Z.leb_spec 0 (L - k - 53)); [lia|].
      replace (- (L - k - 53)) with ((53 - L) + k) by lia.
      rewrite Z.pow_add_r by lia. rewrite Z.mul_assoc.
      apply Z.div_mul. lia. }
    rewrite Hfs.
    assert (Hge : 2 ^ 53 <= a * 2 ^ (53 - L)).
    { replace (2 ^ 53) with (2 ^ L * 2 ^ (53 - L))
        by (rewrite <- Z.pow_add_r by lia; f_equal; lia).
      apply Z.mul_le_mono_nonneg_r; [|lia].
      apply Z.pow_nonneg. lia. }
    destruct (Z.ltb_spec (a * 2 ^ (53 - L)) (2 ^ 53)); [lia|].
    rewrite Z.max_l by lia.
    unfold round_half_even, rne_scaled. cbn [expo mant].
    destruct (Z.leb_spec 0 (L - k - 53 + 1)); [lia|].
    replace (- (L - k - 53 + 1)) with ((52 - L) + k) by lia.
    rewrite Z.pow_add_r by lia. rewrite Z.mul_assoc.
    rewrite rne_div_exact by lia.
    rewrite (Z.mul_comm (2 ^ (52 - L)) (2 ^ k)).
    apply rne_div_scale; lia.
Qed.

(** On the sample, and on operands of other magnitudes, [nearest] is the
    division of [SpecFloat]. *)
Example nearest_agrees_with_SFdiv :
  forallb (fun m => same_number (nearest m 1000) (SFdiv_of_ints m 1000))
          sample_millis = true
  /\ forallb (fun i => same_number (nearest (1 + i * 977) (2 ^ (3 * i)))
                                   (SFdiv_of_ints (1 + i * 977) (2 ^ (3 * i))))
             (List.map Z.of_nat (List.seq 0 100)) = true
  /\ forallb (fun i => same_number (nearest (- (7 + i)) (3 + 5 * i))
                                   (SFdiv_of_ints (- (7 + i)) (3 + 5 * i)))
             (List.map Z.of_nat (List.seq 0 100)) = true.
Proof. repeat split; vm_compute; reflexivity. Qed.

(** The heart of the timestamp property: a binary64 number within half a
    unit in the last place of [m / 1000] seconds, at an exponent between
    [-33] and [-20], is converted to the calendar time of exactly [m]
    milliseconds. *)
Lemma utcfromtimestamp_millis m k :
  0 <= m -> 20 <= k <= 33 -> m / 1000 <= 253402300799 ->
  utcfromtimestamp (mkFloat (rne_div (m * 2 ^ k) 1000) (- k))
  = Ok (utc_datetime_from_unix_millis m).
Proof.
  intros Hm Hk Hyear.
  set (M := rne_div (m * 2 ^ k) 1000).
  pose proof (rne_div_err (m * 2 ^ k) 1000 ltac:(lia)) as He. fold M in He.
  pose proof (Z.div_mod m 1000 ltac:(lia)) as Em.
  pose proof (Z.mod_pos_bound m 1000 ltac:(lia)) as HR.
  set (Q := m / 1000) in *. set (R := m mod 1000) in *.
  assert (Hp20 : 2 ^ 20 <= 2 ^ k) by (apply Z.pow_le_mono_r; lia).
  assert (Hp33 : 2 ^ k <= 2 ^ 33) by (apply Z.pow_le_mono_r; lia).
  change (2 ^ 20) with 1048576 in Hp20.
  change (2 ^ 33) with 8589934592 in Hp33.
  assert (HQ : 0 <= Q) by (apply Z.div_pos; lia).
  set (F := M - Q * 2 ^ k).
  assert (HF : 0 <= F < 2 ^ k) by (unfold F; nia).
  assert (HM : 0 <= M) by (unfold F in HF; nia).
  assert (Hquot : Z.quot M (2 ^ k) = Q).
  { rewrite Z.quot_div_nonneg by lia.
    symmetry. apply (Z.div_unique M (2 ^ k) Q F); [lia | unfold F; lia]. }
  assert (Hrem : Z.rem M (2 ^ k) = F).
  { rewrite Z.rem_mod_nonneg by lia.
    symmetry. apply (Z.mod_unique M (2 ^ k) Q F); [lia | unfold F; lia]. }
  unfold utcfromtimestamp, modf. cbn [expo mant].
  destruct (Z.leb_spec 0 (- k)); [lia|].
  rewrite Z.opp_involutive, Hquot, Hrem.
  unfold mul_const. cbn [expo mant].
  destruct (Z.leb_spec 0 (- k)); [lia|].
  rewrite Z.opp_involutive.
  rewrite round_mul_exact by (change (2 ^ 53) with 9007199254740992; nia).
  assert (Hus : rne_div (F * 1000000) (2 ^ k) = R * 1000).
  { apply rne_div_unique; [lia|]. unfold F in *. nia. }
  rewrite Hus.
  destruct (Z.leb_spec 1000000 (R * 1000)); [lia|].
  destruct (Z.ltb_spec (R * 1000) 0); [lia|].
  destruct (Z.ltb_spec Q (-62135596800)); [lia|].
  destruct (Z.ltb_spec 253402300799 Q); [lia|].
  reflexivity.
Qed.

(** The quotient [m / 1000] of a millisecond count between the service
    epoch and the last 64-bit snowflake, as binary64. *)
Lemma nearest_millis m :
  1420070400000 <= m < 1420070400000 + 2 ^ 42 ->
  exists k, 20 <= k <= 22 /\
    nearest m 1000 = mkFloat (rne_div (m * 2 ^ k) 1000) (- k).
Proof.
  intros Hm. change (2 ^ 42) with 4398046511104 in Hm.
  unfold nearest.
  destruct (Z.compare_spec m 0); [lia|lia|].
  assert (HL : Z.log2 m = 40 \/ Z.log2 m = 41 \/ Z.log2 m = 42).
  { assert (40 <= Z.log2 m) by (change 40 with (Z.log2 (2 ^ 40)); apply Z.log2_le_mono; simpl; lia).
    assert (Z.log2 m <= 42) by (change 42 with (Z.log2 (2 ^ 43 - 1)); apply Z.log2_le_mono; simpl; lia).
    lia. }
  pose proof (Z.log2_spec m ltac:(lia)) as Hspec.
  unfold nearest_pos.
  assert (Hcase : forall e0, -22 <= e0 <= -20 ->
    exists k, 20 <= k <= 22 /\
      (let e1 := if floor_scaled m 1000 e0 <? 2 ^ 53 then e0 else e0 + 1 in
       let e := Z.max e1 (-1074) in
       mkFloat (rne_scaled m 1000 e) e)
      = mkFloat (rne_div (m * 2 ^ k) 1000) (- k)).
  { intros e0 He0. cbv zeta.
    assert (Hfs : (floor_scaled m 1000 e0 <? 2 ^ 53) = true \/ e0 <= -21).
    { destruct (Z.ltb_spec (floor_scaled m 1000 e0) (2 ^ 53)) as [|Hge];
        [now left|right].
      destruct (Z.eq_dec e0 (-20)) as [->|]; [exfalso|lia].
      unfold floor_scaled in Hge.
      change (0 <=? -20) with false in Hge. cbv iota in Hge.
      change (2 ^ (- -20)) with 1048576 in Hge.
      change (2 ^ 53) with 9007199254740992 in Hge.
      pose proof (Z.div_le_upper_bound (m * 1048576) 1000 9007199254740991
                    ltac:(lia) ltac:(lia)). lia. }
    destruct (floor_scaled m 1000 e0 <? 2 ^ 53).
    - exists (- e0). split; [lia|].
      rewrite Z.max_l by lia. unfold rne_scaled.
      destruct (Z.leb_spec 0 e0); [lia|].
      rewrite Z.opp_involutive. reflexivity.
    - destruct Hfs as [|Hle]; [discriminate|].
      exists (- (e0 + 1)). split; [lia|].
      rewrite Z.max_l by lia. unfold rne_scaled.
      destruct (Z.leb_spec 0 (e0 + 1)); [lia|].
      rewrite Z.opp_involutive. reflexivity. }
  change (Z.log2 1000) with 9.
  apply Hcase. lia.
Qed.
End FloatFacts.

(* ===================================================================== *)
(** * Facts about [IDObject] *)
(* ===================================================================== *)

Module BasesFacts.
Import Py Float Bases.
Import PyFacts FloatFacts.
Local Open Scope Z_scope.

Lemma shiftr_snowflake s :
  0 <= s < 2 ^ 64 -> 0 <= Z.shiftr s 22 < 2 ^ 42.
Proof.
  intros Hs. rewrite Z.shiftr_div_pow2 by lia. split.
  - apply Z.div_pos; [lia | reflexivity].
  - apply Z.div_lt_upper_bound; [reflexivity|].
    change (2 ^ 22 * 2 ^ 42) with (2 ^ 64). lia.
Qed.

(** C8. For every 64-bit snowflake [s], the identity object built from [s]
    has as [timestamp] the UTC calendar time of
    [(s >> 22) + 1420070400000] milliseconds after the Unix epoch, and the
    identity object built from the decimal string of [s] is the same
    object and compares equal to it. *)
Theorem snowflake_timestamp_and_string (s : Z) :
  0 <= s < 2 ^ 64 ->
  exists o o' : IDObject,
    IDObject__init__ (VInt s) = Ok o
    /\ IDObject__init__ (VStr (str_of_int s)) = Ok o'
    /\ timestamp o
       = Ok (utc_datetime_from_unix_millis (Z.shiftr s 22 + 1420070400000))
    /\ IDObject__eq__ o' o = true
    /\ IDObject__eq__ o o' = true.
Proof.
  intros Hs. exists (mkIDObject (VInt s)), (mkIDObject (VInt s)).
  split; [reflexivity|]. split; [|split; [|split]].
  2:{
    pose proof (shiftr_snowflake s Hs) as Hsh.
    unfold timestamp. cbn [id int bind]. unfold DISCORD_EPOCH.
    set (m := Z.shiftr s 22 + 1420070400000).
    assert (Hm : 1420070400000 <= m < 1420070400000 + 2 ^ 42) by (unfold m; lia).
    destruct (nearest_millis m Hm) as (k & Hk & Hn).
    unfold truediv. change (1000 ?= 0) with Gt. cbv iota.
    rewrite Hn.
    assert (Hov : overflows (mkFloat (rne_div (m * 2 ^ k) 1000) (- k)) = false).
    { unfold overflows. cbn [mant expo].
      rewrite Z.max_l by lia. rewrite Z.mul_1_r.
      apply Z.leb_gt.
      pose proof (rne_div_err (m * 2 ^ k) 1000 ltac:(lia)) as He.
      assert (2 ^ k <= 2 ^ 22) by (apply Z.pow_le_mono_r; lia).
      assert (0 < 2 ^ k) by (apply Z.pow_pos_nonneg; lia).
      change (2 ^ 42) with 4398046511104 in Hm.
      change (2 ^ 22) with 4194304 in *.
      assert (Z.abs (rne_div (m * 2 ^ k) 1000) < 2 ^ 64) by (change (2 ^ 64) with 18446744073709551616; nia).
      assert (2 ^ 64 < 2 ^ 1024) by (apply Z.pow_lt_mono_r; lia).
      lia. }
    rewrite Hov. cbn [bind].
    apply utcfromtimestamp_millis; [lia | lia |].
    change (2 ^ 42) with 4398046511104 in Hm.
    apply Z.div_le_upper_bound; lia. }
  - unfold IDObject__init__, int. rewrite int_of_str_of_int. reflexivity.
  - unfold IDObject__eq__. cbn. apply Z.eqb_refl.
  - unfold IDObject__eq__. cbn. apply Z.eqb_refl.
Qed.

Lemma snowflake_timestamp_and_string_witness :
  0 <= 175928847299117063 < 2 ^ 64
  /\ exists o o' : IDObject,
       IDObject__init__ (VInt 175928847299117063) = Ok o
       /\ IDObject__init__ (VStr (str_of_int 175928847299117063)) = Ok o'
       /\ timestamp o
          = Ok (utc_datetime_from_unix_millis
                  (Z.shiftr 175928847299117063 22 + 1420070400000))
       /\ IDObject__eq__ o' o = true
       /\ IDObject__eq__ o o' = true.
Proof.
  split; [vm_compute; split; congruence|].
  apply (snowflake_timestamp_and_string 175928847299117063).
  vm_compute; split; congruence.
Defined.
End BasesFacts.

(* ===================================================================== *)
(** * Facts about [Dataclass] and [Emoji] *)
(* ===================================================================== *)

Module EmojiFacts.
Import Py Bases Emoji.

(** An emoji built by [Emoji.__init__] has an [int] as [id]. *)
Lemma init_id_int kwargs e :
  __init__ kwargs = Ok e -> exists i, emoji_id e = VInt i.
Proof.
  unfold __init__.
  destruct (int (get kwargs "id" VNone)) as [i|x]; cbn; [|discriminate].
  intros [= <-]. exists i. reflexivity.
Qed.

(** C9. Two emojis compare equal exactly when their ids are equal,
    whatever their other attributes are, and an emoji never compares
    equal to a [str]. *)
Theorem emoji_eq_by_id (e1 e2 : Emoji) (i1 i2 : Z) :
  emoji_id e1 = VInt i1 -> emoji_id e2 = VInt i2 ->
  (__eq__ e1 (OEmoji e2) = Ok true <-> i1 = i2)
  /\ (__eq__ e1 (OEmoji e2) = Ok false <-> i1 <> i2)
  /\ forall s : string, __eq__ e1 (OStr s) = Ok false.
Proof.
  intros H1 H2. unfold __eq__, operand_id. cbn [Py.bind].
  rewrite H1, H2. cbn [Py.eqb].
  destruct (Z.eqb_spec i1 i2) as [E|E]; repeat split; intros; congruence.
Qed.

Lemma emoji_eq_by_id_witness :
  emoji_id Examples.blob = VInt 123 /\ emoji_id Examples.cat = VInt 123
  /\ name Examples.blob <> name Examples.cat
  /\ (__eq__ Examples.blob (OEmoji Examples.cat) = Ok true <-> 123 = 123)
  /\ (__eq__ Examples.blob (OEmoji Examples.cat) = Ok false <-> 123 <> 123)
  /\ forall s : string, __eq__ Examples.blob (OStr s) = Ok false.
Proof.
  split; [reflexivity|]. split; [reflexivity|]. split; [discriminate|].
  apply (emoji_eq_by_id Examples.blob Examples.cat 123 123); reflexivity.
Defined.

(** C5, as the code has it. [Emoji.__init__] called without a client
    succeeds with [_bot] set to [None]. *)
Lemma emoji_without_client :
  Examples.orphan_kwargs !! "client" = None
  /\ Emoji.__init__ Examples.orphan_kwargs
     = Ok {| dataclass := mkDataclass (mkIDObject (VInt 123)) VNone;
             name := VStr "blob"; role_ids := VList [];
             require_colons := VBool false; managed := VBool false;
             guild_id := VNone; animated := VBool false |}
  /\ ~ (exists msg, Emoji.__init__ Examples.orphan_kwargs
                    = Raise (ValueError msg)).
Proof.
  split; [reflexivity|]. split; [reflexivity|].
  intros [msg H]. vm_compute in H. discriminate H.
Qed.

(** C5, amended. Construction never looks at the client reference: when
    it is absent, [Dataclass.__init__] stores [None] as [_bot], and
    [Emoji.__init__] fails only when [int] fails on the id. *)
Theorem absent_client_is_stored (kwargs : gmap string Val) :
  kwargs !! "client" = None ->
  (forall id o, IDObject__init__ id = Ok o ->
                Dataclass__init__ id VNone = Ok (mkDataclass o VNone))
  /\ (forall i, int (get kwargs "id" VNone) = Ok i ->
        exists e, Emoji.__init__ kwargs = Ok e
                  /\ emoji_bot e = VNone /\ emoji_id e = VInt i)
  /\ (forall x, int (get kwargs "id" VNone) = Raise x ->
        Emoji.__init__ kwargs = Raise x).
Proof.
  intros Hc. split; [|split].
  - intros id o Ho. unfold Dataclass__init__. rewrite Ho. reflexivity.
  - intros i Hi. unfold Emoji.__init__. rewrite Hi. cbn.
    eexists. split; [reflexivity|]. split; [|reflexivity].
    unfold emoji_bot, get. cbn. rewrite Hc. reflexivity.
  - intros x Hx. unfold Emoji.__init__. rewrite Hx. reflexivity.
Qed.

Lemma absent_client_is_stored_witness :
  Examples.orphan_kwargs !! "client" = None
  /\ exists e, Emoji.__init__ Examples.orphan_kwargs = Ok e
               /\ emoji_bot e = VNone /\ emoji_id e = VInt 123.
Proof.
  split; [reflexivity|].
  apply (absent_client_is_stored Examples.orphan_kwargs); reflexivity.
Defined.

End EmojiFacts.

(* ===================================================================== *)
(** * Facts about the client: the ready gate and dispatch handling *)
(* ===================================================================== *)

Module EffFacts.
Import Py Effects Client.

Lemma bind_ok {A B} (m : Eff A) (k : A -> Eff B) t a t' :
  m t = (Ok a, t') -> Effects.bind m k t = k a t'.
Proof. intros H. unfold Effects.bind. rewrite H. reflexivity. Qed.

Lemma bind_raise {A B} (m : Eff A) (k : A -> Eff B) t e t' :
  m t = (Raise e, t') -> Effects.bind m k t = (Raise e, t').
Proof. intros H. unfold Effects.bind. rewrite H. reflexivity. Qed.

Lemma invoke_all_trace hs event_name args gw t :
  invoke_all hs event_name args gw t
  = (Ok tt, (t ++ List.map (fun h => Invoke h event_name args (shard_id gw)) hs)%list).
Proof.
  revert t. induction hs as [|h hs IH]; intros t; simpl.
  - unfold ret. rewrite app_nil_r. reflexivity.
  - unfold Effects.bind, emit. rewrite IH. rewrite <- app_assoc. reflexivity.
Qed.

Lemma EventManager_fire_event_trace em event_name args gw t :
  EventManager_fire_event em event_name args gw t
  = (Ok tt, (t ++ List.map (fun h => Invoke h event_name args (shard_id gw))
                       (handlers_for em event_name))%list).
Proof. apply invoke_all_trace. Qed.
End EffFacts.

Module GateFacts.
Import Py Effects Client EffFacts.

(** The ready gate of [Client.fire_event]: for a shard that is not ready,
    an event that is neither allow-listed nor prefixed with [gateway_]
    leaves the trace as it is. *)
Lemma fire_event_suppressed self event_name args gw t :
  is_ready (state self) (shard_id gw) = false ->
  str_in event_name IGNORE_READY = false ->
  startswith event_name "gateway_" = false ->
  fire_event self event_name args (Some gw) t = (Ok tt, t).
Proof.
  intros Hr Hi Hp. unfold fire_event. rewrite Hr, Hi, Hp. reflexivity.
Qed.

(** Allow-listed and [gateway_] events, and all events of a ready shard,
    reach every handler registered for them. *)
Lemma fire_event_passes self event_name args gw t :
  is_ready (state self) (shard_id gw) = true
  \/ str_in event_name IGNORE_READY = true
  \/ startswith event_name "gateway_" = true ->
  fire_event self event_name args (Some gw) t
  = (Ok tt, (t ++ List.map (fun h => Invoke h event_name args (shard_id gw))
                       (handlers_for (events self) event_name))%list).
Proof.
  intros H. unfold fire_event. rewrite <- EventManager_fire_event_trace.
  destruct (is_ready (state self) (shard_id gw)); [reflexivity|].
  destruct H as [H|[H|H]]; [discriminate| |]; rewrite H; cbn.
  - reflexivity.
  - rewrite andb_false_r. reflexivity.
Qed.

(** [handle_dispatches] does not consult the readiness of the shard. *)
Lemma fire_each_ignores_readiness self ready items gw :
  fire_each (with_ready self ready) items gw = fire_each self items gw.
Proof.
  induction items as [|i items IH]; simpl; [reflexivity|].
  rewrite IH. reflexivity.
Qed.

Lemma handle_dispatches_ignores_readiness self ready gw dispatch_name dispatch :
  handle_dispatches (with_ready self ready) gw dispatch_name dispatch
  = handle_dispatches self gw dispatch_name dispatch.
Proof.
  unfold handle_dispatches. cbn [with_ready state routines].
  destruct (routines (state self) !! ("handle_" ++ lower dispatch_name))
    as [handler|]; [|reflexivity].
  destruct (handler gw dispatch); try reflexivity.
  rewrite fire_each_ignores_readiness. reflexivity.
Qed.

(** C1, at the failing input. Shard 0 is not ready; [message_create] fired
    through [Client.fire_event] reaches no handler, but the same event
    derived by [handle_dispatches] from the [MESSAGE_CREATE] dispatch
    reaches both handlers registered for it. *)
Theorem derived_events_bypass_ready_gate :
  is_ready (state Examples.bot) (shard_id Examples.gw0) = false
  /\ run (fire_event Examples.bot "message_create" [VStr "hi"]
                     (Some Examples.gw0)) = (Ok tt, [])
  /\ invocations
       (snd (run (handle_dispatches Examples.bot Examples.gw0
                                    "MESSAGE_CREATE" VNone)))
     = [(1%nat, "message_create"); (2%nat, "message_create")].
Proof. repeat split; vm_compute; reflexivity. Qed.

(** The examples of the specification: [guild_create] is suppressed,
    [guild_available] and [gateway_dispatch_received] are not. *)
Example ready_gate_examples :
  invocations (snd (run (fire_event Examples.bot "guild_create" []
                                    (Some Examples.gw0)))) = []
  /\ invocations (snd (run (fire_event Examples.bot "guild_available" []
                                       (Some Examples.gw0))))
     = [(3%nat, "guild_available")]
  /\ invocations (snd (run (fire_event Examples.bot
                              "gateway_dispatch_received" []
                              (Some Examples.gw0))))
     = [(0%nat, "gateway_dispatch_received")].
Proof. repeat split; vm_compute; reflexivity. Qed.
End GateFacts.

Module DispatchFacts.
Import Py Effects Client EffFacts.

Lemma event_not_in_scope self dispatch_name dispatch :
  load_name (handle_dispatches_locals self dispatch_name dispatch) "event"
  = Raise (NameError "event").
Proof. reflexivity. Qed.

(** Whenever the translation routine raises an [Exception] other than
    [ChunkGuilds], the [except Exception] clause itself fails on the
    unbound name [event]: nothing is logged, the gateway is not closed,
    and the caller sees a [NameError]. *)
Lemma handle_dispatches_failure self gw dispatch_name dispatch handler e t :
  routines (state self) !! ("handle_" ++ lower dispatch_name) = Some handler ->
  handler gw dispatch = Raises e ->
  is_Exception e = true -> e <> ChunkGuilds ->
  handle_dispatches self gw dispatch_name dispatch t
  = (Raise (NameError "event"),
     (t ++ [Log "debug" "Processing event {name}" [VStr dispatch_name]])%list).
Proof.
  intros Hh Hr He Hc. unfold handle_dispatches. rewrite Hh.
  unfold Effects.bind at 1. unfold emit at 1.
  unfold try_except. rewrite Hr. unfold raise at 1.
  destruct e; try congruence; try discriminate He; reflexivity.
Qed.

(** C4, at the failing input. The routine for [PRESENCE_UPDATE] raises
    [KeyError]; [handle_dispatches] then raises [NameError] instead,
    having neither logged the failure nor closed the gateway. *)
Theorem dispatch_failure_raises_name_error :
  run (handle_dispatches Examples.bot Examples.gw0 "PRESENCE_UPDATE" VNone)
  = (Raise (NameError "event"),
     [Log "debug" "Processing event {name}" [VStr "PRESENCE_UPDATE"]])
  /\ closes (snd (run (handle_dispatches Examples.bot Examples.gw0
                                         "PRESENCE_UPDATE" VNone))) = [].
Proof. split; vm_compute; reflexivity. Qed.

(** The member-chunk-request signal is answered by [_get_chunks]. *)
Example chunk_request_is_served :
  run (handle_dispatches Examples.bot Examples.gw0 "GUILD_MEMBERS_CHUNK" VNone)
  = (Ok tt,
     [Log "debug" "Processing event {name}" [VStr "GUILD_MEMBERS_CHUNK"];
      GwGetChunks 0]).
Proof. vm_compute. reflexivity. Qed.
End DispatchFacts.

(* ===================================================================== *)
(** * Facts about the shard loop *)
(* ===================================================================== *)

Module ShardFacts.
Import Py Effects Client EffFacts.
Local Open Scope list_scope.

(** *** Observers distribute over appended traces *)

Lemma connect_attempts_app t l :
  connect_attempts (t ++ l) = (connect_attempts t + connect_attempts l)%nat.
Proof.
  induction t as [|a t IH]; [reflexivity|].
  destruct a; simpl; rewrite IH; reflexivity.
Qed.

Lemma reconnects_app t l :
  reconnects (t ++ l) = (reconnects t ++ reconnects l)%list.
Proof.
  induction t as [|a t IH]; [reflexivity|].
  destruct a; simpl; rewrite IH; reflexivity.
Qed.

Lemma resets_app t l : resets (t ++ l) = (resets t ++ resets l)%list.
Proof.
  induction t as [|a t IH]; [reflexivity|].
  destruct a; simpl; rewrite IH; reflexivity.
Qed.

Lemma connect_attempts_invokes (f : nat -> Action) hs :
  (forall h, exists n a s, f h = Invoke h n a s) ->
  connect_attempts (List.map f hs) = O
  /\ reconnects (List.map f hs) = [] /\ resets (List.map f hs) = [].
Proof.
  intros Hf. induction hs as [|h hs (IH1 & IH2 & IH3)]; [easy|].
  simpl. destruct (Hf h) as (n & a & s & ->). simpl. easy.
Qed.

(** Firing an event only adds handler invocations to the trace. *)
Lemma fire_event_appends self event_name args gw t :
  exists l, fire_event self event_name args (Some gw) t = (Ok tt, (t ++ l)%list)
            /\ connect_attempts l = O /\ reconnects l = [] /\ resets l = [].
Proof.
  unfold fire_event.
  assert (Hem : exists l,
    EventManager_fire_event (events self) event_name args gw t
    = (Ok tt, (t ++ l)%list)
    /\ connect_attempts l = O /\ reconnects l = [] /\ resets l = []).
  { rewrite EventManager_fire_event_trace. eexists. split; [reflexivity|].
    apply connect_attempts_invokes. intros h. eauto. }
  destruct (negb (is_ready (state self) (shard_id gw))); [|exact Hem].
  destruct (negb (str_in event_name IGNORE_READY)
            && negb (startswith event_name "gateway_")); [|exact Hem].
  exists []. rewrite app_nil_r. easy.
Qed.

Lemma fire_stream_appends self stream gw t :
  exists l, fire_stream self stream gw t = (Ok tt, (t ++ l)%list)
            /\ connect_attempts l = O /\ reconnects l = [] /\ resets l = [].
Proof.
  revert t. induction stream as [|ev stream IH]; intros t; cbn [fire_stream].
  - exists []. unfold ret. rewrite app_nil_r. easy.
  - destruct (fire_event_appends self (fst ev) (snd ev) gw t)
      as (l1 & E1 & A1 & B1 & C1).
    destruct (IH (t ++ l1)%list) as (l2 & E2 & A2 & B2 & C2).
    exists (l1 ++ l2)%list. unfold Effects.bind. rewrite E1, E2.
    rewrite app_assoc, connect_attempts_app, reconnects_app, resets_app.
    rewrite A1, A2, B1, B2, C1, C2. easy.
Qed.

(** *** The close handler against the decision table *)

Lemma decision_spec gw code reason :
  decision gw (WebsocketClosed code reason)
  = if String.eqb reason "Client closed connection" then StopLoop
    else if (z_in code [1000; 4007]
             || match session_id gw with None => true | Some _ => false end)%bool
    then FreshSession
    else if negb (z_in code [4004; 4011]) then Resume else Fatal.
Proof.
  unfold decision, z_in. simpl.
  destruct (String.eqb reason "Client closed connection"); [reflexivity|].
  rewrite !orb_false_r.
  destruct (Z.eqb code 1000), (Z.eqb code 4007), (session_id gw),
    (Z.eqb code 4004), (Z.eqb code 4011); reflexivity.
Qed.

(** What [consume] does after the stream [stream] ended with [e], from
    the trace [t1] reached when the stream ended. *)
Lemma consume_decision self shard gw stream e rc t :
  exists l, fire_stream self stream gw t = (Ok tt, (t ++ l)%list)
    /\ connect_attempts l = O /\ reconnects l = [] /\ resets l = []
    /\ match decision gw e with
       | StopLoop =>
           consume self shard gw stream (Some e) rc t = (Ok true, (t ++ l)%list)
       | FreshSession =>
           exists log,
             consume self shard gw stream (Some e) rc t
             = (match rc false with Ok _ => Ok false | Raise x => Raise x end,
                (t ++ l ++ [log; StateReset (shard_id gw);
                            GwReconnect (shard_id gw) false])%list)
             /\ connect_attempts [log] = O /\ reconnects [log] = []
             /\ resets [log] = []
       | Resume =>
           exists logs,
             consume self shard gw stream (Some e) rc t
             = (match rc true with Ok _ => Ok false | Raise x => Raise x end,
                (t ++ l ++ logs ++ [GwReconnect (shard_id gw) true])%list)
             /\ connect_attempts logs = O /\ reconnects logs = []
             /\ resets logs = []
       | Fatal | Unhandled =>
           consume self shard gw stream (Some e) rc t = (Raise e, (t ++ l)%list)
       end.
Proof.
  destruct (fire_stream_appends self stream gw t) as (l & E & A & B & C).
  exists l. repeat (split; [assumption|]).
  assert (Hbody : forall handler : Exn -> option (Eff bool),
    try_except
      (fire_stream self stream gw ;; raise e) handler t
    = match handler e with
      | Some h => h (t ++ l)
      | None => (Raise e, t ++ l)
      end).
  { intros handler. unfold try_except, Effects.bind. rewrite E. reflexivity. }
  unfold consume. cbv iota. rewrite Hbody. clear Hbody.
  destruct e; try reflexivity.
  - (* WebsocketClosed *)
    rewrite decision_spec.
    destruct (String.eqb reason "Client closed connection"); [reflexivity|].
    destruct (z_in code [1000; 4007]
              || match session_id gw with None => true | Some _ => false end)%bool.
    + eexists. unfold emit, gw_reconnect, Effects.bind, emit, lift, ret.
      rewrite <- !app_assoc. simpl.
      split; [destruct (rc false); reflexivity | easy].
    + destruct (negb (z_in code [4004; 4011])); [|reflexivity].
      eexists [_]. unfold emit, gw_reconnect, Effects.bind, emit, lift, ret.
      rewrite <- !app_assoc. simpl.
      split; [destruct (rc true); reflexivity | easy].
  - (* ReconnectWebsocket *)
    exists []. unfold emit, gw_reconnect, Effects.bind, emit, lift, ret.
    rewrite <- !app_assoc. simpl. split; [destruct (rc true); reflexivity | easy].
Qed.

(** *** One iteration of the shard loop *)



Lemma loop_connects self shard count k gw stream stop rc rest t :
  (k < 10)%nat ->
  handle_shard_loop self shard count k (Connects gw stream stop rc :: rest) t
  = match consume self shard gw stream stop rc
            (t ++ [GwFromToken shard count; SetGateway shard gw]) with
    | (Ok true, t1) => (Ok Returned, t1)
    | (Ok false, t1) => handle_shard_loop self shard count 0 rest t1
    | (Raise e, t1) =>
        if transport_error e
        then handle_shard_loop self shard count 1 rest t1
        else (Raise e, t1)
    end.
Proof.
  intros Hk. cbn [handle_shard_loop].
  destruct (Nat.eqb_spec k 10) as [|_]; [lia|].
  unfold Effects.bind at 1 2. unfold emit at 1 2. rewrite <- app_assoc.
  cbn [app]. unfold try_except, Effects.bind.
  destruct (consume self shard gw stream stop rc
              (t ++ [GwFromToken shard count; SetGateway shard gw]))
    as [[[|]|e] t1]; try reflexivity.
  destruct e; reflexivity.
Qed.



(** What the loop does when the stream of a connected gateway ends with
    the exception [e], by the decision taken for [e]. *)
Lemma loop_after_stream self shard count k gw stream e rc rest t :
  (k < 10)%nat ->
  exists t0,
    connect_attempts t0 = S (connect_attempts t)
    /\ reconnects t0 = reconnects t /\ resets t0 = resets t
    /\ match decision gw e with
       | StopLoop =>
           handle_shard_loop self shard count k
             (Connects gw stream (Some e) rc :: rest) t = (Ok Returned, t0)
       | FreshSession =>
           exists t1,
             connect_attempts t1 = connect_attempts t0
             /\ reconnects t1 = reconnects t0 ++ [false]
             /\ resets t1 = resets t0 ++ [shard_id gw]
             /\ handle_shard_loop self shard count k
                  (Connects gw stream (Some e) rc :: rest) t
                = match rc false with
                  | Ok _ => handle_shard_loop self shard count 0 rest t1
                  | Raise x =>
                      if transport_error x
                      then handle_shard_loop self shard count 1 rest t1
                      else (Raise x, t1)
                  end
       | Resume =>
           exists t1,
             connect_attempts t1 = connect_attempts t0
             /\ reconnects t1 = reconnects t0 ++ [true]
             /\ resets t1 = resets t0
             /\ handle_shard_loop self shard count k
                  (Connects gw stream (Some e) rc :: rest) t
                = match rc true with
                  | Ok _ => handle_shard_loop self shard count 0 rest t1
                  | Raise x =>
                      if transport_error x
                      then handle_shard_loop self shard count 1 rest t1
                      else (Raise x, t1)
                  end
       | Fatal | Unhandled =>
           handle_shard_loop self shard count k
             (Connects gw stream (Some e) rc :: rest) t
           = if transport_error e
             then handle_shard_loop self shard count 1 rest t0
             else (Raise e, t0)
       end.
Proof.
  intros Hk.
  destruct (consume_decision self shard gw stream e rc
              (t ++ [GwFromToken shard count; SetGateway shard gw]))
    as (l & _ & A & B & C & H).
  exists ((t ++ [GwFromToken shard count; SetGateway shard gw]) ++ l).
  rewrite !connect_attempts_app, !reconnects_app, !resets_app, A, B, C.
  cbn [connect_attempts reconnects resets]. rewrite !app_nil_r.
  split; [lia|]. split; [reflexivity|]. split; [reflexivity|].
  pose proof (loop_connects self shard count k gw stream (Some e) rc rest t Hk)
    as Hloop.
  destruct (decision gw e).
  - rewrite Hloop, H. reflexivity.
  - destruct H as (log & H & A' & B' & C').
    eexists. rewrite Hloop, H.
    split; [|split; [|split; [|destruct (rc false); reflexivity]]].
    + destruct log; try discriminate A'; try discriminate B';
        try discriminate C'; rewrite !connect_attempts_app, A; simpl; lia.
    + destruct log; try discriminate A'; try discriminate B';
        try discriminate C'; rewrite !reconnects_app, B; simpl;
        rewrite ?app_nil_r; reflexivity.
    + destruct log; try discriminate A'; try discriminate B';
        try discriminate C'; rewrite !resets_app, C; simpl;
        rewrite ?app_nil_r; reflexivity.
  - destruct H as (logs & H & A' & B' & C').
    eexists. rewrite Hloop, H.
    split; [|split; [|split; [|destruct (rc true); reflexivity]]].
    + rewrite !connect_attempts_app, A, A'. simpl. lia.
    + rewrite !reconnects_app, B, B'. simpl. rewrite ?app_nil_r. reflexivity.
    + rewrite !resets_app, C, C'. simpl. rewrite ?app_nil_r. reflexivity.
  - rewrite Hloop, H. reflexivity.
  - rewrite Hloop, H. reflexivity.
Qed.



(** One failed resume followed by nine failed connection attempts is ten
    failures in a row: the loop gives up, having called
    [Gateway.from_token] ten times in all. *)
Example failed_resume_then_nine_failures :
  let '(r, t) :=
    run (handle_shard Examples.bot 0 1
           (Examples.failed_resume
            :: List.map ConnectFails (repeat (HTTPException 502) 9)
            ++ [Connects Examples.gw0 [] None (fun _ => Ok tt)])) in
  r = Raise (gave_up 0) /\ connect_attempts t = 10%nat
  /\ reconnects t = [true].
Proof. vm_compute. repeat split. Qed.

(** A close with code 4004 or 4011 is re-raised by the close handler, but
    the enclosing [except (WebsocketClosed, WebsocketUnusable)] clause
    catches it: the loop counts one failure and connects again. *)
Lemma fatal_close_is_retried self shard count k gw stream code reason rc rest t :
  (k < 10)%nat ->
  decision gw (WebsocketClosed code reason) = Fatal ->
  exists t0,
    handle_shard_loop self shard count k
      (Connects gw stream (Some (WebsocketClosed code reason)) rc :: rest) t
    = handle_shard_loop self shard count 1 rest t0
    /\ reconnects t0 = reconnects t
    /\ connect_attempts t0 = S (connect_attempts t).
Proof.
  intros Hk Hd.
  destruct (loop_after_stream self shard count k gw stream
              (WebsocketClosed code reason) rc rest t Hk)
    as (t0 & A & B & C & H).
  rewrite Hd in H. exists t0. cbn [transport_error] in H. easy.
Qed.

(** C2, at the failing input. Shard 0 holds a session and is closed with
    code 4004: the shard loop does not end with that error, it calls
    [Gateway.from_token] a second time. *)
Theorem auth_failure_is_not_fatal :
  decision Examples.gw0 (WebsocketClosed 4004 "Authentication failed") = Fatal
  /\ run (handle_shard Examples.bot 0 1 Examples.auth_failure_script)
     = (Ok Returned,
        [GwFromToken 0 1; SetGateway 0 Examples.gw0;
         GwFromToken 0 1; SetGateway 0 Examples.gw0]).
Proof. split; vm_compute; reflexivity. Qed.

(** X9. The rows of the decision table that the code follows: the client's
    own close ends the loop; codes 1000 and 4007, or a missing session,
    reset the shard and reconnect without resuming; a reconnect request
    and every other code outside 4004 and 4011 resume. *)
Lemma close_decision_rows self shard count k gw stream e rc rest t :
  (k < 10)%nat -> rc true = Ok tt -> rc false = Ok tt ->
  match decision gw e with
  | StopLoop =>
      exists t1,
        handle_shard_loop self shard count k
          (Connects gw stream (Some e) rc :: rest) t = (Ok Returned, t1)
        /\ reconnects t1 = reconnects t
  | FreshSession =>
      exists t1,
        handle_shard_loop self shard count k
          (Connects gw stream (Some e) rc :: rest) t
        = handle_shard_loop self shard count 0 rest t1
        /\ reconnects t1 = reconnects t ++ [false]
        /\ resets t1 = resets t ++ [shard_id gw]
  | Resume =>
      exists t1,
        handle_shard_loop self shard count k
          (Connects gw stream (Some e) rc :: rest) t
        = handle_shard_loop self shard count 0 rest t1
        /\ reconnects t1 = reconnects t ++ [true]
        /\ resets t1 = resets t
  | Fatal | Unhandled => True
  end.
Proof.
  intros Hk Ht Hf.
  destruct (loop_after_stream self shard count k gw stream e rc rest t Hk)
    as (t0 & A & B & C & H).
  destruct (decision gw e); [| | | exact I | exact I].
  - exists t0. easy.
  - destruct H as (t1 & A1 & B1 & C1 & H). exists t1.
    rewrite H, Hf, B1, C1, B, C. easy.
  - destruct H as (t1 & A1 & B1 & C1 & H). exists t1.
    rewrite H, Ht, B1, C1, B, C. easy.
Qed.
End ShardFacts.

(* ===================================================================== *)
(** * Facts about [edit_profile] *)
(* ===================================================================== *)

Module ProfileFacts.
Import Py Effects Client EffFacts.
Local Open Scope list_scope.

(** The checks of the source accept exactly the usernames that satisfy
    the rules of the specification. *)
Lemma check_username_spec u t :
  if username_ok u
  then check_username u t = (Ok tt, t)
  else exists msg, check_username u t = (Raise (ValueError msg), t).
Proof.
  unfold username_ok, check_username, banned_substrings, banned_usernames,
    text_in. cbn [existsb].
  set (n := List.length u).
  assert (Hlen : (Nat.leb 2 n && Nat.leb n 32)%bool
                 = (Z.leb 2 (Z.of_nat n) && Z.leb (Z.of_nat n) 32)%bool).
  { destruct (Nat.leb_spec 2 n), (Nat.leb_spec n 32),
      (Z.leb_spec 2 (Z.of_nat n)), (Z.leb_spec (Z.of_nat n) 32);
      try reflexivity; lia. }
  rewrite <- !andb_assoc. rewrite Hlen.
  destruct (text_contains (text "@") u); cbn [negb andb orb]; [eauto|].
  destruct (text_contains (text ":") u); cbn [negb andb orb]; [eauto|].
  destruct (text_contains (text "```") u); cbn [negb andb orb]; [eauto|].
  destruct (text_eqb u (text "discordtag")); cbn [negb andb orb]; [eauto|].
  destruct (text_eqb u (text "everyone")); cbn [negb andb orb]; [eauto|].
  destruct (text_eqb u (text "here")); cbn [negb andb orb]; [eauto|].
  destruct (Z.leb 2 (Z.of_nat n) && Z.leb (Z.of_nat n) 32)%bool;
    cbn [negb]; [reflexivity|eauto].
Qed.

(** A text of ASCII characters has one code point for each character, and
    its encoding is the text itself. *)
Lemma text_ascii s :
  all_chars (fun c => Nat.ltb (nat_of_ascii c) 128) s = true ->
  List.length (text s) = String.length s /\ utf8 (text s) = s.
Proof.
  unfold utf8, text. induction s as [|c s IH]; cbn [all_chars]; intros H.
  - split; reflexivity.
  - apply andb_prop in H as [Hc Hs]. destruct (IH Hs) as [IH1 IH2].
    cbn [list_ascii_of_string List.map List.length String.length concat].
    split; [rewrite IH1; reflexivity|].
    assert (Hu : utf8_char (N_of_ascii c) = [c]).
    { unfold utf8_char.
      assert (Hlt : (N_of_ascii c <? 128)%N = true).
      { apply N.ltb_lt. apply Nat.ltb_lt in Hc.
        unfold nat_of_ascii in Hc. lia. }
      rewrite Hlt, ascii_N_embedding. reflexivity. }
    rewrite Hu. cbn [app string_of_list_ascii]. rewrite IH2. reflexivity.
Qed.

(** C7, amended. [edit_profile] raises [ValueError] and sends nothing
    when the account is a user account and no password is given, or when
    the username is not empty and breaks one of the rules, its length
    being counted in code points; otherwise, once the avatar is encoded,
    it sends exactly one edit-user request.  An empty username is not
    checked. *)
Theorem edit_profile_validation (self : Client)
        (username : option Text) (avatar : option (list Byte.byte))
        (password : option string) (t : Trace) :
  (rejects self username password = true ->
     exists msg,
       edit_profile self username avatar password t
       = (Raise (ValueError msg), t))
  /\ (rejects self username password = false ->
      forall avatar', encoded_avatar self avatar = Ok avatar' ->
        edit_profile self username avatar password t
        = (edit_user (http self) (of_option_text username) avatar'
                     (of_option_str password),
           t ++ [HttpEditUser (of_option_text username) avatar'
                              (of_option_str password)])).
Proof.
  unfold rejects, edit_profile.
  destruct (negb (user_bot self)
            && match password with None => true | Some _ => false end)%bool.
  { split; [|discriminate]. intros _. eexists. reflexivity. }
  cbn [orb]. unfold Effects.bind at 1. cbn [ret].
  destruct username as [[|c u]|].
  - (* the empty text *)
    split; [discriminate|]. intros _ avatar' Hav.
    unfold Effects.bind, ret, lift, emit. rewrite Hav. reflexivity.
  - cbn [text_eqb negb andb].
    pose proof (check_username_spec (c :: u) t) as Hc.
    destruct (username_ok (c :: u)).
    + split; [discriminate|]. intros _ avatar' Hav.
      unfold Effects.bind, ret, lift, emit. rewrite Hc, Hav. reflexivity.
    + split; [|discriminate]. intros _. destruct Hc as [msg Hc].
      exists msg. unfold Effects.bind. rewrite Hc. reflexivity.
  - split; [discriminate|]. intros _ avatar' Hav.
    unfold Effects.bind, ret, lift, emit. rewrite Hav. reflexivity.
Qed.

Lemma edit_profile_validation_witness :
  (rejects Examples.userbot (Some (text "curious")) None = true
   /\ exists msg,
        edit_profile Examples.userbot (Some (text "curious")) None None []
        = (Raise (ValueError msg), []))
  /\ (rejects Examples.bot (Some (text "foo@bar")) None = true
      /\ exists msg,
           edit_profile Examples.bot (Some (text "foo@bar")) None None []
           = (Raise (ValueError msg), []))
  /\ (rejects Examples.bot (Some e_acute) None = true
      /\ exists msg,
           edit_profile Examples.bot (Some e_acute) None None []
           = (Raise (ValueError msg), []))
  /\ (rejects Examples.bot (Some (text "ab")) None = false
      /\ edit_profile Examples.bot (Some (text "ab")) None None []
         = (Ok tt, [HttpEditUser (VStr "ab") VNone VNone]))
  /\ (rejects Examples.bot (Some seventeen_e_acute) None = false
      /\ String.length (utf8 seventeen_e_acute) = 34%nat
      /\ edit_profile Examples.bot (Some seventeen_e_acute) None None []
         = (Ok tt, [HttpEditUser (VStr (utf8 seventeen_e_acute)) VNone VNone])).
Proof.
  split; [|split; [|split; [|split]]].
  - split; [reflexivity|].
    apply (proj1 (edit_profile_validation Examples.userbot
                    (Some (text "curious")) None None [])).
    reflexivity.
  - split; [reflexivity|].
    apply (proj1 (edit_profile_validation Examples.bot
                    (Some (text "foo@bar")) None None [])).
    reflexivity.
  - split; [reflexivity|].
    apply (proj1 (edit_profile_validation Examples.bot (Some e_acute)
                    None None [])).
    reflexivity.
  - split; [reflexivity|].
    apply (proj2 (edit_profile_validation Examples.bot (Some (text "ab"))
                    None None []));
      reflexivity.
  - split; [reflexivity|]. split; [reflexivity|].
    apply (proj2 (edit_profile_validation Examples.bot
                    (Some seventeen_e_acute) None None []));
      reflexivity.
Defined.

(** C7, as the code has it. The empty username has a length outside
    2..32, and a bot account that supplies it is not refused: the request
    is sent with the empty username. *)
Lemma empty_username_is_sent :
  List.length (text "") = 0%nat /\ username_ok (text "") = false
  /\ run (edit_profile Examples.bot (Some (text "")) None None)
     = (Ok tt, [HttpEditUser (VStr "") VNone VNone]).
Proof. repeat split. Qed.

(** The usernames listed in the specification, and three outside ASCII:
    one character of two bytes is too short, seventeen such characters
    are within the range though their bytes are not, and thirty-three
    characters are too long. *)
Example username_examples :
  username_ok (text "ab") = true
  /\ username_ok (text "abcdefghijklmnopqrstuvwxyz012345") = true
  /\ username_ok (text "a") = false
  /\ username_ok (text "abcdefghijklmnopqrstuvwxyz0123456") = false
  /\ username_ok (text "foo@bar") = false
  /\ username_ok (text "foo:bar") = false
  /\ username_ok (text "foo```bar") = false
  /\ username_ok (text "everyone") = false
  /\ username_ok (text "here") = false
  /\ username_ok (text "discordtag") = false
  /\ username_ok (text "Everyone") = true
  /\ username_ok (text "curious123") = true
  /\ username_ok e_acute = false
  /\ username_ok seventeen_e_acute = true
  /\ username_ok snowmen = false
  /\ utf8 e_acute = String (ascii_of_nat 195) (String (ascii_of_nat 169) "").
Proof. repeat split. Qed.
End ProfileFacts.

(* ===================================================================== *)
(** * Facts about [download_guild_members] *)
(* ===================================================================== *)

Module MembersFacts.
Import Py Effects Client EffFacts.
Local Open Scope list_scope.

Lemma member_requests_app t l :
  member_requests (t ++ l) = member_requests t ++ member_requests l.
Proof.
  induction t as [|a t IH]; [reflexivity|].
  destruct a; simpl; rewrite IH; reflexivity.
Qed.

Lemma last_map {A B} (f : A -> B) (l : list A) (a : A) (d : B) :
  List.last (List.map f (l ++ [a])) d = f a.
Proof. rewrite List.map_app. simpl. apply List.last_last. Qed.

(** The cursor after a non-empty page is the id of its last member. *)
Lemma last_user_id_app acc page :
  page <> [] -> last_user_id (acc ++ page) = Ok (page_cursor page).
Proof.
  intros Hne. destruct (@exists_last _ page Hne) as (p & a & ->).
  unfold last_user_id, page_cursor.
  rewrite app_assoc, !last_map. reflexivity.
Qed.

Lemma full_page_spec limit page :
  full_page limit page = true ->
  page <> [] /\ Z.ltb (Z.of_nat (List.length page)) limit = false.
Proof.
  destruct page as [|d page]; [discriminate|].
  unfold full_page. intros H. apply negb_true_iff in H. easy.
Qed.

(** One request to a paged source. *)
Lemma paged_request self pages guild_id limit cursor t :
  http self = paged_source pages ->
  http_get_guild_members self guild_id limit cursor t
  = (Ok (nth (List.length (member_requests t)) pages []),
     t ++ [HttpGetGuildMembers guild_id limit cursor]).
Proof.
  intros Hs. unfold http_get_guild_members, Effects.bind, history, emit, lift.
  rewrite Hs. reflexivity.
Qed.

(** The exhaustive loop against a paged source whose next pages are the
    full pages [fulls] followed by a page [short] that is empty or
    shorter than [limit]. *)
Lemma download_all_paged self pages guild_id limit fulls short :
  http self = paged_source pages ->
  forallb (full_page limit) fulls = true ->
  full_page limit short = false ->
  forall fuel acc cursor t,
    (List.length fulls < fuel)%nat ->
    (forall i, (i <= List.length fulls)%nat ->
       nth (List.length (member_requests t) + i) pages []
       = nth i (fulls ++ [short]) []) ->
    download_all fuel self guild_id limit acc cursor t
    = (Ok (Some (acc ++ concat fulls ++ short)),
       t ++ paging_requests guild_id limit cursor fulls).
Proof.
  intros Hs Hfull Hshort. induction fulls as [|page fulls IH];
    intros fuel acc cursor t Hfuel Hpages.
  - destruct fuel as [|fuel]; [simpl in Hfuel; lia|].
    cbn [download_all]. unfold Effects.bind at 1.
    rewrite (paged_request self pages) by assumption.
    specialize (Hpages O ltac:(lia)). rewrite Nat.add_0_r in Hpages.
    rewrite Hpages. cbn [nth app concat paging_requests].
    destruct short as [|d short]; [rewrite app_nil_r; reflexivity|].
    unfold full_page in Hshort. apply negb_false_iff in Hshort.
    rewrite Hshort. reflexivity.
  - destruct fuel as [|fuel]; [simpl in Hfuel; lia|].
    cbn [forallb] in Hfull. apply andb_prop in Hfull as [Hpage Hfulls].
    destruct (full_page_spec limit page Hpage) as [Hne Hlen].
    cbn [download_all]. unfold Effects.bind at 1.
    rewrite (paged_request self pages) by assumption.
    pose proof (Hpages O ltac:(lia)) as H0. rewrite Nat.add_0_r in H0.
    rewrite H0. cbn [nth app].
    destruct page as [|d page]; [congruence|].
    rewrite Hlen. unfold Effects.bind at 1. unfold lift at 1.
    rewrite last_user_id_app by discriminate.
    rewrite (IH Hfulls fuel).
    + cbn [concat paging_requests]. rewrite <- !app_assoc. reflexivity.
    + simpl in Hfuel. lia.
    + intros i Hi. rewrite member_requests_app, length_app. simpl.
      specialize (Hpages (S i) ltac:(simpl; lia)).
      replace (List.length (member_requests t) + 1 + i)%nat
        with (List.length (member_requests t) + S i)%nat by lia.
      rewrite Hpages. reflexivity.
Qed.

Lemma member_requests_paging guild_id limit cursor fulls :
  member_requests (paging_requests guild_id limit cursor fulls)
  = (limit, cursor) :: List.map (fun p => (limit, page_cursor p)) fulls.
Proof.
  revert cursor. induction fulls as [|p fulls IH]; intros cursor;
    [reflexivity|].
  cbn [paging_requests member_requests List.map]. rewrite IH. reflexivity.
Qed.

(** C6. Against a source that answers with the pages [fulls], all of
    them not shorter than [limit], and then with a page that is empty or
    shorter than [limit] (the head of [tail], or an empty page when the
    source has no page left), the exhaustive download asks for exactly
    one page more than there are full pages, the first at cursor 0 and
    each next one at the id of the last member received, and returns the
    members of all the pages received. *)
Theorem exhaustive_download_paging (self : Client)
        (pages fulls tail : list (list MemberDatum))
        (guild_id limit : Z) (after : Val) (fuel : nat) :
  http self = paged_source pages ->
  pages = fulls ++ tail ->
  forallb (full_page limit) fulls = true ->
  full_page limit (hd [] tail) = false ->
  (List.length fulls < fuel)%nat ->
  exists t,
    run (download_guild_members fuel self guild_id after limit true)
    = (Ok (Some (List.map (fun d => mkMember (ident self) d guild_id)
                          (concat fulls ++ hd [] tail))), t)
    /\ member_requests t
       = (limit, VInt 0) :: List.map (fun p => (limit, page_cursor p)) fulls
    /\ List.length (member_requests t) = S (List.length fulls).
Proof.
  intros Hs Hp Hfull Hshort Hfuel.
  exists (paging_requests guild_id limit (VInt 0) fulls).
  rewrite member_requests_paging. cbn [List.length]. rewrite length_map.
  split; [|easy].
  unfold run, download_guild_members, Effects.bind.
  assert (Hpages : forall i, (i <= List.length fulls)%nat ->
            nth (List.length (member_requests []) + i) pages []
            = nth i (fulls ++ [hd [] tail]) []).
  { intros i Hi. subst pages. cbn [member_requests List.length Nat.add].
    destruct (Nat.eq_dec i (List.length fulls)) as [->|Hne].
    - rewrite !app_nth2, Nat.sub_diag by lia. destruct tail; reflexivity.
    - rewrite !app_nth1 by lia. reflexivity. }
  rewrite (download_all_paged self pages guild_id limit fulls (hd [] tail)
             Hs Hfull Hshort fuel [] (VInt 0) [] Hfuel Hpages).
  reflexivity.
Qed.

Lemma exhaustive_download_paging_witness :
  (exists t,
      run (download_guild_members 3 (Examples.paging_bot Examples.pages_2400)
             42 VNone 1000 true)
      = (Ok (Some (List.map (fun d => mkMember 0 d 42)
                     (concat Examples.pages_2400))), t)
      /\ List.length (member_requests t) = 3%nat
      /\ List.length (concat Examples.pages_2400) = 2400%nat)
  /\ (exists t,
        run (download_guild_members 3 (Examples.paging_bot Examples.pages_2000)
               42 VNone 1000 true)
        = (Ok (Some (List.map (fun d => mkMember 0 d 42)
                       (concat Examples.pages_2000))), t)
        /\ List.length (member_requests t) = 3%nat
        /\ List.length (concat Examples.pages_2000) = 2000%nat).
Proof.
  split.
  - destruct (exhaustive_download_paging
                (Examples.paging_bot Examples.pages_2400) Examples.pages_2400
                [page_of 0 1000; page_of 1000 1000] [page_of 2000 400]
                42 1000 VNone 3)
      as (t & Hrun & _ & Hcount);
      [reflexivity | reflexivity | vm_compute; reflexivity
      | vm_compute; reflexivity | cbn; lia |].
    exists t. split; [exact Hrun|]. split; [exact Hcount|].
    vm_compute. reflexivity.
  - destruct (exhaustive_download_paging
                (Examples.paging_bot Examples.pages_2000) Examples.pages_2000
                [page_of 0 1000; page_of 1000 1000] []
                42 1000 VNone 3)
      as (t & Hrun & _ & Hcount);
      [reflexivity | reflexivity | vm_compute; reflexivity
      | vm_compute; reflexivity | cbn; lia |].
    exists t. split; [|split; [exact Hcount|vm_compute; reflexivity]].
    rewrite Hrun. cbn [hd]. rewrite app_nil_r. reflexivity.
Defined.

(** The exhaustive loop only appends to the trace. *)
Lemma download_all_extends self guild_id limit fuel : forall acc cursor t,
  exists r l, download_all fuel self guild_id limit acc cursor t = (r, t ++ l).
Proof.
  induction fuel as [|fuel IH]; intros acc cursor t.
  - exists (Ok None), []. rewrite app_nil_r. reflexivity.
  - cbn [download_all]. unfold Effects.bind at 1.
    unfold http_get_guild_members, Effects.bind, history, emit, lift.
    destruct (get_guild_members (http self) t guild_id limit cursor)
      as [[|d next]|e].
    + eexists _, _. reflexivity.
    + destruct (Z.ltb _ limit); [eexists _, _; reflexivity|].
      destruct (last_user_id _) as [c|e].
      * destruct (IH (acc ++ d :: next) c
                     (t ++ [HttpGetGuildMembers guild_id limit cursor]))
          as (r & l & E).
        rewrite E. rewrite <- app_assoc. eexists _, _. reflexivity.
      * eexists _, _. reflexivity.
    + eexists _, _. reflexivity.
Qed.

(** C10. In exhaustive mode the [after] argument plays no part: the
    download is the same whatever it is, and its first request is made
    at cursor 0. *)
Theorem exhaustive_download_ignores_after (self : Client) (guild_id limit : Z)
        (after after' : Val) (n : nat) (t : Trace) :
  download_guild_members (S n) self guild_id after limit true t
  = download_guild_members (S n) self guild_id after' limit true t
  /\ exists r l,
       download_guild_members (S n) self guild_id after limit true t
       = (r, t ++ HttpGetGuildMembers guild_id limit (VInt 0) :: l).
Proof.
  split; [reflexivity|].
  unfold download_guild_members. cbn [download_all].
  unfold Effects.bind at 1 2.
  unfold http_get_guild_members, Effects.bind, history, emit, lift.
  destruct (get_guild_members (http self) t guild_id limit (VInt 0))
    as [[|d next]|e].
  - eexists _, _. reflexivity.
  - destruct (Z.ltb _ limit); [eexists _, _; reflexivity|].
    destruct (last_user_id _) as [c|e].
    + destruct (download_all_extends self guild_id limit n ([] ++ d :: next) c
                  (t ++ [HttpGetGuildMembers guild_id limit (VInt 0)]))
        as (r & l & E).
      rewrite E. rewrite <- app_assoc. destruct r; eexists _, _; reflexivity.
    + eexists _, _. reflexivity.
  - eexists _, _. reflexivity.
Qed.

(** The single-page mode, by contrast, passes [after] on. *)
Example single_page_uses_after :
  member_requests
    (snd (run (download_guild_members 1 Examples.bot 42 (VInt 77) 1000 false)))
  = [(1000, VInt 77)]
  /\ member_requests
       (snd (run (download_guild_members 1 Examples.bot 42 (VInt 77) 1000 true)))
     = [(1000, VInt 0)].
Proof. split; reflexivity. Qed.
End MembersFacts.

(* ===================================================================== *)
(** * Facts about strings *)
(* ===================================================================== *)

Module StringFacts.

Lemma append_nil s : "" +:+ s = s.
Proof. reflexivity. Qed.

Lemma append_cons c a s : String c a +:+ s = String c (a +:+ s).
Proof. reflexivity. Qed.

Lemma length_append a b :
  String.length (a +:+ b) = (String.length a + String.length b)%nat.
Proof.
  induction a as [|c a IH]; [reflexivity|].
  rewrite append_cons. cbn [String.length]. rewrite IH. reflexivity.
Qed.

Lemma append_inj_r a : forall b e1 e2,
  String.length e1 = String.length e2 ->
  a +:+ e1 = b +:+ e2 -> a = b /\ e1 = e2.
Proof.
  induction a as [|c a IH]; intros [|c' b] e1 e2 Hlen E;
    rewrite ?append_nil, ?append_cons in E.
  - split; [reflexivity | exact E].
  - exfalso. subst e1. cbn [String.length] in Hlen.
    rewrite length_append in Hlen. lia.
  - exfalso. subst e2. cbn [String.length] in Hlen.
    rewrite length_append in Hlen. lia.
  - injection E as -> E. destruct (IH b e1 e2 Hlen E) as [-> ->].
    split; reflexivity.
Qed.

Lemma append_inj_l p a b : p +:+ a = p +:+ b -> a = b.
Proof.
  induction p as [|c p IH]; cbn; [easy|]. intros [= E]. exact (IH E).
Qed.

Lemma substring_append_l a : forall b,
  String.substring 0 (String.length a) (a +:+ b) = a.
Proof.
  induction a as [|c a IH]; intros b.
  - destruct b; reflexivity.
  - change (String c a +:+ b) with (String c (a +:+ b)).
    cbn [String.length String.substring]. rewrite IH. reflexivity.
Qed.

Lemma substring_all b : String.substring 0 (String.length b) b = b.
Proof.
  induction b as [|c b IH]; [reflexivity|].
  cbn [String.length String.substring]. rewrite IH. reflexivity.
Qed.

Lemma substring_append_r a : forall b,
  String.substring (String.length a) (String.length b) (a +:+ b) = b.
Proof.
  induction a as [|c a IH]; intros b.
  - apply substring_all.
  - change (String c a +:+ b) with (String c (a +:+ b)).
    cbn [String.length String.substring]. apply IH.
Qed.

End StringFacts.

(* ===================================================================== *)
(** * More facts about the ready gate and dispatch handling *)
(* ===================================================================== *)

Module DeliveryFacts.
Import Py Effects Client EffFacts Delivery.
Local Open Scope list_scope.

Lemma fire_event_trace self event_name args gw t :
  fire_event self event_name args (Some gw) t
  = (Ok tt, t ++ gated_deliveries self gw (event_name, args)).
Proof.
  unfold fire_event, gated_deliveries, gate_open, deliveries. cbn [fst snd].
  destruct (is_ready (state self) (shard_id gw)); cbn [negb orb];
    [apply EventManager_fire_event_trace|].
  destruct (str_in event_name IGNORE_READY); cbn [negb andb orb];
    [apply EventManager_fire_event_trace|].
  destruct (startswith event_name "gateway_"); cbn [negb];
    [apply EventManager_fire_event_trace|].
  unfold ret. rewrite app_nil_r. reflexivity.
Qed.

Lemma fire_stream_trace self gw stream t :
  fire_stream self stream gw t
  = (Ok tt, t ++ concat (List.map (gated_deliveries self gw) stream)).
Proof.
  revert t. induction stream as [|ev stream IH]; intros t; cbn [fire_stream].
  - unfold ret. cbn. rewrite app_nil_r. reflexivity.
  - unfold Effects.bind. rewrite fire_event_trace, IH.
    cbn [List.map concat]. rewrite <- app_assoc. destruct ev. reflexivity.
Qed.

(** X1. [Client.fire_event] delivers an event to the handlers registered
    for it exactly when the shard is ready, the event is allow-listed or
    its name starts with [gateway_]; otherwise it does nothing.  Without a
    [gateway] keyword it raises [AttributeError] whatever the event is. *)
Theorem fire_event_gate (self : Client) (event_name : string)
        (args : list Val) (gw : Gateway) (t : Trace) :
  fire_event self event_name args (Some gw) t
  = (Ok tt,
     t ++ if (is_ready (state self) (shard_id gw)
              || str_in event_name IGNORE_READY
              || startswith event_name "gateway_")%bool
          then List.map (fun h => Invoke h event_name args (shard_id gw))
                        (handlers_for (events self) event_name)
          else [])
  /\ fire_event self event_name args None t
     = (Raise (AttributeError "shard_id"), t).
Proof. split; [apply fire_event_trace | reflexivity]. Qed.
End DeliveryFacts.

Module DispatchMoreFacts.
Import Py Effects Client EffFacts Delivery.
Local Open Scope list_scope.

Lemma fire_each_trace self items gw t :
  fire_each self items gw t
  = (Ok tt, t ++ concat (List.map (deliveries (events self) gw) items)).
Proof.
  revert t. induction items as [|i items IH]; intros t; cbn [fire_each].
  - unfold ret. cbn. rewrite app_nil_r. reflexivity.
  - unfold Effects.bind. rewrite EventManager_fire_event_trace, IH.
    cbn [List.map concat]. rewrite <- app_assoc. reflexivity.
Qed.

Lemma fire_result_trace self r gw t :
  fire_result self r gw t
  = (Ok tt, t ++ deliveries (events self) gw (result_event r)).
Proof. destruct r; apply EventManager_fire_event_trace. Qed.

(** The whole of [handle_dispatches] for a dispatch that has a routine:
    the events of the outcome are delivered in order, then the failure, if
    any, is handled. *)
Lemma handle_dispatches_trace self gw dispatch_name dispatch handler t :
  routines (state self) !! ("handle_" +:+ lower dispatch_name) = Some handler ->
  handle_dispatches self gw dispatch_name dispatch t
  = let o := handler gw dispatch in
    let t1 := (t ++ [Log "debug" "Processing event {name}" [VStr dispatch_name]])
                ++ concat (List.map (deliveries (events self) gw)
                                    (outcome_events o)) in
    match outcome_failure o with
    | None => (Ok tt, t1)
    | Some e => after_failure gw e t1
    end.
Proof.
  intros Hh. unfold handle_dispatches. rewrite Hh.
  unfold Effects.bind at 1. unfold emit at 1. unfold try_except.
  set (t0 := t ++ [Log "debug" "Processing event {name}" [VStr dispatch_name]]).
  assert (Hfail : forall e t',
    match
      match e with
      | ChunkGuilds => Some (emit (GwGetChunks (shard_id gw)))
      | _ =>
          if is_Exception e
          then
            Some
              (let locals := handle_dispatches_locals self dispatch_name dispatch in
               act ev <- lift (load_name locals "event");
               act d <- lift (load_name locals "dispatch");
               emit (Log "exception"
                         "Error decoding event {event} with data {dispatch}!"
                         [ev; d]);;
               emit (GwClose (shard_id gw) 1006 "Internal client error");;
               raise e)
          else None
      end
    with
    | Some h => h t'
    | None => (@Raise unit e, t')
    end = after_failure gw e t').
  { intros e t'. destruct e; reflexivity. }
  destruct (handler gw dispatch) as [r|[r|e]|items [e|]|e]; cbn zeta;
    cbn [outcome_events outcome_failure List.map concat].
  - rewrite fire_result_trace, app_nil_r. reflexivity.
  - unfold Effects.bind, lift. rewrite fire_result_trace, app_nil_r. reflexivity.
  - unfold Effects.bind, lift. rewrite app_nil_r. apply Hfail.
  - unfold Effects.bind. rewrite fire_each_trace. unfold raise. apply Hfail.
  - unfold Effects.bind. rewrite fire_each_trace. reflexivity.
  - unfold raise. rewrite app_nil_r. apply Hfail.
Qed.

Lemma without_logs_app t l :
  without_logs (t ++ l) = without_logs t ++ without_logs l.
Proof.
  induction t as [|a t IH]; [reflexivity|].
  destruct a; cbn [app without_logs]; rewrite IH; reflexivity.
Qed.

Lemma chunk_requests_app t l :
  chunk_requests (t ++ l) = chunk_requests t ++ chunk_requests l.
Proof.
  induction t as [|a t IH]; [reflexivity|].
  destruct a; cbn [app chunk_requests]; rewrite IH; reflexivity.
Qed.

Lemma chunk_requests_deliveries em gw items :
  chunk_requests (concat (List.map (deliveries em gw) items)) = [].
Proof.
  induction items as [|i items IH]; [reflexivity|].
  cbn [List.map concat]. rewrite chunk_requests_app, IH, app_nil_r.
  unfold deliveries. induction (handlers_for em (fst i)); [reflexivity|assumption].
Qed.

Lemma without_logs_deliveries em gw items :
  without_logs (concat (List.map (deliveries em gw) items))
  = concat (List.map (deliveries em gw) items).
Proof.
  induction items as [|i items IH]; [reflexivity|].
  cbn [List.map concat]. rewrite without_logs_app, IH. f_equal.
  unfold deliveries. induction (handlers_for em (fst i)) as [|h hs IHh];
    [reflexivity|]. cbn [List.map without_logs]. rewrite IHh. reflexivity.
Qed.

(** X2. On a ready shard, a dispatch whose routine ends without an error is
    answered by delivering the events of its result, one after the other
    in the order given: one event for a plain or awaited result, all the
    yielded ones for a generator.  Nothing else but the debug record is
    added to the trace. *)
Theorem dispatch_events_delivered_in_order (self : Client) (gw : Gateway)
        (dispatch_name : string) (dispatch : Val)
        (handler : Gateway -> Val -> Outcome) (t : Trace) :
  is_ready (state self) (shard_id gw) = true ->
  routines (state self) !! ("handle_" +:+ lower dispatch_name) = Some handler ->
  outcome_failure (handler gw dispatch) = None ->
  handle_dispatches self gw dispatch_name dispatch t
  = (Ok tt,
     (t ++ [Log "debug" "Processing event {name}" [VStr dispatch_name]])
       ++ concat (List.map (gated_deliveries self gw)
                           (outcome_events (handler gw dispatch)))).
Proof.
  intros Hr Hh Hf. rewrite (handle_dispatches_trace _ _ _ _ handler) by exact Hh.
  cbn zeta. rewrite Hf.
  assert (Hg : forall ev, gated_deliveries self gw ev
                          = deliveries (events self) gw ev).
  { intros ev. unfold gated_deliveries, gate_open. rewrite Hr. reflexivity. }
  do 3 f_equal. apply List.map_ext. intros ev. symmetry. apply Hg.
Qed.

Lemma dispatch_events_delivered_in_order_witness :
  is_ready (state bot1) 0 = true
  /\ handle_dispatches bot1 (mkGateway 0 None) "READY" VNone []
     = (Ok tt,
        [Log "debug" "Processing event {name}" [VStr "READY"];
         Invoke 7 "ready" [] 0]).
Proof.
  split; [reflexivity|].
  apply (dispatch_events_delivered_in_order bot1 (mkGateway 0 None) "READY" VNone
           (fun _ _ => AsyncGen [("connect", []); ("ready", [])] None) []);
    reflexivity.
Defined.

(** X3. The member-chunk request raised by a routine, at once, from an
    awaited result or in the middle of a generator, is no failure:
    [handle_dispatches] calls [_get_chunks] on the gateway once and returns
    normally, and the events yielded before the request stay delivered. *)
Theorem chunk_request_keeps_deliveries (self : Client) (gw : Gateway)
        (dispatch_name : string) (dispatch : Val)
        (handler : Gateway -> Val -> Outcome) (t : Trace) :
  routines (state self) !! ("handle_" +:+ lower dispatch_name) = Some handler ->
  outcome_failure (handler gw dispatch) = Some ChunkGuilds ->
  exists t',
    handle_dispatches self gw dispatch_name dispatch t = (Ok tt, t')
    /\ chunk_requests t' = chunk_requests t ++ [shard_id gw]
    /\ without_logs t'
       = without_logs t
           ++ concat (List.map (deliveries (events self) gw)
                               (outcome_events (handler gw dispatch)))
           ++ [GwGetChunks (shard_id gw)].
Proof.
  intros Hh Hf. rewrite (handle_dispatches_trace _ _ _ _ handler) by exact Hh.
  cbn zeta. rewrite Hf. cbn [after_failure].
  eexists. split; [reflexivity|]. split.
  - rewrite !chunk_requests_app, chunk_requests_deliveries. cbn.
    rewrite !app_nil_r. reflexivity.
  - rewrite !without_logs_app, without_logs_deliveries. cbn.
    rewrite app_nil_r, <- app_assoc. reflexivity.
Qed.

Lemma chunk_request_keeps_deliveries_witness :
  exists t',
    handle_dispatches bot1 (mkGateway 0 None) "GUILD_CREATE" VNone [] = (Ok tt, t')
    /\ chunk_requests t' = [0]
    /\ without_logs t'
       = [Invoke 3 "guild_available" [VInt 7] 0;
          Invoke 5 "guild_join" [VInt 7] 0; Invoke 6 "guild_join" [VInt 7] 0;
          GwGetChunks 0].
Proof.
  apply (chunk_request_keeps_deliveries bot1 (mkGateway 0 None) "GUILD_CREATE" VNone
           (fun _ _ =>
              AsyncGen [("guild_available", [VInt 7]); ("guild_join", [VInt 7])]
                       (Some ChunkGuilds)) []);
    reflexivity.
Defined.

(** X4. An exception that is no [Exception] (a keyboard interrupt, say)
    leaves [handle_dispatches] as it was raised: it is neither turned into
    a chunk request nor caught by the [except Exception] clause. *)
Theorem base_exception_passes_through (self : Client) (gw : Gateway)
        (dispatch_name : string) (dispatch : Val)
        (handler : Gateway -> Val -> Outcome) (e : Exn) (t : Trace) :
  routines (state self) !! ("handle_" +:+ lower dispatch_name) = Some handler ->
  outcome_failure (handler gw dispatch) = Some e ->
  is_Exception e = false ->
  exists t',
    handle_dispatches self gw dispatch_name dispatch t = (Raise e, t')
    /\ without_logs t'
       = without_logs t
           ++ concat (List.map (deliveries (events self) gw)
                               (outcome_events (handler gw dispatch))).
Proof.
  intros Hh Hf He. rewrite (handle_dispatches_trace _ _ _ _ handler) by exact Hh.
  cbn zeta. rewrite Hf.
  destruct e; try discriminate He. cbn [after_failure is_Exception].
  eexists. split; [reflexivity|].
  rewrite !without_logs_app, without_logs_deliveries. cbn.
  rewrite app_nil_r. reflexivity.
Qed.

Lemma base_exception_passes_through_witness :
  is_Exception KeyboardInterrupt = false
  /\ exists t',
       handle_dispatches bot1 (mkGateway 0 None) "TYPING_START" VNone []
       = (Raise KeyboardInterrupt, t')
       /\ without_logs t' = [].
Proof.
  split; [reflexivity|].
  apply (base_exception_passes_through bot1 (mkGateway 0 None) "TYPING_START"
           VNone (fun _ _ => Raises KeyboardInterrupt) KeyboardInterrupt []);
    reflexivity.
Defined.

(** X5. The routine of a dispatch is looked up by the lower-cased dispatch
    name: two names that differ only in case are handled alike, up to the
    name written in the log records; and a dispatch without a routine is
    dropped with a warning. *)
Theorem dispatch_name_case_insensitive (self : Client) (gw : Gateway)
        (name1 name2 : string) (dispatch : Val) (t : Trace) :
  lower name1 = lower name2 ->
  fst (handle_dispatches self gw name1 dispatch t)
  = fst (handle_dispatches self gw name2 dispatch t)
  /\ without_logs (snd (handle_dispatches self gw name1 dispatch t))
     = without_logs (snd (handle_dispatches self gw name2 dispatch t))
  /\ (routines (state self) !! ("handle_" +:+ lower name1) = None ->
      handle_dispatches self gw name1 dispatch t
      = (Ok tt, t ++ [Log "warning" "Got unknown dispatch {name}" [VStr name1]])).
Proof.
  intros Hl.
  destruct (routines (state self) !! ("handle_" +:+ lower name1))
    as [handler|] eqn:Hh.
  - rewrite (handle_dispatches_trace self gw name1 dispatch handler t Hh).
    rewrite Hl in Hh.
    rewrite (handle_dispatches_trace self gw name2 dispatch handler t Hh).
    cbn zeta. split; [|split; [|discriminate]].
    + destruct (outcome_failure (handler gw dispatch)) as [e|]; [|reflexivity].
      destruct e; reflexivity.
    + destruct (outcome_failure (handler gw dispatch)) as [e|];
        [destruct e|]; cbn [after_failure is_Exception snd];
        rewrite !without_logs_app; reflexivity.
  - unfold handle_dispatches. rewrite <- Hl, Hh. cbn.
    rewrite !without_logs_app. cbn. easy.
Qed.

Lemma dispatch_name_case_insensitive_witness :
  lower "Guild_Create" = lower "GUILD_CREATE"
  /\ fst (handle_dispatches bot1 (mkGateway 0 None) "Guild_Create" VNone [])
     = fst (handle_dispatches bot1 (mkGateway 0 None) "GUILD_CREATE" VNone [])
  /\ without_logs
       (snd (handle_dispatches bot1 (mkGateway 0 None) "Guild_Create" VNone []))
     = without_logs
         (snd (handle_dispatches bot1 (mkGateway 0 None) "GUILD_CREATE" VNone [])).
Proof.
  split; [reflexivity|].
  destruct (dispatch_name_case_insensitive bot1 (mkGateway 0 None)
              "Guild_Create" "GUILD_CREATE" VNone [] eq_refl) as (H1 & H2 & _).
  split; assumption.
Defined.
End DispatchMoreFacts.

(* ===================================================================== *)
(** * More facts about the shard loop *)
(* ===================================================================== *)

Module ShardMoreFacts.
Import Py Effects Client EffFacts ShardFacts Delivery DeliveryFacts.
Local Open Scope list_scope.

(** [consume] when the stream ends without an exception. *)
Lemma consume_clean_end self shard gw stream rc t :
  consume self shard gw stream None rc t
  = (Ok false, t ++ concat (List.map (gated_deliveries self gw) stream)).
Proof.
  unfold consume, try_except, Effects.bind. rewrite fire_stream_trace.
  reflexivity.
Qed.

Lemma consume_client_close self shard gw stream code rc t :
  consume self shard gw stream
    (Some (WebsocketClosed code "Client closed connection")) rc t
  = (Ok true, t ++ concat (List.map (gated_deliveries self gw) stream)).
Proof.
  unfold consume, try_except, Effects.bind. rewrite fire_stream_trace.
  reflexivity.
Qed.

(** X6. A session from connection to the client's own close: the loop
    registers the gateway, delivers the events of the stream through the
    gate in their order, and returns; it neither reconnects nor resets
    anything, whatever the close code is. *)
Theorem session_until_client_close (self : Client) (shard count : Z)
        (k : nat) (gw : Gateway) (stream : list Event) (code : Z)
        (rc : bool -> Res unit) (rest : list Attempt) (t : Trace) :
  (k < 10)%nat ->
  handle_shard_loop self shard count k
    (Connects gw stream
       (Some (WebsocketClosed code "Client closed connection")) rc :: rest) t
  = (Ok Returned,
     t ++ [GwFromToken shard count; SetGateway shard gw]
       ++ concat (List.map (gated_deliveries self gw) stream)).
Proof.
  intros Hk. rewrite loop_connects by exact Hk.
  rewrite consume_client_close, <- app_assoc. reflexivity.
Qed.

Lemma session_until_client_close_witness :
  handle_shard Examples.bot 0 1
    [Connects Examples.gw0
       [("gateway_dispatch_received", [VStr "READY"]); ("message_create", []);
        ("guild_available", [VInt 7])]
       (Some (WebsocketClosed 4000 "Client closed connection"))
       (fun _ => Ok tt)] []
  = (Ok Returned,
     [GwFromToken 0 1; SetGateway 0 Examples.gw0;
      Invoke 0 "gateway_dispatch_received" [VStr "READY"] 0;
      Invoke 3 "guild_available" [VInt 7] 0]).
Proof.
  apply (session_until_client_close Examples.bot 0 1 0 Examples.gw0
           [("gateway_dispatch_received", [VStr "READY"]); ("message_create", []);
            ("guild_available", [VInt 7])] 4000 (fun _ => Ok tt) [] []).
  lia.
Defined.

(** X7. What ends the shard loop with an error other than giving up: a
    connection failure that is no [Exception]; a stream that ends with an
    exception that is neither a close, a reconnect request nor an unusable
    transport; and a reconnect that raises anything but a closed or
    unusable transport.  The error raised is the original one. *)
Theorem shard_loop_errors (self : Client) (shard count : Z) (k : nat)
        (rest : list Attempt) (t : Trace) :
  (k < 10)%nat ->
  (forall e, is_Exception e = false ->
     handle_shard_loop self shard count k (ConnectFails e :: rest) t
     = (Raise e, t ++ [GwFromToken shard count]))
  /\ (forall gw stream e rc,
        decision gw e = Unhandled -> transport_error e = false ->
        handle_shard_loop self shard count k
          (Connects gw stream (Some e) rc :: rest) t
        = (Raise e,
           t ++ [GwFromToken shard count; SetGateway shard gw]
             ++ concat (List.map (gated_deliveries self gw) stream)))
  /\ (forall gw stream e rc (resume : bool) x,
        decision gw e = (if resume then Resume else FreshSession) ->
        rc resume = Raise x -> transport_error x = false ->
        exists t1,
          handle_shard_loop self shard count k
            (Connects gw stream (Some e) rc :: rest) t
          = (Raise x, t1)
          /\ reconnects t1 = reconnects t ++ [resume]
          /\ connect_attempts t1 = S (connect_attempts t)).
Proof.
  intros Hk. split; [|split].
  - intros e He. cbn [handle_shard_loop].
    destruct (Nat.eqb_spec k 10) as [|_]; [lia|].
    rewrite He. reflexivity.
  - intros gw stream e rc Hd Ht.
    rewrite loop_connects by exact Hk.
    assert (Hc : consume self shard gw stream (Some e) rc
                   (t ++ [GwFromToken shard count; SetGateway shard gw])
                 = (Raise e, (t ++ [GwFromToken shard count; SetGateway shard gw])
                      ++ concat (List.map (gated_deliveries self gw) stream))).
    { unfold consume, try_except, Effects.bind. rewrite fire_stream_trace.
      unfold raise. destruct e; try reflexivity; try discriminate Ht;
        discriminate Hd. }
    rewrite Hc, Ht, <- app_assoc. reflexivity.
  - intros gw stream e rc resume x Hd Hrc Hx.
    destruct (loop_after_stream self shard count k gw stream e rc rest t Hk)
      as (t0 & A & B & C & H).
    rewrite Hd in H.
    destruct resume; destruct H as (t1 & A1 & B1 & C1 & H); exists t1;
      rewrite H, Hrc, Hx, B1, B, A1, A; easy.
Qed.

Lemma shard_loop_errors_witness :
  handle_shard Examples.bot 0 1 [ConnectFails KeyboardInterrupt] []
  = (Raise KeyboardInterrupt, [GwFromToken 0 1])
  /\ handle_shard Examples.bot 0 1
       [Connects Examples.gw0 [] (Some (KeyError "op")) (fun _ => Ok tt)] []
     = (Raise (KeyError "op"), [GwFromToken 0 1; SetGateway 0 Examples.gw0]).
Proof.
  destruct (shard_loop_errors Examples.bot 0 1 0 [] [] ltac:(lia))
    as (H1 & H2 & _).
  split.
  - apply H1. reflexivity.
  - apply (H2 Examples.gw0 [] (KeyError "op") (fun _ => Ok tt)); reflexivity.
Defined.

(** X8. A stream that simply ends, or ends on an unusable transport, makes
    the loop connect again: with the failure counter at zero in the first
    case and at one in the second, and without any call of [reconnect]. *)
Theorem stream_end_reconnects_afresh (self : Client) (shard count : Z)
        (k : nat) (gw : Gateway) (stream : list Event)
        (rc : bool -> Res unit) (rest : list Attempt) (t : Trace) :
  (k < 10)%nat ->
  handle_shard_loop self shard count k (Connects gw stream None rc :: rest) t
  = handle_shard_loop self shard count 0 rest
      (t ++ [GwFromToken shard count; SetGateway shard gw]
         ++ concat (List.map (gated_deliveries self gw) stream))
  /\ handle_shard_loop self shard count k
       (Connects gw stream (Some WebsocketUnusable) rc :: rest) t
     = handle_shard_loop self shard count 1 rest
         (t ++ [GwFromToken shard count; SetGateway shard gw]
            ++ concat (List.map (gated_deliveries self gw) stream)).
Proof.
  intros Hk. split; rewrite loop_connects by exact Hk.
  - rewrite consume_clean_end, <- app_assoc. reflexivity.
  - assert (Hc : consume self shard gw stream (Some WebsocketUnusable) rc
                   (t ++ [GwFromToken shard count; SetGateway shard gw])
                 = (Raise WebsocketUnusable,
                    (t ++ [GwFromToken shard count; SetGateway shard gw])
                      ++ concat (List.map (gated_deliveries self gw) stream))).
    { unfold consume, try_except, Effects.bind. rewrite fire_stream_trace.
      reflexivity. }
    rewrite Hc, <- app_assoc. reflexivity.
Qed.

Lemma stream_end_reconnects_afresh_witness :
  handle_shard_loop Examples.bot 0 1 4
    [Connects Examples.gw0 [] None (fun _ => Ok tt)] []
  = (Ok (StillRunning 0), [GwFromToken 0 1; SetGateway 0 Examples.gw0])
  /\ handle_shard_loop Examples.bot 0 1 4
       [Connects Examples.gw0 [] (Some WebsocketUnusable) (fun _ => Ok tt)] []
     = (Ok (StillRunning 1), [GwFromToken 0 1; SetGateway 0 Examples.gw0]).
Proof.
  destruct (stream_end_reconnects_afresh Examples.bot 0 1 4 Examples.gw0 []
              (fun _ => Ok tt) [] [] ltac:(lia)) as [H1 H2].
  split; [rewrite H1 | rewrite H2]; reflexivity.
Defined.

(** The rows of the decision table on a close with code 4007. *)
Lemma close_decision_rows_witness :
  exists t1,
    handle_shard_loop Examples.bot 0 1 0
      [Connects Examples.gw0 [] (Some (WebsocketClosed 4007 "Invalid seq"))
         (fun _ => Ok tt)] []
    = handle_shard_loop Examples.bot 0 1 0 [] t1
    /\ reconnects t1 = [false] /\ resets t1 = [0].
Proof.
  apply (close_decision_rows Examples.bot 0 1 0 Examples.gw0 []
           (WebsocketClosed 4007 "Invalid seq") (fun _ => Ok tt) [] []);
    [lia | reflexivity | reflexivity].
Defined.
End ShardMoreFacts.

(* ===================================================================== *)
(** * More facts about downloads and the profile *)
(* ===================================================================== *)

Module MembersMoreFacts.
Import Py Effects Client EffFacts MembersFacts Delivery.
Local Open Scope list_scope.

(** X10. Against a source that answers every request with the same page, not
    empty and not shorter than [limit], the exhaustive download never comes
    to an end: after any number of requests it is still asking, each time
    at the last id of that page. *)
Theorem exhaustive_download_has_no_bound (self : Client)
        (page : list MemberDatum) (guild_id limit : Z) (fuel : nat)
        (acc : list MemberDatum) (cursor : Val) (t : Trace) :
  http self = endless_source page ->
  full_page limit page = true ->
  exists t',
    download_all fuel self guild_id limit acc cursor t = (Ok None, t')
    /\ List.length (member_requests t')
       = (List.length (member_requests t) + fuel)%nat.
Proof.
  intros Hs Hp. destruct (full_page_spec limit page Hp) as [Hne Hlen].
  revert acc cursor t. induction fuel as [|fuel IH]; intros acc cursor t.
  - exists t. split; [reflexivity | lia].
  - cbn [download_all]. unfold Effects.bind at 1.
    unfold http_get_guild_members, Effects.bind, history, emit, lift.
    rewrite Hs. cbn [get_guild_members endless_source].
    destruct page as [|d page]; [congruence|].
    rewrite Hlen. rewrite last_user_id_app by discriminate.
    destruct (IH (acc ++ d :: page) (page_cursor (d :: page))
                 (t ++ [HttpGetGuildMembers guild_id limit cursor]))
      as (t' & E & Hn).
    exists t'. split; [exact E|].
    rewrite Hn, member_requests_app, length_app. simpl. lia.
Qed.

Lemma exhaustive_download_has_no_bound_witness :
  exists t',
    download_all 50 endless_bot
                 42 3 [] (VInt 0) [] = (Ok None, t')
    /\ List.length (member_requests t') = 50%nat.
Proof.
  apply (exhaustive_download_has_no_bound
           endless_bot
           (page_of 0 3) 42 3 50 [] (VInt 0) []); reflexivity.
Defined.

Lemma scripted_request self responses guild_id limit cursor t :
  http self = scripted_source responses ->
  http_get_guild_members self guild_id limit cursor t
  = (nth (List.length (member_requests t)) responses (Ok []),
     t ++ [HttpGetGuildMembers guild_id limit cursor]).
Proof.
  intros Hs. unfold http_get_guild_members, Effects.bind, history, emit, lift.
  rewrite Hs. reflexivity.
Qed.

Lemma download_all_fails self responses guild_id limit fulls e :
  http self = scripted_source responses ->
  forallb (full_page limit) fulls = true ->
  forall fuel acc cursor t,
    (List.length fulls < fuel)%nat ->
    (forall i, (i <= List.length fulls)%nat ->
       nth (List.length (member_requests t) + i) responses (Ok [])
       = nth i (List.map Ok fulls ++ [Raise e]) (Ok [])) ->
    download_all fuel self guild_id limit acc cursor t
    = (Raise e, t ++ paging_requests guild_id limit cursor fulls).
Proof.
  intros Hs Hfull. induction fulls as [|page fulls IH];
    intros fuel acc cursor t Hfuel Hresp.
  - destruct fuel as [|fuel]; [simpl in Hfuel; lia|].
    cbn [download_all]. unfold Effects.bind at 1.
    rewrite (scripted_request self responses) by assumption.
    specialize (Hresp O ltac:(lia)). rewrite Nat.add_0_r in Hresp.
    rewrite Hresp. reflexivity.
  - destruct fuel as [|fuel]; [simpl in Hfuel; lia|].
    cbn [forallb] in Hfull. apply andb_prop in Hfull as [Hpage Hfulls].
    destruct (full_page_spec limit page Hpage) as [Hne Hlen].
    cbn [download_all]. unfold Effects.bind at 1.
    rewrite (scripted_request self responses) by assumption.
    pose proof (Hresp O ltac:(lia)) as H0. rewrite Nat.add_0_r in H0.
    rewrite H0. cbn [nth app List.map].
    destruct page as [|d page]; [congruence|].
    rewrite Hlen. unfold Effects.bind at 1. unfold lift at 1.
    rewrite last_user_id_app by discriminate.
    rewrite (IH Hfulls fuel).
    + cbn [paging_requests]. rewrite <- !app_assoc. reflexivity.
    + simpl in Hfuel. lia.
    + intros i Hi. rewrite member_requests_app, length_app. simpl.
      specialize (Hresp (S i) ltac:(simpl; lia)).
      replace (List.length (member_requests t) + 1 + i)%nat
        with (List.length (member_requests t) + S i)%nat by lia.
      rewrite Hresp. reflexivity.
Qed.

(** X11. When a page request fails after any number of full pages, the
    exhaustive download fails with the error of that request, and the
    members of the pages received before it are not returned. *)
Theorem exhaustive_download_fails_as_a_whole (self : Client)
        (fulls : list (list MemberDatum)) (e : Exn)
        (later : list (Res (list MemberDatum)))
        (guild_id limit : Z) (after : Val) (fuel : nat) :
  http self = scripted_source (List.map Ok fulls ++ Raise e :: later) ->
  forallb (full_page limit) fulls = true ->
  (List.length fulls < fuel)%nat ->
  run (download_guild_members fuel self guild_id after limit true)
  = (Raise e, paging_requests guild_id limit (VInt 0) fulls).
Proof.
  intros Hs Hfull Hfuel.
  unfold run, download_guild_members, Effects.bind.
  rewrite (download_all_fails self _ guild_id limit fulls e Hs Hfull fuel
             [] (VInt 0) [] Hfuel).
  - reflexivity.
  - intros i Hi. cbn [member_requests List.length Nat.add].
    destruct (Nat.eq_dec i (List.length fulls)) as [->|Hne].
    + rewrite !app_nth2 by (rewrite length_map; lia).
      rewrite length_map, Nat.sub_diag. reflexivity.
    + rewrite !app_nth1 by (rewrite length_map; lia). reflexivity.
Qed.

Lemma exhaustive_download_fails_as_a_whole_witness :
  run (download_guild_members 5
         failing_bot
         42 VNone 2 true)
  = (Raise (HTTPException 502),
     [HttpGetGuildMembers 42 2 (VInt 0); HttpGetGuildMembers 42 2 (VInt 2);
      HttpGetGuildMembers 42 2 (VInt 4)]).
Proof.
  apply (exhaustive_download_fails_as_a_whole
           failing_bot
           [page_of 0 2; page_of 2 2] (HTTPException 502) [Ok []]
           42 2 VNone 5); [reflexivity | reflexivity | cbn; lia].
Defined.
End MembersMoreFacts.

Module AvatarFacts.
Import Py Effects Client EffFacts Delivery.
Local Open Scope list_scope.

(** X12. [edit_avatar] passes neither a username nor a password on to
    [edit_profile].  When the file cannot be read it fails with the error
    of reading it, on any account.  On a user account it otherwise fails
    with the missing-password error; in both cases nothing is sent.  On a
    bot account it hands all the bytes read to [base64ify]: it fails with
    the error of the encoder and sends nothing, or sends exactly one
    edit-user request that carries the encoded avatar only; the bytes of
    an empty file are sent as they are. *)
Theorem edit_avatar_by_account (self : Client) (file : Res (list Byte.byte))
        (t : Trace) :
  (forall x, file = Raise x -> edit_avatar self file t = (Raise x, t))
  /\ (user_bot self = false ->
      forall content, file = Ok content ->
        edit_avatar self file t
        = (Raise (ValueError "Password must be passed for user bots"), t))
  /\ (user_bot self = true ->
      forall b content, file = Ok (b :: content) ->
        (forall x, base64ify self (b :: content) = Raise x ->
           edit_avatar self file t = (Raise x, t))
        /\ (forall a, base64ify self (b :: content) = Ok a ->
              edit_avatar self file t
              = (edit_user (http self) VNone (VStr a) VNone,
                 t ++ [HttpEditUser VNone (VStr a) VNone])))
  /\ (user_bot self = true -> file = Ok [] ->
      edit_avatar self file t
      = (edit_user (http self) VNone (VBytes []) VNone,
         t ++ [HttpEditUser VNone (VBytes []) VNone])).
Proof.
  unfold edit_avatar, edit_profile. split; [|split; [|split]].
  - intros x ->. reflexivity.
  - intros Hu content ->.
    unfold Effects.bind at 1. unfold lift at 1. rewrite Hu. reflexivity.
  - intros Hu b content ->. split.
    + intros x Hx. unfold Effects.bind, lift, ret, emit, encoded_avatar.
      rewrite Hu, Hx. reflexivity.
    + intros a Ha. unfold Effects.bind, lift, ret, emit, encoded_avatar.
      rewrite Hu, Ha. reflexivity.
  - intros Hu ->. unfold Effects.bind, lift, ret, emit, encoded_avatar.
    rewrite Hu. reflexivity.
Qed.

Lemma edit_avatar_by_account_witness :
  edit_avatar Examples.userbot (Raise (KeyError "avatar.png")) []
  = (Raise (KeyError "avatar.png"), [])
  /\ edit_avatar Examples.userbot (Ok [Byte.x89; Byte.x50]) []
     = (Raise (ValueError "Password must be passed for user bots"), [])
  /\ edit_avatar counting_bot (Ok [Byte.x89; Byte.x50]) []
     = (Ok tt, [HttpEditUser VNone (VStr "2") VNone]).
Proof.
  destruct (edit_avatar_by_account Examples.userbot
              (Raise (KeyError "avatar.png")) []) as (Hx & _).
  destruct (edit_avatar_by_account Examples.userbot
              (Ok [Byte.x89; Byte.x50]) []) as (_ & Hu & _).
  destruct (edit_avatar_by_account counting_bot
              (Ok [Byte.x89; Byte.x50]) []) as (_ & _ & Hb & _).
  split; [|split].
  - apply (Hx (KeyError "avatar.png")). reflexivity.
  - apply (Hu eq_refl [Byte.x89; Byte.x50]). reflexivity.
  - destruct (Hb eq_refl Byte.x89 [Byte.x50] eq_refl) as [_ Ha].
    apply (Ha "2"). reflexivity.
Defined.
End AvatarFacts.

(* ===================================================================== *)
(** * More facts about [IDObject] *)
(* ===================================================================== *)

Module IdentityFacts.
Import Py Float Bases Entities PyFacts FloatFacts.
Local Open Scope Z_scope.

(** Induction on values, through the lists they nest. *)
Lemma Val_nested_ind (P : Val -> Prop) :
  P VNone -> (forall b, P (VBool b)) -> (forall z, P (VInt z)) ->
  (forall s, P (VStr s)) -> (forall b, P (VBytes b)) ->
  (forall l, Forall P l -> P (VList l)) ->
  (forall c, P (VClient c)) -> (forall w, P (VObject w)) ->
  forall v, P v.
Proof.
  intros HN HB HI HS HY HL HC HO.
  fix IH 1. intros [| b | z | s | b | l | c | w].
  - exact HN.
  - apply HB.
  - apply HI.
  - apply HS.
  - apply HY.
  - apply HL. induction l as [|x l IHl]; constructor; [apply IH | exact IHl].
  - apply HC.
  - apply HO.
Qed.

Lemma eqb_sym a : forall b, Py.eqb a b = Py.eqb b a.
Proof.
  induction a as [| x | x | x | x | l IHl | x | x] using Val_nested_ind;
    intros [| y | y | y | y | l' | y | y]; cbn [Py.eqb]; try reflexivity.
  - destruct x, y; reflexivity.
  - apply Z.eqb_sym.
  - apply Z.eqb_sym.
  - apply Z.eqb_sym.
  - apply String.eqb_sym.
  - destruct (List.list_eq_dec Byte.byte_eq_dec x y),
      (List.list_eq_dec Byte.byte_eq_dec y x); congruence.
  - revert l'. induction IHl as [|a l Ha _ IH]; intros [|b l']; try reflexivity.
    rewrite (Ha b), (IH l'). reflexivity.
  - apply Nat.eqb_sym.
  - apply String.eqb_sym.
Qed.

Lemma eqb_refl a : Py.eqb a a = true.
Proof.
  induction a as [| x | x | x | x | l IHl | x | x] using Val_nested_ind;
    cbn [Py.eqb].
  - reflexivity.
  - destruct x; reflexivity.
  - apply Z.eqb_refl.
  - apply String.eqb_refl.
  - destruct (List.list_eq_dec Byte.byte_eq_dec x x); congruence.
  - induction IHl as [|a l Ha _ IH]; [reflexivity|]. rewrite Ha, IH. reflexivity.
  - apply Nat.eqb_refl.
  - apply String.eqb_refl.
Qed.

Lemma eqb_trans a : forall b c,
  Py.eqb a b = true -> Py.eqb b c = true -> Py.eqb a c = true.
Proof.
  induction a as [| x | x | x | x | l IHl | x | x] using Val_nested_ind;
    intros [| y | y | y | y | l' | y | y] [| z | z | z | z | l'' | z | z];
    cbn [Py.eqb]; try discriminate; try reflexivity;
    try (intros H1 H2;
         repeat match goal with
                | b : bool |- _ => destruct b
                end;
         cbn [Bool.eqb] in *; try discriminate; try reflexivity;
         try apply Z.eqb_eq in H1; try apply Z.eqb_eq in H2;
         try apply Z.eqb_eq; lia).
  - intros H1 H2. apply String.eqb_eq in H1, H2. apply String.eqb_eq. congruence.
  - destruct (List.list_eq_dec Byte.byte_eq_dec x y),
      (List.list_eq_dec Byte.byte_eq_dec y z),
      (List.list_eq_dec Byte.byte_eq_dec x z); congruence.
  - revert l' l''.
    induction IHl as [|a l Ha _ IH]; intros [|b l'] [|c l'']; try discriminate;
      try reflexivity.
    intros H1 H2. apply andb_prop in H1 as [H1 H1'], H2 as [H2 H2'].
    rewrite (Ha b c H1 H2), (IH l' l'' H1' H2'). reflexivity.
  - intros H1 H2. apply Nat.eqb_eq in H1, H2. apply Nat.eqb_eq. congruence.
  - intros H1 H2. apply String.eqb_eq in H1, H2. apply String.eqb_eq. congruence.
Qed.

(** X13. [IDObject.__eq__] is an equivalence on identity objects, and
    objects that compare equal have equal hash values. *)
Theorem idobject_eq_equivalence (a b c : IDObject) :
  IDObject__eq__ a a = true
  /\ IDObject__eq__ a b = IDObject__eq__ b a
  /\ (IDObject__eq__ a b = true -> IDObject__eq__ b c = true ->
      IDObject__eq__ a c = true)
  /\ (IDObject__eq__ a b = true ->
      Py.eqb (IDObject__hash__ a) (IDObject__hash__ b) = true).
Proof.
  unfold IDObject__eq__, IDObject__hash__. repeat split.
  - apply eqb_refl.
  - apply eqb_sym.
  - intros H1 H2. apply (eqb_trans _ (id b)); assumption.
  - intros H. rewrite eqb_sym. exact H.
Qed.

(** X14. [IDObject.__init__] stores an id that is no [str] as it is,
    and a [str] as the [int] it denotes, failing with [ValueError] when
    it denotes none.  So what it stores is never a [str], and building an
    object again from the id of a built one gives the same object. *)
Theorem idobject_init_normalises (v : Val) (o : IDObject) :
  IDObject__init__ v = Ok o ->
  ((forall s, v <> VStr s) -> o = mkIDObject v)
  /\ (forall s, v = VStr s ->
        exists z, o = mkIDObject (VInt z) /\ int_of_str s = Some z)
  /\ (forall s, id o <> VStr s)
  /\ IDObject__init__ (id o) = Ok o
  /\ (forall w, (forall s, w <> VStr s) ->
        IDObject__init__ w = Ok (mkIDObject w))
  /\ (forall s z, int_of_str s = Some z ->
        IDObject__init__ (VStr s) = Ok (mkIDObject (VInt z)))
  /\ (forall s, int_of_str s = None ->
        exists msg, IDObject__init__ (VStr s) = Raise (ValueError msg)).
Proof.
  intros H.
  assert (Hother : forall w, (forall s, w <> VStr s) ->
                             IDObject__init__ w = Ok (mkIDObject w)).
  { intros w Hw. destruct w; try reflexivity. now destruct (Hw s). }
  assert (Hstr : forall s z, int_of_str s = Some z ->
                   IDObject__init__ (VStr s) = Ok (mkIDObject (VInt z))).
  { intros s z Hs. cbn. rewrite Hs. reflexivity. }
  assert (Hcases : (exists s z, v = VStr s /\ int_of_str s = Some z
                                /\ o = mkIDObject (VInt z))
                   \/ ((forall s, v <> VStr s) /\ o = mkIDObject v)).
  { destruct v as [| b | z | s | b | l | c | w];
      try (right; split; [intros s; discriminate|];
           cbn in H; injection H as <-; reflexivity).
    left. cbn in H. destruct (int_of_str s) as [z|] eqn:Hs; cbn in H;
      [|discriminate H].
    injection H as <-. exists s, z. repeat split. exact Hs. }
  split; [|split; [|split; [|split; [|split; [|split]]]]].
  - intros Hv. destruct Hcases as [(s & z & -> & _ & _) | [_ ->]];
      [now destruct (Hv s) | reflexivity].
  - intros s ->. destruct Hcases as [(s' & z & [= <-] & Hs & ->) | [Hv _]];
      [exists z; split; [reflexivity | exact Hs] | now destruct (Hv s)].
  - intros s Hs. destruct Hcases as [(s' & z & _ & _ & ->) | [Hv ->]];
      [discriminate Hs | exact (Hv s Hs)].
  - destruct Hcases as [(s' & z & _ & _ & ->) | [Hv ->]].
    + reflexivity.
    + apply Hother. exact Hv.
  - exact Hother.
  - exact Hstr.
  - intros s Hs. cbn. rewrite Hs. cbn. eexists. reflexivity.
Qed.

Lemma idobject_init_normalises_witness :
  IDObject__init__ (VStr " 1_000 ") = Ok (mkIDObject (VInt 1000))
  /\ IDObject__init__ (VInt 1000) = Ok (mkIDObject (VInt 1000))
  /\ IDObject__init__ (VBool true) = Ok (mkIDObject (VBool true))
  /\ exists msg, IDObject__init__ (VStr "12ab") = Raise (ValueError msg).
Proof.
  destruct (idobject_init_normalises (VStr " 1_000 ") (mkIDObject (VInt 1000))
              eq_refl) as (_ & _ & _ & H2 & H5 & _ & H7).
  split; [reflexivity|]. split; [exact H2|]. split.
  - apply H5. intros s. discriminate.
  - apply H7. reflexivity.
Defined.

Lemma idobject_eq_equivalence_witness :
  IDObject__eq__ (mkIDObject (VInt 1)) (mkIDObject (VBool true)) = true
  /\ IDObject__eq__ (mkIDObject (VBool true)) (mkIDObject (VInt 1)) = true.
Proof.
  destruct (idobject_eq_equivalence (mkIDObject (VInt 1))
              (mkIDObject (VBool true)) (mkIDObject (VInt 1)))
    as (_ & Hs & _ & _).
  split; [reflexivity|]. rewrite <- Hs. reflexivity.
Defined.

(** The [timestamp] of a 64-bit snowflake, by the millisecond. *)
Lemma timestamp_of_snowflake (s : Z) :
  0 <= s < 2 ^ 64 ->
  timestamp (mkIDObject (VInt s))
  = Ok (utc_datetime_from_unix_millis (Z.shiftr s 22 + 1420070400000)).
Proof.
  intros Hs.
  pose proof (BasesFacts.shiftr_snowflake s Hs) as Hsh.
  unfold timestamp. cbn [id int bind]. unfold DISCORD_EPOCH.
  set (m := Z.shiftr s 22 + 1420070400000).
  assert (Hm : 1420070400000 <= m < 1420070400000 + 2 ^ 42) by (unfold m; lia).
  destruct (nearest_millis m Hm) as (k & Hk & Hn).
  unfold truediv. change (1000 ?= 0) with Gt. cbv iota.
  rewrite Hn.
  assert (Hov : overflows (mkFloat (rne_div (m * 2 ^ k) 1000) (- k)) = false).
  { unfold overflows. cbn [mant expo].
    rewrite Z.max_l by lia. rewrite Z.mul_1_r.
    apply Z.leb_gt.
    pose proof (rne_div_err (m * 2 ^ k) 1000 ltac:(lia)) as He.
    assert (2 ^ k <= 2 ^ 22) by (apply Z.pow_le_mono_r; lia).
    assert (0 < 2 ^ k) by (apply Z.pow_pos_nonneg; lia).
    change (2 ^ 42) with 4398046511104 in Hm.
    change (2 ^ 22) with 4194304 in *.
    assert (Z.abs (rne_div (m * 2 ^ k) 1000) < 2 ^ 64)
      by (change (2 ^ 64) with 18446744073709551616; nia).
    assert (2 ^ 64 < 2 ^ 1024) by (apply Z.pow_lt_mono_r; lia).
    lia. }
  rewrite Hov. cbn [bind].
  apply utcfromtimestamp_millis; [lia | lia |].
  change (2 ^ 42) with 4398046511104 in Hm.
  apply Z.div_le_upper_bound; lia.
Qed.

Lemma snowflake_days_check : forallb day_checks snowflake_days = true.
Proof. vm_compute. reflexivity. Qed.

Lemma in_days_from n : forall a d,
  a <= d < a + Z.of_nat n -> In d (days_from n a).
Proof.
  induction n as [|n IH]; intros a d Hd; [lia|].
  cbn [days_from]. destruct (Z.eq_dec a d) as [->|Hne]; [now left|].
  right. apply IH. lia.
Qed.

Lemma day_checks_in_range (d : Z) :
  16436 <= d < 16436 + 50905 -> day_checks d = true.
Proof.
  intros Hd.
  pose proof snowflake_days_check as H.
  rewrite forallb_forall in H. apply H.
  unfold snowflake_days. apply in_days_from. lia.
Qed.

(** The calendar time of a millisecond in the range of the snowflakes
    reads back as that millisecond, and lies in the years 2015..2154. *)
Lemma unix_millis_of_datetime (m : Z) :
  1420070400000 <= m < 1420070400000 + 2 ^ 42 ->
  unix_millis (utc_datetime_from_unix_millis m) = m
  /\ 2015 <= year (utc_datetime_from_unix_millis m) <= 2154.
Proof.
  intros Hm. change (2 ^ 42) with 4398046511104 in Hm.
  assert (Hd : 16436 <= m / 1000 / 86400 < 16436 + 50905).
  { split.
    - apply Z.div_le_lower_bound; [lia|].
      apply Z.div_le_lower_bound; lia.
    - apply Z.div_lt_upper_bound; [lia|].
      apply Z.div_lt_upper_bound; lia. }
  pose proof (day_checks_in_range _ Hd) as Hc.
  unfold day_checks in Hc.
  unfold utc_datetime_from_unix_millis, utc_datetime, unix_millis.
  destruct (civil_from_days (m / 1000 / 86400)) as [[y mo] dd].
  cbn [year month day hour minute second microsecond].
  apply andb_prop in Hc as [Hc Hy2]. apply andb_prop in Hc as [Hc Hy1].
  apply Z.eqb_eq in Hc. apply Z.leb_le in Hy1, Hy2.
  rewrite Hc. split; [|lia].
  set (secs := m / 1000) in *.
  set (r := secs mod 86400).
  assert (Hsecs : secs = 86400 * (secs / 86400) + r)
    by (apply Z.div_mod; lia).
  assert (Hr : 0 <= r < 86400) by (apply Z.mod_pos_bound; lia).
  assert (Hms : m = 1000 * secs + m mod 1000) by (apply Z.div_mod; lia).
  assert (Hus : m mod 1000 * 1000 / 1000 = m mod 1000)
    by (apply Z.div_mul; lia).
  rewrite Hus.
  assert (Hday : r / 3600 * 3600 + r mod 3600 / 60 * 60 + r mod 60 = r).
  { clearbody r. clear - Hr. Z.to_euclidean_division_equations. lia. }
  lia.
Qed.

(** X15. The [timestamp] of a 64-bit snowflake never fails, lies in the
    years 2015..2154 and reads back as the millisecond
    [(s >> 22) + DISCORD_EPOCH]; two snowflakes have the same [timestamp]
    exactly when they agree above their low 22 bits. *)
Theorem timestamp_identifies_millisecond (s1 s2 : Z) :
  0 <= s1 < 2 ^ 64 -> 0 <= s2 < 2 ^ 64 ->
  (exists dt, timestamp (mkIDObject (VInt s1)) = Ok dt
              /\ unix_millis dt = Z.shiftr s1 22 + DISCORD_EPOCH
              /\ 2015 <= year dt <= 2154)
  /\ (timestamp (mkIDObject (VInt s1)) = timestamp (mkIDObject (VInt s2))
      <-> Z.shiftr s1 22 = Z.shiftr s2 22).
Proof.
  intros H1 H2.
  pose proof (BasesFacts.shiftr_snowflake s1 H1) as Hs1.
  pose proof (BasesFacts.shiftr_snowflake s2 H2) as Hs2.
  rewrite !timestamp_of_snowflake by assumption. unfold DISCORD_EPOCH.
  destruct (unix_millis_of_datetime (Z.shiftr s1 22 + 1420070400000)
              ltac:(lia)) as [Hu1 Hy1].
  destruct (unix_millis_of_datetime (Z.shiftr s2 22 + 1420070400000)
              ltac:(lia)) as [Hu2 Hy2].
  split.
  - eexists. split; [reflexivity|]. split; assumption.
  - split.
    + intros E.
      assert (E' : utc_datetime_from_unix_millis (Z.shiftr s1 22 + 1420070400000)
                   = utc_datetime_from_unix_millis (Z.shiftr s2 22 + 1420070400000))
        by congruence.
      rewrite E' in Hu1. lia.
    + intros ->. reflexivity.
Qed.

Lemma timestamp_identifies_millisecond_witness :
  timestamp (mkIDObject (VInt 175928847299117063))
  = timestamp (mkIDObject (VInt 175928847299117064))
  /\ timestamp (mkIDObject (VInt 175928847299117063))
     <> timestamp (mkIDObject (VInt (175928847299117063 + 2 ^ 22))).
Proof.
  assert (Ha : 0 <= 175928847299117063 < 2 ^ 64)
    by (vm_compute; split; congruence).
  assert (Hb : 0 <= 175928847299117064 < 2 ^ 64)
    by (vm_compute; split; congruence).
  assert (Hc : 0 <= 175928847299117063 + 2 ^ 22 < 2 ^ 64)
    by (vm_compute; split; congruence).
  split.
  - destruct (timestamp_identifies_millisecond _ _ Ha Hb) as [_ [_ Hfrom]].
    apply Hfrom. vm_compute. reflexivity.
  - destruct (timestamp_identifies_millisecond _ _ Ha Hc) as [_ [Hto _]].
    intros E. apply Hto in E. vm_compute in E. discriminate E.
Defined.

End IdentityFacts.

(* ===================================================================== *)
(** * More facts about [Emoji] *)
(* ===================================================================== *)

Module EmojiMoreFacts.
Import Py Bases Emoji Entities PyFacts StringFacts.
Local Open Scope Z_scope.

Lemma str_of_int_inj a b : str_of_int a = str_of_int b -> a = b.
Proof.
  intros E. pose proof (int_of_str_of_int a) as Ha.
  rewrite E, int_of_str_of_int in Ha. congruence.
Qed.

Lemma get_insert_ne (d : gmap string Val) k k' v dflt :
  k <> k' -> get (<[k := v]> d) k' dflt = get d k' dflt.
Proof. intros Hk. unfold get. rewrite lookup_insert_ne by exact Hk. reflexivity. Qed.

(** X16. [Emoji.__init__] needs an id: without one it fails with
    [TypeError]; when it succeeds the id is the [int] of what was given
    and no guild is attached yet; and the decimal string of an id builds
    the same emoji as the id itself. *)
Theorem emoji_init_outcome (kwargs : gmap string Val) :
  (kwargs !! "id" = None ->
   exists msg, Emoji.__init__ kwargs = Raise (TypeError msg))
  /\ (forall e, Emoji.__init__ kwargs = Ok e ->
        exists i, int (get kwargs "id" VNone) = Ok i
                  /\ emoji_id e = VInt i /\ guild_id e = VNone
                  /\ emoji_bot e = get kwargs "client" VNone)
  /\ (forall z, kwargs !! "id" = Some (VStr (str_of_int z)) ->
        exists e, Emoji.__init__ kwargs = Ok e /\ emoji_id e = VInt z
                  /\ Emoji.__init__ (<["id" := VInt z]> kwargs) = Ok e).
Proof.
  split; [|split].
  - intros Hid. unfold Emoji.__init__, get. rewrite Hid. cbn.
    eexists. reflexivity.
  - intros e. unfold Emoji.__init__.
    destruct (int (get kwargs "id" VNone)) as [i|x]; cbn; [|discriminate].
    intros [= <-]. exists i. split; [reflexivity|]. split; [reflexivity|].
    split; reflexivity.
  - intros z Hz. unfold Emoji.__init__.
    assert (Hne : forall k' dflt, "id" <> k' ->
              get (<["id" := VInt z]> kwargs) k' dflt = get kwargs k' dflt)
      by (intros; apply get_insert_ne; assumption).
    rewrite (Hne "client"), (Hne "name"), (Hne "roles"),
      (Hne "require_colons"), (Hne "managed"), (Hne "animated")
      by (intro E; discriminate E).
    assert (Hs : get kwargs "id" VNone = VStr (str_of_int z))
      by (unfold get; rewrite Hz; reflexivity).
    assert (Hi : get (<["id" := VInt z]> kwargs) "id" VNone = VInt z)
      by (unfold get; rewrite lookup_insert_eq; reflexivity).
    rewrite Hs, Hi. cbn [int]. rewrite int_of_str_of_int. cbn.
    eexists. split; [reflexivity|]. split; reflexivity.
Qed.

Lemma emoji_init_outcome_witness :
  (exists msg, Emoji.__init__ {[ "name" := VStr "party" ]}
               = Raise (TypeError msg))
  /\ exists e, Emoji.__init__ party_kwargs = Ok e
               /\ emoji_id e = VInt 175928847299117063
               /\ Emoji.__init__
                    (<["id" := VInt 175928847299117063]> party_kwargs) = Ok e.
Proof.
  split.
  - destruct (emoji_init_outcome {[ "name" := VStr "party" ]}) as (H & _ & _).
    apply H. reflexivity.
  - destruct (emoji_init_outcome party_kwargs) as (_ & _ & H).
    apply (H 175928847299117063). reflexivity.
Defined.

(** X17. Between two emojis, [Emoji.__eq__] never fails: it answers
    whether the two ids are equal as Python values.  It is reflexive,
    symmetric and transitive. *)
Theorem emoji_eq_equivalence (e1 e2 e3 : Emoji) :
  Emoji.__eq__ e1 (OEmoji e2) = Ok (Py.eqb (emoji_id e1) (emoji_id e2))
  /\ Emoji.__eq__ e1 (OEmoji e1) = Ok true
  /\ Emoji.__eq__ e1 (OEmoji e2) = Emoji.__eq__ e2 (OEmoji e1)
  /\ (Emoji.__eq__ e1 (OEmoji e2) = Ok true ->
      Emoji.__eq__ e2 (OEmoji e3) = Ok true ->
      Emoji.__eq__ e1 (OEmoji e3) = Ok true)
  /\ (forall i1 i2, emoji_id e1 = VInt i1 -> emoji_id e2 = VInt i2 ->
        Emoji.__eq__ e1 (OEmoji e2) = Ok (Z.eqb i1 i2)).
Proof.
  unfold Emoji.__eq__, operand_id. cbn [Py.bind].
  split; [reflexivity|]. split; [|split; [|split]].
  - rewrite IdentityFacts.eqb_refl. reflexivity.
  - rewrite (IdentityFacts.eqb_sym (emoji_id e1)). reflexivity.
  - intros [= H1] [= H2]. rewrite (IdentityFacts.eqb_trans _ _ _ H1 H2).
    reflexivity.
  - intros i1 i2 -> ->. reflexivity.
Qed.

Lemma emoji_eq_equivalence_witness :
  Emoji.__eq__ Examples.blob (OEmoji Examples.cat) = Ok true
  /\ Emoji.__eq__ Examples.cat (OEmoji Examples.blob) = Ok true
  /\ Emoji.__eq__ Examples.blob (OEmoji party) = Ok false
  /\ Emoji.__eq__ party (OEmoji Examples.blob) = Ok false.
Proof.
  destruct (emoji_eq_equivalence Examples.blob Examples.cat Examples.blob)
    as (H1 & _ & Hs & _).
  destruct (emoji_eq_equivalence Examples.blob party Examples.blob)
    as (H2 & _ & Hs' & _).
  split; [exact H1|]. split; [rewrite <- Hs; exact H1|].
  split; [exact H2|]. rewrite <- Hs'. exact H2.
Defined.

Lemma url_text_inj p i1 i2 x1 x2 :
  String.length x1 = String.length x2 ->
  p +:+ str_of_int i1 +:+ x1 = p +:+ str_of_int i2 +:+ x2 ->
  i1 = i2 /\ x1 = x2.
Proof.
  intros Hlen E. apply append_inj_l in E.
  apply append_inj_r in E; [|exact Hlen]. destruct E as [E ->].
  apply str_of_int_inj in E. split; [exact E | reflexivity].
Qed.

(** X18. The [url] of an emoji with an [int] id is the CDN address of
    the id with the extension [.gif] when the emoji is animated and [.png]
    otherwise.  So it tells the id and whether the emoji is animated, and
    nothing else: two such emojis have the same [url] exactly when they
    have the same id and the same truth value of [animated]. *)
Theorem emoji_url_identifies (e1 e2 : Emoji) (i1 i2 : Z) :
  emoji_id e1 = VInt i1 -> emoji_id e2 = VInt i2 ->
  url e1
  = Some ("https://cdn.discordapp.com/emojis/" +:+ str_of_int i1
          +:+ (if truthy (animated e1) then ".gif" else ".png"))
  /\ url e2
     = Some ("https://cdn.discordapp.com/emojis/" +:+ str_of_int i2
             +:+ (if truthy (animated e2) then ".gif" else ".png"))
  /\ exists u1 u2, url e1 = Some u1 /\ url e2 = Some u2
       /\ (u1 = u2 <->
           i1 = i2 /\ truthy (animated e1) = truthy (animated e2)).
Proof.
  intros H1 H2.
  assert (U1 : url e1
               = Some ("https://cdn.discordapp.com/emojis/" +:+ str_of_int i1
                       +:+ (if truthy (animated e1) then ".gif" else ".png"))).
  { unfold url. rewrite H1. cbn [str].
    destruct (truthy (animated e1)); reflexivity. }
  assert (U2 : url e2
               = Some ("https://cdn.discordapp.com/emojis/" +:+ str_of_int i2
                       +:+ (if truthy (animated e2) then ".gif" else ".png"))).
  { unfold url. rewrite H2. cbn [str].
    destruct (truthy (animated e2)); reflexivity. }
  split; [exact U1|]. split; [exact U2|].
  rewrite U1, U2. eexists. eexists.
  split; [reflexivity|]. split; [reflexivity|]. split.
  - intros E. apply url_text_inj in E.
    + destruct E as [-> E]. split; [reflexivity|].
      destruct (truthy (animated e1)), (truthy (animated e2));
        try reflexivity; discriminate E.
    + destruct (truthy (animated e1)), (truthy (animated e2)); reflexivity.
  - intros [-> ->]. reflexivity.
Qed.

Lemma emoji_url_identifies_witness :
  url Examples.blob = Some "https://cdn.discordapp.com/emojis/123.gif"
  /\ url Examples.cat = Some "https://cdn.discordapp.com/emojis/123.png"
  /\ exists u1 u2, url Examples.blob = Some u1 /\ url Examples.cat = Some u2
       /\ (u1 = u2 <->
           123 = 123
           /\ truthy (animated Examples.blob)
              = truthy (animated Examples.cat)).
Proof.
  destruct (emoji_url_identifies Examples.blob Examples.cat 123 123
              eq_refl eq_refl) as (U1 & U2 & H).
  split; [exact U1|]. split; [exact U2 | exact H].
Defined.

Lemma comprehension_ok {A B} (f : A -> Res B) xs : forall ys,
  comprehension f xs = Ok ys <-> Forall2 (fun x y => f x = Ok y) xs ys.
Proof.
  induction xs as [|x xs IH]; intros ys; cbn [comprehension].
  - split.
    + intros [= <-]. constructor.
    + intros H. inversion H. reflexivity.
  - split.
    + destruct (f x) as [y|e] eqn:Ex; cbn [Py.bind]; [|discriminate].
      destruct (comprehension f xs) as [ys'|e] eqn:Exs; cbn [Py.bind];
        [|discriminate].
      intros [= <-]. constructor; [exact Ex | apply IH; reflexivity].
    + intros H. inversion H as [|x' y xs' ys' Hx Hxs]; subst.
      rewrite Hx. cbn [Py.bind].
      apply IH in Hxs. rewrite Hxs. reflexivity.
Qed.

Lemma comprehension_fails {A B} (f : A -> Res B) (P : Exn -> Prop) xs :
  (forall x e, In x xs -> f x = Raise e -> P e) ->
  (exists x e, In x xs /\ f x = Raise e) ->
  exists e, comprehension f xs = Raise e /\ P e.
Proof.
  induction xs as [|x xs IH]; intros HP (x0 & e0 & Hin & Hx0);
    [destruct Hin|].
  cbn [comprehension].
  destruct (f x) as [y|e] eqn:Ex; cbn [Py.bind].
  - destruct IH as (e & He & HPe).
    + intros x' e' Hin' Hx'. apply (HP x' e'); [now right | exact Hx'].
    + destruct Hin as [->|Hin]; [congruence|]. now exists x0, e0.
    + exists e. rewrite He. split; [reflexivity | exact HPe].
  - exists e. split; [reflexivity|]. apply (HP x e); [now left | exact Ex].
Qed.

Lemma guild_role_cached w e g z :
  guild w e = Ok (Some g) ->
  guild_role w e (VInt z)
  = match roles_of g !! z with
    | Some r => Ok r
    | None => Raise (KeyError (str_of_int z))
    end.
Proof. intros Hg. unfold guild_role. rewrite Hg. reflexivity. Qed.

(** X19. For an emoji of a cached guild whose role ids are [int]s: with
    no role ids, [roles] is the guild's default role alone; otherwise it
    is the guild's roles of these ids, one for each and in their order, and
    it fails with [KeyError] as soon as one id is not a role of the
    guild. *)
Theorem emoji_roles_resolved (w : World) (e : Emoji) (g : Guild)
        (ids : list Z) :
  guild w e = Ok (Some g) -> role_ids e = VList (List.map VInt ids) ->
  (ids = [] -> roles w e = (do r <- default_role g ; Ok [r]))
  /\ (ids <> [] ->
      (forall rs, roles w e = Ok rs <->
                  Forall2 (fun z r => roles_of g !! z = Some r) ids rs)
      /\ (forall z, In z ids -> roles_of g !! z = None ->
            exists k, roles w e = Raise (KeyError k))).
Proof.
  intros Hg Hids. unfold roles. rewrite Hids. cbn [len Py.bind items].
  rewrite length_map. split.
  - intros ->. cbn. unfold guild_default_role. rewrite Hg. reflexivity.
  - intros Hne.
    assert (Hlen : Z.leb (Z.of_nat (List.length ids)) 0 = false).
    { apply Z.leb_gt. destruct ids; [congruence | cbn [List.length]; lia]. }
    rewrite Hlen. split.
    + intros rs. rewrite comprehension_ok. rewrite Forall2_fmap_l.
      split; intros H; eapply Forall2_impl; try exact H;
        intros z r; cbn; rewrite (guild_role_cached w e g z Hg);
        destruct (roles_of g !! z); congruence.
    + intros z Hin Hz.
      destruct (comprehension_fails (guild_role w e)
                  (fun x => exists k, x = KeyError k) (List.map VInt ids))
        as (x & Hx & k & ->).
      * intros v x Hv Hx. apply in_map_iff in Hv as (z' & <- & _).
        rewrite (guild_role_cached w e g z' Hg) in Hx.
        destruct (roles_of g !! z'); [discriminate Hx|].
        injection Hx as <-. eexists. reflexivity.
      * exists (VInt z). eexists. split; [apply in_map; exact Hin|].
        rewrite (guild_role_cached w e g z Hg), Hz. reflexivity.
      * exists k. exact Hx.
Qed.

Lemma emoji_roles_resolved_witness :
  Emoji.__init__ party_kwargs = Ok party
  /\ roles world0 (cached party) = Ok [admins; mods]
  /\ roles world0 (cached Examples.blob) = Ok [everyone].
Proof.
  split; [reflexivity|]. split.
  - destruct (emoji_roles_resolved world0 (cached party) guild7 [71; 70]
                eq_refl eq_refl) as [_ H].
    destruct H as [H _]; [discriminate|].
    apply H. repeat constructor.
  - destruct (emoji_roles_resolved world0 (cached Examples.blob) guild7 []
                eq_refl eq_refl) as [H _].
    apply H. reflexivity.
Defined.

(** X20. An emoji as [Emoji.__init__] leaves it has no guild: with a
    client attached its [guild] is [None], and its [roles] fail with
    [AttributeError] whatever its role ids are. *)
Theorem fresh_emoji_has_no_guild (w : World) (kwargs : gmap string Val)
        (e : Emoji) (l : list Val) :
  Emoji.__init__ kwargs = Ok e -> role_ids e = VList l ->
  (forall c, emoji_bot e = VClient c -> guild w e = Ok None)
  /\ exists a, roles w e = Raise (AttributeError a).
Proof.
  intros Hinit Hl.
  assert (Hgid : guild_id e = VNone).
  { unfold Emoji.__init__ in Hinit.
    destruct (int (get kwargs "id" VNone)); cbn in Hinit; [|discriminate].
    injection Hinit as <-. reflexivity. }
  assert (Hg : guild w e = Ok None
               \/ guild w e = Raise (AttributeError "guilds")).
  { unfold guild. rewrite Hgid.
    destruct (emoji_bot e); cbn; auto. }
  split.
  - intros c Hc. unfold guild. rewrite Hc, Hgid. reflexivity.
  - unfold roles. rewrite Hl. cbn [len Py.bind items].
    destruct l as [|x l]; cbn [List.length].
    + cbn. unfold guild_default_role.
      destruct Hg as [-> | ->]; cbn; eexists; reflexivity.
    + replace (Z.leb (Z.of_nat (S (List.length l))) 0) with false
        by (symmetry; apply Z.leb_gt; lia).
      cbn [comprehension]. unfold guild_role at 1.
      destruct Hg as [-> | ->]; cbn; eexists; reflexivity.
Qed.

Lemma fresh_emoji_has_no_guild_witness :
  Emoji.__init__ party_kwargs = Ok party
  /\ guild world0 party = Ok None
  /\ exists a, roles world0 party = Raise (AttributeError a).
Proof.
  split; [reflexivity|].
  destruct (fresh_emoji_has_no_guild world0 party_kwargs party
              [VInt 71; VInt 70] eq_refl eq_refl) as [Hg Hr].
  split; [apply (Hg 0%nat); reflexivity | exact Hr].
Defined.

Lemma all_chars_append P a b :
  all_chars P (a +:+ b) = (all_chars P a && all_chars P b)%bool.
Proof.
  induction a as [|c a IH]; [reflexivity|].
  rewrite append_cons. cbn [all_chars]. rewrite IH, andb_assoc. reflexivity.
Qed.

(** Two texts cut at their last colon. *)
Lemma last_colon p1 : forall p2 d1 d2,
  all_chars no_colon d1 = true -> all_chars no_colon d2 = true ->
  p1 +:+ String ":" d1 = p2 +:+ String ":" d2 -> p1 = p2 /\ d1 = d2.
Proof.
  induction p1 as [|c p1 IH]; intros [|c' p2] d1 d2 H1 H2 E;
    rewrite ?append_nil, ?append_cons in E.
  - injection E as ->. split; reflexivity.
  - exfalso. injection E as <- ->.
    rewrite all_chars_append in H1. apply andb_prop in H1 as [_ H1].
    cbn in H1. discriminate H1.
  - exfalso. injection E as -> <-.
    rewrite all_chars_append in H2. apply andb_prop in H2 as [_ H2].
    cbn in H2. discriminate H2.
  - injection E as -> E. destruct (IH p2 d1 d2 H1 H2 E) as [-> ->].
    split; reflexivity.
Qed.

Lemma is_digit_no_colon c : is_digit c = true -> no_colon c = true.
Proof. by_cases_on c. Qed.

Lemma str_of_int_no_colon z : all_chars no_colon (str_of_int z) = true.
Proof.
  assert (Hd : forall d, all_chars no_colon (NilZero.string_of_uint d) = true).
  { intros d. unfold NilZero.string_of_uint.
    destruct d; try reflexivity;
      (eapply all_chars_impl; [apply is_digit_no_colon|];
       apply string_of_uint_digits). }
  unfold str_of_int. destruct z as [|p|p]; cbn.
  - reflexivity.
  - apply Hd.
  - apply Hd.
Qed.

(** X29. The text of an emoji with a [str] name and an [int] id tells
    the name, the id and whether the emoji is animated: two such emojis
    have the same text exactly when they agree on the three. *)
Theorem emoji_text_identifies (e1 e2 : Emoji) (n1 n2 : string) (i1 i2 : Z) :
  name e1 = VStr n1 -> name e2 = VStr n2 ->
  emoji_id e1 = VInt i1 -> emoji_id e2 = VInt i2 ->
  exists s1 s2, __str__ e1 = Some s1 /\ __str__ e2 = Some s2
    /\ (s1 = s2 <->
        n1 = n2 /\ i1 = i2
        /\ truthy (animated e1) = truthy (animated e2)).
Proof.
  intros Hn1 Hn2 H1 H2. unfold __str__. rewrite Hn1, Hn2, H1, H2. cbn [str].
  eexists. eexists. split; [reflexivity|]. split; [reflexivity|].
  assert (Hd : forall i, all_chars no_colon (str_of_int i +:+ ">") = true).
  { intros i. rewrite all_chars_append, str_of_int_no_colon. reflexivity. }
  assert (Hcut : forall a,
    a +:+ ":" +:+ n1 +:+ ":" +:+ str_of_int i1 +:+ ">"
    = a +:+ ":" +:+ n2 +:+ ":" +:+ str_of_int i2 +:+ ">" ->
    n1 = n2 /\ i1 = i2).
  { intros a E. apply append_inj_l in E.
    change (":" +:+ n1 +:+ ":" +:+ str_of_int i1 +:+ ">")
      with (String ":" (n1 +:+ String ":" (str_of_int i1 +:+ ">"))) in E.
    change (":" +:+ n2 +:+ ":" +:+ str_of_int i2 +:+ ">")
      with (String ":" (n2 +:+ String ":" (str_of_int i2 +:+ ">"))) in E.
    injection E as E.
    apply last_colon in E; [|apply Hd|apply Hd]. destruct E as [-> E].
    apply append_inj_r in E; [|reflexivity]. destruct E as [E _].
    apply str_of_int_inj in E. split; [reflexivity | exact E]. }
  split.
  - intros E. apply append_inj_l in E.
    destruct (truthy (animated e1)), (truthy (animated e2)).
    + destruct (Hcut "a" E) as [-> ->]. repeat split.
    + discriminate E.
    + discriminate E.
    + destruct (Hcut "" E) as [-> ->]. repeat split.
  - intros (-> & -> & ->). reflexivity.
Qed.

Lemma emoji_text_identifies_witness :
  __str__ Examples.blob = Some "<a:blob:123>"
  /\ __str__ Examples.cat = Some "<:cat:123>"
  /\ exists s1 s2, __str__ Examples.blob = Some s1
       /\ __str__ Examples.cat = Some s2
       /\ (s1 = s2 <->
           "blob" = "cat" /\ 123 = 123
           /\ truthy (animated Examples.blob) = truthy (animated Examples.cat)).
Proof.
  split; [reflexivity|]. split; [reflexivity|].
  apply (emoji_text_identifies Examples.blob Examples.cat "blob" "cat" 123 123);
    reflexivity.
Defined.

End EmojiMoreFacts.

(* ===================================================================== *)
(** * Facts about curious/util.py *)
(* ===================================================================== *)

Module UtilFacts.
Import Py Float Util StringFacts.
Local Open Scope list_scope.

(** A filled wrapper hands out its items in order and then stops. *)
Lemma async_for_filled {A} (l : list A) : forall fuel cl c,
  (List.length l < fuel)%nat ->
  async_for fuel (mkWrapper cl c l true)
  = ((l, Exhausted), mkWrapper cl c [] true).
Proof.
  induction l as [|x l IH]; intros fuel cl c Hfuel;
    (destruct fuel as [|fuel]; [cbn in Hfuel; lia|]).
  - reflexivity.
  - cbn [async_for]. unfold __anext__. cbn.
    rewrite IH by (cbn in Hfuel; lia). reflexivity.
Qed.

(** X21. Iterating over a fresh wrapper whose coroutine gives [l] hands
    out the items of [l] in order and then ends; the coroutine has been
    awaited once, and iterating again gives nothing. *)
Theorem wrapper_iterates_once {A} (cl : Val) (l : list A) (fuel : nat) :
  (List.length l < fuel)%nat ->
  exists w,
    async_for fuel (__init__ cl (Fresh (Ok l))) = ((l, Exhausted), w)
    /\ coro w = Awaited
    /\ async_for fuel w = (([], Exhausted), w).
Proof.
  intros Hfuel. exists (mkWrapper cl Awaited [] true).
  split; [|split].
  - destruct fuel as [|fuel]; [lia|].
    destruct l as [|x l].
    + reflexivity.
    + cbn [async_for]. unfold __anext__, __init__. cbn.
      rewrite async_for_filled by (cbn in Hfuel; lia). reflexivity.
  - reflexivity.
  - apply (async_for_filled []). cbn. lia.
Qed.

Lemma wrapper_iterates_once_witness :
  exists w,
    async_for 4 (__init__ (VClient 0) (Fresh (Ok [1; 2; 3])))
    = (([1; 2; 3], Exhausted), w)
    /\ coro w = Awaited
    /\ async_for 4 w = (([], Exhausted), w).
Proof.
  apply (wrapper_iterates_once (VClient 0) [1; 2; 3] 4). cbn. lia.
Defined.

(** X22. When the coroutine fails, the iteration breaks with its
    exception; iterating again neither ends nor repeats that exception but
    breaks with [RuntimeError], the coroutine being spent. *)
Theorem wrapper_failure_sticks {A} (cl : Val) (e : Exn) (fuel : nat) :
  (0 < fuel)%nat ->
  exists w,
    async_for (A := A) fuel (__init__ cl (Fresh (Raise e)))
    = (([], Broke e), w)
    /\ async_for fuel w
       = (([], Broke (RuntimeError "cannot reuse already awaited coroutine")),
          w).
Proof.
  intros Hfuel. exists (mkWrapper cl Awaited [] false).
  destruct fuel as [|fuel]; [lia|]. split; reflexivity.
Qed.

Lemma wrapper_failure_sticks_witness :
  exists w,
    async_for (A := Z) 1 (__init__ (VClient 0) (Fresh (Raise (HTTPException 500))))
    = (([], Broke (HTTPException 500)), w)
    /\ async_for 1 w
       = (([], Broke (RuntimeError "cannot reuse already awaited coroutine")),
          w).
Proof.
  apply (wrapper_failure_sticks (VClient 0) (HTTPException 500) 1). lia.
Defined.

Lemma endswith_append a b : endswith (a +:+ b) b = true.
Proof.
  unfold endswith. rewrite length_append.
  replace (String.length a + String.length b - String.length b)%nat
    with (String.length a) by lia.
  rewrite substring_append_r, String.eqb_refl.
  replace (Nat.leb _ _) with true by (symmetry; apply Nat.leb_le; lia).
  reflexivity.
Qed.

Lemma drop_last_append a b : drop_last (String.length b) (a +:+ b) = a.
Proof.
  unfold drop_last. rewrite length_append.
  replace (String.length a + String.length b - String.length b)%nat
    with (String.length a) by lia.
  apply substring_append_l.
Qed.

(** X23. [to_datetime] parses a text that ends in ["+00:00"] without this
    suffix, which it removes once; a text with the suffix added gives what
    the text itself gives, unless the text ends in the suffix already; and
    [None] gives [None] without parsing. *)
Theorem to_datetime_suffix
        (strptime : string -> string -> Res datetime) (s : string) :
  to_datetime strptime (Some (s +:+ "+00:00"))
  = (do d <- strptime s "%Y-%m-%dT%H:%M:%S.%f" ; Ok (Some d))
  /\ (endswith s "+00:00" = false ->
      to_datetime strptime (Some (s +:+ "+00:00"))
      = to_datetime strptime (Some s))
  /\ to_datetime strptime None = Ok None.
Proof.
  assert (H : to_datetime strptime (Some (s +:+ "+00:00"))
              = (do d <- strptime s "%Y-%m-%dT%H:%M:%S.%f" ; Ok (Some d))).
  { unfold to_datetime. rewrite endswith_append.
    change 6%nat with (String.length "+00:00").
    rewrite drop_last_append. reflexivity. }
  split; [exact H|]. split; [|reflexivity].
  intros Hs. rewrite H. unfold to_datetime. rewrite Hs. reflexivity.
Qed.

Lemma to_datetime_suffix_witness :
  to_datetime strptime0 (Some "2017-05-01T12:30:00.250000+00:00")
  = Ok (Some (mkDatetime 2017 5 1 12 30 0 250000))
  /\ to_datetime strptime0 (Some "2017-05-01T12:30:00.250000")
     = Ok (Some (mkDatetime 2017 5 1 12 30 0 250000)).
Proof.
  destruct (to_datetime_suffix strptime0 "2017-05-01T12:30:00.250000")
    as (H1 & H2 & _).
  split; [exact H1|]. rewrite <- H2; [exact H1 | reflexivity].
Defined.

End UtilFacts.

(* ===================================================================== *)
(** * Facts about construction, the gateway URL, running and counting *)
(* ===================================================================== *)

Module RuntimeFacts.
Import Py Entities Runtime.
Local Open Scope Z_scope.
Local Open Scope list_scope.

Lemma land_pow2 a n :
  0 <= n -> Z.land a (2 ^ n) = if Z.testbit a n then 2 ^ n else 0.
Proof.
  intros Hn. apply Z.bits_inj'. intros m Hm.
  rewrite Z.land_spec, Z.pow2_bits_eqb by exact Hn.
  destruct (Z.eqb_spec n m) as [->|Hne].
  - rewrite andb_true_r. destruct (Z.testbit a m) eqn:E.
    + rewrite Z.pow2_bits_true by exact Hm. reflexivity.
    + rewrite Z.bits_0. reflexivity.
  - rewrite andb_false_r. destruct (Z.testbit a n).
    + rewrite Z.pow2_bits_false by lia. reflexivity.
    + rewrite Z.bits_0. reflexivity.
Qed.

(** The truth value of [bot_type & flag] for the flag [2^n]. *)
Lemma flag_set a n :
  0 <= n -> truthy (VInt (Z.land a (2 ^ n))) = Z.testbit a n.
Proof.
  intros Hn. rewrite land_pow2 by exact Hn. cbn [truthy].
  destruct (Z.testbit a n); [|reflexivity].
  apply negb_true_iff, Z.eqb_neq.
  pose proof (Z.pow_pos_nonneg 2 n ltac:(lia) Hn). lia.
Qed.

(** X24. A client cannot be built exactly when [bot_type] has both the
    [BOT] and the [USERBOT] bit, whatever its other bits are; a client with
    neither bit is built.  A client that is built logs in as a bot exactly
    when the [BOT] bit is set, and starts with no shards and no gateway
    URL. *)
Theorem bot_type_check (token : string) (bt : Z) :
  ((exists msg, __init__ token bt = Raise (ValueError msg))
   <-> Z.testbit bt 0 = true /\ Z.testbit bt 1 = true)
  /\ ((exists c, __init__ token bt = Ok c)
      <-> Z.testbit bt 0 = false \/ Z.testbit bt 1 = false)
  /\ (forall c, __init__ token bt = Ok c ->
        http_bot c = Z.testbit bt 0 /\ bot_type c = bt
        /\ shard_count c = 0 /\ _gw_url c = VNone /\ spawned c = []).
Proof.
  pose proof (flag_set bt 0 ltac:(lia)) as H0.
  pose proof (flag_set bt 1 ltac:(lia)) as H1.
  change (2 ^ 0) with 1 in H0. change (2 ^ 1) with 2 in H1.
  unfold __init__, BotType.BOT, BotType.USERBOT. rewrite H0, H1.
  clear H0 H1.
  destruct (Z.testbit bt 0), (Z.testbit bt 1); cbn [andb].
  all: split; [split; [intros [msg H]; try discriminate H; auto
                      | intros [H1 H2]; try discriminate; eexists; reflexivity]|].
  all: split; [split; [intros [c H]; try discriminate H; auto
                      | intros [H|H]; try discriminate H;
                        eexists; reflexivity]|].
  all: intros c H; try discriminate H; injection H as <-; cbn;
    repeat split; reflexivity.
Qed.

Lemma bot_type_check_witness :
  (exists msg, __init__ "token" 3 = Raise (ValueError msg))
  /\ (exists c, __init__ "token" default_bot_type = Ok c /\ http_bot c = true)
  /\ (exists c, __init__ "token" BotType.ONLY_USER = Ok c
                /\ http_bot c = false).
Proof.
  split; [|split].
  - destruct (bot_type_check "token" 3) as ([_ H] & _ & _).
    apply H. split; reflexivity.
  - destruct (bot_type_check "token" default_bot_type) as (_ & [_ H] & Hc).
    destruct H as [c Hc']; [right; reflexivity|].
    exists c. split; [exact Hc'|].
    destruct (Hc c Hc') as (-> & _). reflexivity.
  - destruct (bot_type_check "token" BotType.ONLY_USER) as (_ & [_ H] & Hc).
    destruct H as [c Hc']; [left; reflexivity|].
    exists c. split; [exact Hc'|].
    destruct (Hc c Hc') as (-> & _). reflexivity.
Defined.

Lemma truthy_str u : u <> "" -> truthy (VStr u) = true.
Proof.
  intros Hu. cbn [truthy]. apply negb_true_iff.
  apply String.eqb_neq. exact Hu.
Qed.

Lemma asked_app l l' : asked (l ++ l') = asked l ++ asked l'.
Proof.
  induction l as [|[q|i c] l IH]; cbn [app asked]; rewrite ?IH; reflexivity.
Qed.

Lemma spawns_app l l' : spawns (l ++ l') = spawns l ++ spawns l'.
Proof.
  induction l as [|[q|i c] l IH]; cbn [app spawns]; rewrite ?IH; reflexivity.
Qed.

Lemma requests_ask q self : requests (ask q self) = requests self ++ [q].
Proof. unfold requests, ask. cbn [log]. apply asked_app. Qed.

Lemma spawned_ask q self : spawned (ask q self) = spawned self.
Proof.
  unfold spawned, ask. cbn [log]. rewrite spawns_app. apply app_nil_r.
Qed.

(** X25. The gateway URL is asked for at most once: when
    [get_gateway_url] or [get_shard_count] has obtained a URL that is not
    empty, [get_gateway_url] answers with it from then on without a
    request, whatever the service would say.  An empty URL is returned but
    not kept. *)
Theorem gateway_url_is_fetched_once (svc : Service) (self : Fields)
        (u : string) :
  u <> "" ->
  (gateway_url svc = Ok u -> truthy (_gw_url self) = false ->
   exists self', get_gateway_url svc self = (Ok (VStr u), self')
     /\ requests self' = requests self ++ [GetGatewayUrl]
     /\ forall svc', get_gateway_url svc' self' = (Ok (VStr u), self'))
  /\ (forall n, shard_count_info svc = Ok (u, n) ->
      exists self', get_shard_count svc self = (Ok n, self')
        /\ requests self' = requests self ++ [GetShardCount]
        /\ forall svc', get_gateway_url svc' self' = (Ok (VStr u), self'))
  /\ (gateway_url svc = Ok "" -> truthy (_gw_url self) = false ->
      exists self', get_gateway_url svc self = (Ok (VStr ""), self')
        /\ requests self' = requests self ++ [GetGatewayUrl]
        /\ truthy (_gw_url self') = false).
Proof.
  intros Hu. pose proof (truthy_str u Hu) as Ht. split; [|split].
  - intros Hsvc Hself. unfold get_gateway_url at 1. rewrite Hself, Hsvc.
    eexists. split; [reflexivity|]. split; [apply requests_ask|].
    intros svc'. unfold get_gateway_url. cbn [_gw_url set_gw_url].
    rewrite Ht. reflexivity.
  - intros n Hsvc. unfold get_shard_count. rewrite Hsvc.
    eexists. split; [reflexivity|]. split; [apply requests_ask|].
    intros svc'. unfold get_gateway_url. cbn [_gw_url set_gw_url].
    rewrite Ht. reflexivity.
  - intros Hsvc Hself. unfold get_gateway_url. rewrite Hself, Hsvc.
    eexists. split; [reflexivity|]. split; [apply requests_ask|].
    reflexivity.
Qed.

Lemma gateway_url_is_fetched_once_witness :
  exists self',
    get_shard_count service0 fresh_bot = (Ok 3, self')
    /\ requests self' = requests fresh_bot ++ [GetShardCount]
    /\ forall svc',
         get_gateway_url svc' self'
         = (Ok (VStr "wss://gateway.example"), self').
Proof.
  destruct (gateway_url_is_fetched_once service0 fresh_bot
              "wss://gateway.example" ltac:(discriminate)) as (_ & H & _).
  apply (H 3). reflexivity.
Defined.

Lemma fold_spawn c l : forall self,
  let self' := List.fold_left (fun self i => spawn i c self) l self in
  log self' = log self ++ List.map (fun i => Spawned i c) l
  /\ shard_count self' = shard_count self
  /\ _gw_url self' = _gw_url self.
Proof.
  induction l as [|i l IH]; intros self; cbn [List.fold_left List.map].
  - rewrite app_nil_r. repeat split.
  - destruct (IH (spawn i c self)) as (H1 & H2 & H3).
    cbn zeta. rewrite H1, H2, H3. cbn [spawn log shard_count _gw_url].
    rewrite <- app_assoc. repeat split.
Qed.

Lemma asked_spawned c l : asked (List.map (fun i => Spawned i c) l) = [].
Proof. induction l as [|i l IH]; [reflexivity | exact IH]. Qed.

Lemma spawns_spawned c l :
  spawns (List.map (fun i => Spawned i c) l) = List.map (fun i => (i, c)) l.
Proof.
  induction l as [|i l IH]; [reflexivity|].
  cbn [List.map spawns]. rewrite IH. reflexivity.
Qed.

Lemma in_range n i : In i (range n) <-> 0 <= i < n.
Proof.
  unfold range. rewrite in_map_iff. split.
  - intros (k & <- & Hk). apply in_seq in Hk. lia.
  - intros Hi. exists (Z.to_nat i). split; [lia|]. apply in_seq. lia.
Qed.

Lemma NoDup_range n : List.NoDup (range n).
Proof.
  unfold range. apply Finite.Injective_map_NoDup.
  - intros a b. apply Nat2Z.inj.
  - apply List.seq_NoDup.
Qed.

(** X26. With autosharding, [run_async] takes the number of shards from
    the service and not from its argument.  What it does is, in this
    order: it asks for the shard count, then for the application info when
    the client is a bot, and only then spawns one shard task for each id
    from 0 up to the count, each id once and in order, with the count
    stored.  What it gives is what the task group gives for these
    tasks. *)
Theorem run_async_spawns_each_shard (svc : Service) (self : Fields)
        (k n : Z) (gw : string) (info : Val) :
  shard_count_info svc = Ok (gw, n) -> app_info svc = Ok info ->
  spawned self = [] ->
  exists self',
    run_async svc k true self
    = (task_group svc (List.map (fun i => (i, n)) (range n)), self')
    /\ log self'
       = log self
           ++ Asked GetShardCount
              :: (if Z.testbit (bot_type self) 0 then [Asked GetAppInfo]
                  else [])
           ++ List.map (fun i => Spawned i n) (range n)
    /\ shard_count self' = n
    /\ spawned self' = List.map (fun i => (i, n)) (range n)
    /\ (forall i c, In (i, c) (spawned self') <-> c = n /\ 0 <= i < n)
    /\ List.NoDup (spawned self')
    /\ requests self'
       = requests self ++ GetShardCount
           :: (if Z.testbit (bot_type self) 0 then [GetAppInfo] else []).
Proof.
  intros Hsvc Hinfo Hsp.
  pose proof (flag_set (bot_type self) 0 ltac:(lia)) as Hbit.
  change (2 ^ 0) with 1 in Hbit.
  unfold run_async, get_shard_count. rewrite Hsvc. unfold start.
  cbn [bot_type set_shard_count set_gw_url ask]. unfold BotType.BOT.
  rewrite Hbit, Hinfo.
  assert (Hlog : forall self0 extra,
            log self0 = log self ++ Asked GetShardCount :: extra ->
            shard_count self0 = n ->
            let self' := List.fold_left (fun self i => spawn i n self)
                                        (range n) self0 in
            log self'
            = log self ++ Asked GetShardCount :: extra
                ++ List.map (fun i => Spawned i n) (range n)
            /\ shard_count self' = n).
  { intros self0 extra H0 Hn.
    destruct (fold_spawn n (range n) self0) as (H1 & H2 & _).
    cbn zeta in *. rewrite H1, H2, H0, Hn. split; [|reflexivity].
    rewrite <- app_assoc. reflexivity. }
  assert (Hrest : forall self' extra,
            log self'
            = log self ++ Asked GetShardCount :: extra
                ++ List.map (fun i => Spawned i n) (range n) ->
            spawns extra = [] ->
            spawned self' = List.map (fun i => (i, n)) (range n)
            /\ (forall i c, In (i, c) (spawned self') <-> c = n /\ 0 <= i < n)
            /\ List.NoDup (spawned self')
            /\ requests self' = requests self ++ GetShardCount :: asked extra).
  { intros self' extra Hl Hextra.
    assert (Hs : spawned self' = List.map (fun i => (i, n)) (range n)).
    { unfold spawned in *. rewrite Hl, spawns_app, Hsp. cbn [app spawns].
      rewrite spawns_app, Hextra, spawns_spawned. reflexivity. }
    rewrite Hs. split; [reflexivity|]. split; [|split].
    - intros i c. rewrite in_map_iff. split.
      + intros (j & [= <- <-] & Hj). apply in_range in Hj. auto.
      + intros [-> Hi]. exists i. split; [reflexivity|]. now apply in_range.
    - apply Finite.Injective_map_NoDup; [|apply NoDup_range].
      intros a b [= E]. exact E.
    - unfold requests. rewrite Hl, asked_app. cbn [asked].
      rewrite asked_app, asked_spawned, app_nil_r. reflexivity. }
  destruct (Z.testbit (bot_type self) 0).
  - eexists. split; [reflexivity|].
    match goal with
    | |- context [List.fold_left ?f ?l ?s0] =>
        destruct (Hlog s0 [Asked GetAppInfo]) as (Ha & Hb);
          [cbn [log set_application_info ask set_shard_count set_gw_url];
           rewrite <- app_assoc; reflexivity
          | reflexivity |]
    end.
    cbn zeta in Ha, Hb.
    destruct (Hrest _ [Asked GetAppInfo] Ha eq_refl) as (Hc & Hd & He & Hf).
    split; [exact Ha|]. split; [exact Hb|]. split; [exact Hc|].
    split; [exact Hd|]. split; [exact He | exact Hf].
  - eexists. split; [reflexivity|].
    match goal with
    | |- context [List.fold_left ?f ?l ?s0] =>
        destruct (Hlog s0 []) as (Ha & Hb);
          [cbn [log set_application_info ask set_shard_count set_gw_url];
           reflexivity
          | reflexivity |]
    end.
    cbn zeta in Ha, Hb.
    destruct (Hrest _ [] Ha eq_refl) as (Hc & Hd & He & Hf).
    split; [exact Ha|]. split; [exact Hb|]. split; [exact Hc|].
    split; [exact Hd|]. split; [exact He | exact Hf].
Qed.

Lemma run_async_spawns_each_shard_witness :
  (exists self', run_async service0 1 true fresh_bot = (Ok tt, self')
     /\ log self'
        = [Asked GetShardCount; Asked GetAppInfo;
           Spawned 0 3; Spawned 1 3; Spawned 2 3]
     /\ shard_count self' = 3)
  /\ (exists self',
        run_async giving_up 1 true fresh_bot
        = (Raise (RuntimeError "Gave up reconnecting shard id 1"), self')
        /\ spawned self' = [(0, 3); (1, 3); (2, 3)]).
Proof.
  split.
  - destruct (run_async_spawns_each_shard service0 fresh_bot 1 3
                "wss://gateway.example" (VObject "appinfo")
                eq_refl eq_refl eq_refl)
      as (self' & H1 & H2 & H3 & _).
    exists self'. split; [exact H1|]. split; [exact H2 | exact H3].
  - destruct (run_async_spawns_each_shard giving_up fresh_bot 1 3
                "wss://gateway.example" (VObject "appinfo")
                eq_refl eq_refl eq_refl)
      as (self' & H1 & _ & _ & H4 & _).
    exists self'. split; [exact H1 | exact H4].
Defined.

(** X27. When the service fails, [run_async] spawns no shard: a failure
    of the shard count leaves the stored number as it was, and a failure
    of the application info of a bot comes after the number has been
    stored. *)
Theorem run_async_failures (svc : Service) (self : Fields) (k : Z)
        (e : Exn) :
  (shard_count_info svc = Raise e ->
   exists self', run_async svc k true self = (Raise e, self')
     /\ spawned self' = spawned self
     /\ shard_count self' = shard_count self
     /\ _gw_url self' = _gw_url self)
  /\ (forall gw n, shard_count_info svc = Ok (gw, n) ->
      Z.testbit (bot_type self) 0 = true -> app_info svc = Raise e ->
      exists self', run_async svc k true self = (Raise e, self')
        /\ spawned self' = spawned self
        /\ shard_count self' = n
        /\ _gw_url self' = VStr gw)
  /\ (Z.testbit (bot_type self) 0 = true -> app_info svc = Raise e ->
      exists self', run_async svc k false self = (Raise e, self')
        /\ spawned self' = spawned self
        /\ shard_count self' = k
        /\ requests self' = requests self ++ [GetAppInfo]).
Proof.
  pose proof (flag_set (bot_type self) 0 ltac:(lia)) as Hbit.
  change (2 ^ 0) with 1 in Hbit.
  split; [|split].
  - intros Hsvc. unfold run_async, get_shard_count. rewrite Hsvc.
    eexists. split; [reflexivity|].
    split; [apply spawned_ask|]. split; reflexivity.
  - intros gw n Hsvc Hb Hinfo. unfold run_async, get_shard_count.
    rewrite Hsvc. unfold start.
    cbn [bot_type set_shard_count set_gw_url ask]. unfold BotType.BOT.
    rewrite Hbit, Hb, Hinfo.
    eexists. split; [reflexivity|]. split; [|split; reflexivity].
    unfold spawned, ask, set_shard_count, set_gw_url. cbn [log].
    rewrite !spawns_app. cbn [spawns]. rewrite !app_nil_r. reflexivity.
  - intros Hb Hinfo. unfold run_async, start.
    cbn [bot_type set_shard_count set_gw_url ask]. unfold BotType.BOT.
    rewrite Hbit, Hb, Hinfo.
    eexists. split; [reflexivity|]. split; [|split; [reflexivity|]].
    + unfold spawned, ask, set_shard_count, set_gw_url. cbn [log].
      rewrite !spawns_app. cbn [spawns]. rewrite !app_nil_r. reflexivity.
    + unfold requests, ask, set_shard_count, set_gw_url. cbn [log].
      apply asked_app.
Qed.

Lemma run_async_failures_witness :
  exists self',
    run_async no_app_info 1 true fresh_bot = (Raise (HTTPException 401), self')
    /\ spawned self' = []
    /\ shard_count self' = 3
    /\ _gw_url self' = VStr "wss://gateway.example".
Proof.
  destruct (run_async_failures no_app_info fresh_bot 1 (HTTPException 401))
    as (_ & H & _).
  apply (H "wss://gateway.example" 3); reflexivity.
Defined.

Lemma lookup_update (c d : gmap string Z) name :
  update c d !! name
  = match c !! name, d !! name with
    | Some x, Some y => Some (y + x)
    | Some x, None => Some x
    | None, o => o
    end.
Proof.
  unfold update. rewrite lookup_union_with.
  destruct (c !! name), (d !! name); reflexivity.
Qed.

Lemma count_update (c d : gmap string Z) name :
  count (update c d) name = count c name + count d name.
Proof.
  unfold count. rewrite lookup_update.
  destruct (c !! name), (d !! name); cbn; lia.
Qed.

Lemma update_swap (c a b : gmap string Z) :
  update (update c a) b = update (update c b) a.
Proof.
  apply map_eq. intros name. rewrite !lookup_update.
  destruct (c !! name), (a !! name), (b !! name); try reflexivity.
  all: f_equal; lia.
Qed.

Lemma fold_update_count (gws : list (Z * gmap string Z)) name : forall c,
  count (List.fold_left (fun c gw => update c (snd gw)) gws c) name
  = count c name
    + List.fold_right Z.add 0 (List.map (fun gw => count (snd gw) name) gws).
Proof.
  induction gws as [|gw gws IH]; intros c; cbn [List.fold_left List.map List.fold_right].
  - lia.
  - rewrite IH, count_update. lia.
Qed.

Lemma fold_update_none (gws : list (Z * gmap string Z)) name : forall c,
  List.fold_left (fun c gw => update c (snd gw)) gws c !! name = None
  <-> c !! name = None /\ Forall (fun gw => snd gw !! name = None) gws.
Proof.
  induction gws as [|gw gws IH]; intros c; cbn [List.fold_left].
  - split; [intros H; split; [exact H | constructor] | intros [H _]; exact H].
  - rewrite IH, lookup_update. split.
    + intros [H1 H2]. destruct (c !! name), (snd gw !! name) eqn:E;
        try discriminate H1. split; [reflexivity|]. constructor; assumption.
    + intros [H1 H2]. inversion H2 as [|? ? Hgw Hrest]; subst.
      rewrite H1, Hgw. split; [reflexivity | exact Hrest].
Qed.

Lemma fold_update_perm (gws gws' : list (Z * gmap string Z)) :
  Permutation gws gws' -> forall c,
  List.fold_left (fun c gw => update c (snd gw)) gws c
  = List.fold_left (fun c gw => update c (snd gw)) gws' c.
Proof.
  induction 1 as [|x l l' _ IH|x y l|l l' l'' _ IH1 _ IH2]; intros c;
    cbn [List.fold_left].
  - reflexivity.
  - apply IH.
  - rewrite update_swap. reflexivity.
  - rewrite IH1. apply IH2.
Qed.

(** X28. [events_handled] counts, for every event name, the sum of what
    the gateways count for it; a name is in the result exactly when some
    gateway has it; and the order of the gateways does not matter. *)
Theorem events_handled_sums (gateways : list (Z * gmap string Z)) (name : string) :
  count (events_handled gateways) name
  = List.fold_right Z.add 0
      (List.map (fun gw => count (snd gw) name) gateways)
  /\ (events_handled gateways !! name = None
      <-> Forall (fun gw => snd gw !! name = None) gateways)
  /\ (forall gateways', Permutation gateways gateways' ->
        events_handled gateways' = events_handled gateways).
Proof.
  unfold events_handled. split; [|split].
  - rewrite fold_update_count. unfold count. rewrite lookup_empty. cbn. lia.
  - rewrite fold_update_none. rewrite lookup_empty. tauto.
  - intros gateways' Hp. symmetry. apply fold_update_perm. exact Hp.
Qed.

Lemma events_handled_sums_witness :
  count (events_handled counters0) "MESSAGE_CREATE" = 10
  /\ events_handled counters0 !! "TYPING_START" = None.
Proof.
  destruct (events_handled_sums counters0 "MESSAGE_CREATE") as (H & _ & _).
  destruct (events_handled_sums counters0 "TYPING_START") as (_ & [_ H'] & _).
  split; [rewrite H; reflexivity|].
  apply H'. repeat constructor.
Defined.

End RuntimeFacts.
